(** * FRED Economic Data Explorer: series client and metric store

    A shallow embedding of [app.py]: the HTTP client class [FredAPI], the
    two persistence helpers [save_metrics_to_file] and
    [load_metrics_from_file], and the parts of [main] that mutate the list
    of saved metrics and build the summary table.

    Conventions of the embedding.
    - A Python [str] is a [string]. [upper] and [strip] are those of
      Python on ASCII text ([isascii]); on other text they keep the
      characters above 127 as they are, which is not what Python does, so
      a statement that depends on which characters are letters carries
      the hypothesis that the text is ASCII.
    - A Python [dict] with string keys is a [gmap string _]: equality of
      [gmap]s is equality of Python dicts (same keys, same values, order
      of insertion ignored).
    - What pandas, numpy and the formatting of numbers do is not code of
      the repository: it is the record [pd.t], with the laws the program
      relies on, and the program is verified for every such record. The
      examples run on [float64], where a value is a binary64 [float].
    - [st.error], [st.warning] and [st.success] append to a list of
      [message]s, returned next to the result.
    - A Python exception is a value of [exn]; a block that may raise
      returns a [result]. *)

From Stdlib Require Import ZArith Bool Ascii String List Sorted Permutation Lia.
From Stdlib Require Import DecimalString Uint63 PrimFloat SpecFloat FloatOps.
From stdpp Require Import base option list sorting strings gmap fin_maps.

Set Warnings "-register-all".
Local Open Scope Z_scope.

(** ** Python strings *)

Module PyStr.

(** [str.isspace] on one ASCII character: TAB, LF, VT, FF, CR, the four
    separators FS GS RS US, and the space. *)
Definition isspace (c : ascii) : bool :=
  let n := N_of_ascii c in
  ((9 <=? n) && (n <=? 13) || (28 <=? n) && (n <=? 31) || (n =? 32))%N.

Definition islower (c : ascii) : bool :=
  let n := N_of_ascii c in ((97 <=? n) && (n <=? 122))%N.

Definition upper_char (c : ascii) : ascii :=
  if islower c then ascii_of_N (N_of_ascii c - 32) else c.

(** [s.upper()] for ASCII text: the letters a to z are the only
    characters with an upper case. *)
Fixpoint upper (s : string) : string :=
  match s with
  | EmptyString => EmptyString
  | String c s' => String (upper_char c) (upper s')
  end.

(** [s.lstrip()] *)
Fixpoint lstrip (s : string) : string :=
  match s with
  | EmptyString => EmptyString
  | String c s' => if isspace c then lstrip s' else s
  end.

(** [s.rstrip()] *)
Fixpoint rstrip (s : string) : string :=
  match s with
  | EmptyString => EmptyString
  | String c s' =>
      match rstrip s' with
      | EmptyString => if isspace c then EmptyString else String c EmptyString
      | r => String c r
      end
  end.

(** [s.strip()] for ASCII text: the white space removed is that of
    [isspace]. *)
Definition strip (s : string) : string := rstrip (lstrip s).

(** [s.isascii()]: every character is below 128. *)
Fixpoint isascii (s : string) : bool :=
  match s with
  | EmptyString => true
  | String c s' => (N_of_ascii c <? 128)%N && isascii s'
  end.

(** Truth value of a string: [bool(s)]. *)
Definition truthy (s : string) : bool :=
  match s with EmptyString => false | _ => true end.

(** Every character of [s] is white space ([s] may be empty). *)
Fixpoint all_space (s : string) : bool :=
  match s with
  | EmptyString => true
  | String c s' => isspace c && all_space s'
  end.

(** Some character of [s] is white space. *)
Fixpoint has_space (s : string) : bool :=
  match s with
  | EmptyString => false
  | String c s' => isspace c || has_space s'
  end.

(** Some character of [s] is a lower-case letter. *)
Fixpoint has_lower (s : string) : bool :=
  match s with
  | EmptyString => false
  | String c s' => islower c || has_lower s'
  end.

Definition first_char (s : string) : option ascii :=
  match s with EmptyString => None | String c _ => Some c end.

Fixpoint last_char (s : string) : option ascii :=
  match s with
  | EmptyString => None
  | String c EmptyString => Some c
  | String _ s' => last_char s'
  end.

(** No white space at either end: what [strip] leaves. *)
Definition stripped (s : string) : Prop :=
  (forall c, first_char s = Some c -> isspace c = false) /\
  (forall c, last_char s = Some c -> isspace c = false).

End PyStr.

(** ** Messages shown to the user, exceptions *)

Inductive message : Type :=
| Error (text : string)      (* st.error *)
| Warning (text : string)    (* st.warning *)
| Success (text : string).   (* st.success *)

(** The two classes the handlers of [FredAPI] tell apart, each with the
    text of [str(e)]. *)
Inductive exn : Type :=
| RequestException (text : string)   (* requests.exceptions.RequestException *)
| Exception (text : string).         (* any other Exception *)

Inductive result (A : Type) : Type :=
| Ok (a : A)
| Raise (e : exn).
Arguments Ok {A} a.
Arguments Raise {A} e.

Definition bind {A B} (r : result A) (k : A -> result B) : result B :=
  match r with Ok a => k a | Raise e => Raise e end.

Notation "'let!' x ':=' r 'in' k" := (bind r (fun x => k))
  (at level 10, x name, r at level 100, k at level 200).

Fixpoint result_mapM {A B} (f : A -> result B) (l : list A) : result (list B) :=
  match l with
  | [] => Ok []
  | a :: l' => let! b := f a in let! bs := result_mapM f l' in Ok (b :: bs)
  end.

(** ** JSON values and the file [saved_metrics.json] *)

Module Json.

Inductive json : Type :=
| JNull
| JBool (b : bool)
| JInt (n : Z)
| JFloat (x : float)
| JString (s : string)
| JList (l : list json)
| JDict (d : gmap string json).

(** [type(j).__name__] *)
Definition type_name (j : json) : string :=
  match j with
  | JNull => "NoneType" | JBool _ => "bool" | JInt _ => "int"
  | JFloat _ => "float" | JString _ => "str" | JList _ => "list"
  | JDict _ => "dict"
  end.

(** A list of strings and a dict of strings as JSON values. *)
Definition of_list (l : list string) : json := JList (JString <$> l).
Definition of_dict (m : gmap string string) : json := JDict (JString <$> m).

(** The typed reading of a JSON value, where it has that shape. *)
Definition as_str (j : json) : option string :=
  match j with JString s => Some s | _ => None end.

Definition as_list (j : json) : option (list string) :=
  match j with
  | JList l =>
      if forallb (fun x => bool_decide (is_Some (as_str x))) l
      then Some (omap as_str l) else None
  | _ => None
  end.

Definition as_dict (j : json) : option (gmap string string) :=
  match j with
  | JDict d =>
      if bool_decide (map_Forall (fun _ x => is_Some (as_str x)) d)
      then Some (omap as_str d) else None
  | _ => None
  end.

End Json.
Import Json.

(** What [open('saved_metrics.json')] followed by [json.load] finds: a
    file that cannot be read or parsed (the text is that of the exception),
    or a JSON document. *)
Inductive file_content : Type :=
| Unreadable (text : string)
| Document (j : json).

(** The part of the file system the program touches: [saved_metrics.json]
    ([None] when it does not exist), and whether opening it for writing
    fails, with the text of the [OSError]. *)
Record disk : Type := {
  saved_metrics_json : option file_content;
  write_error : option string
}.

Module Storage.

(** [save_metrics_to_file(metrics, metrics_names, metrics_groups=None)] *)
Definition save_metrics_to_file (metrics : list string)
    (metrics_names : gmap string string)
    (metrics_groups : option (gmap string string)) (fs : disk)
  : disk * list message :=
  let data : gmap string json :=
    {[ "saved_metrics" := of_list metrics;
       "saved_metrics_names" := of_dict metrics_names;
       "saved_metrics_groups" :=
         of_dict (match metrics_groups with
                  | Some g => if bool_decide (g = ∅) then ∅ else g
                  | None => ∅
                  end) ]} in
  match write_error fs with
  | None =>
      ({| saved_metrics_json := Some (Document (JDict data));
          write_error := write_error fs |}, [])
  | Some e => (fs, [Error ("Could not save metrics: " +:+ e)])
  end.

(** [data.get(key, default)] *)
Definition dict_get (data : gmap string json) (key : string) (dflt : json) : json :=
  default dflt (data !! key).

(** [load_metrics_from_file()] *)
Definition load_metrics_from_file (fs : disk) : (json * json * json) * list message :=
  match saved_metrics_json fs with
  | Some (Document (JDict data)) =>
      ((dict_get data "saved_metrics" (JList []),
        dict_get data "saved_metrics_names" (JDict ∅),
        dict_get data "saved_metrics_groups" (JDict ∅)), [])
  | Some (Document j) =>
      ((JList [], JDict ∅, JDict ∅),
       [Error ("Could not load saved metrics: '" +:+ type_name j
               +:+ "' object has no attribute 'get'")])
  | Some (Unreadable e) =>
      ((JList [], JDict ∅, JDict ∅),
       [Error ("Could not load saved metrics: " +:+ e)])
  | None => ((JList [], JDict ∅, JDict ∅), [])
  end.

End Storage.
Import Storage.

(** ** The HTTP layer

    [requests.get(url, params=params)] is the one call into the network.
    What it does is an input of the model: it raises a
    [RequestException], or returns a response with a status code and a
    body that [response.json()] decodes or fails to decode. A decoded
    body is read at the shape the FRED API documents for the endpoint. *)

Module Http.

Record response (A : Type) : Type := {
  status_code : Z;
  http_error : string;        (* str() of the HTTPError of this status *)
  json_body : result A        (* response.json() *)
}.
Arguments status_code {A} r.
Arguments http_error {A} r.
Arguments json_body {A} r.

(** [response.raise_for_status()] *)
Definition raise_for_status {A} (r : response A) : result unit :=
  if (400 <=? status_code r) && (status_code r <? 600)
  then Raise (RequestException (http_error r))
  else Ok tt.

(** One row of ['observations'] as the API sends it. *)
Record raw_observation : Type := {
  raw_date : string;
  raw_value : string
}.

(** The decoded body of [/series/observations]: the member
    ['observations'] when the object has one. *)
Record observations_body : Type := {
  observations : option (list raw_observation)
}.

(** The decoded body of [/series]: the member ['seriess'] when the object
    has one, a list of metadata objects. *)
Record series_body : Type := {
  seriess : option (list (gmap string string))
}.

(** The network, as seen by [FredAPI]. *)
Record network : Type := {
  get_observations : string -> gmap string string -> result (response observations_body);
  get_series : string -> gmap string string -> result (response series_body)
}.

End Http.
Import Http.

(** ** pandas: time stamps, frames, and what the program asks of the library *)

(** A cell of the ['date'] column: a calendar day (the dates of FRED
    observations are days), or [NaT], the missing date, which
    [pd.to_datetime] returns for an empty or missing cell. *)
Inductive Timestamp : Type :=
| NaT
| Day (year month day : Z).

(** The order [sort_values('date')] puts the rows in: the days in the
    order of the calendar, [NaT] after every day ([na_position='last']). *)
Definition Timestamp_leb (a b : Timestamp) : bool :=
  match a, b with
  | _, NaT => true
  | NaT, Day _ _ _ => false
  | Day y m d, Day y' m' d' =>
      (y <? y') || (y =? y') && ((m <? m') || (m =? m') && (d <=? d'))
  end.

Definition Timestamp_le (a b : Timestamp) : Prop := Timestamp_leb a b = true.

(** [a >= b], the comparison of a cell with a datetime: false as soon as
    one side is [NaT]. *)
Definition Timestamp_geb (a b : Timestamp) : bool :=
  match a, b with
  | Day _ _ _, Day _ _ _ => Timestamp_leb b a
  | _, _ => false
  end.

(** A row of the frame [get_series_data] returns; [number] is the type of
    the cells of its ['value'] column. *)
Record observation (number : Type) : Type := { date : Timestamp; value : number }.
Arguments date {number} o.
Arguments value {number} o.

(** Rows in ascending order of date. *)
Definition by_date {number} (r1 r2 : observation number) : Prop :=
  Timestamp_le (date r1) (date r2).

(** [df.empty] *)
Definition empty {A} (df : list A) : bool :=
  match df with [] => true | _ => false end.

(** [df.iloc[-k]] for [k >= 1]: [IndexError] when out of bounds. *)
Definition iloc_last {A} (df : list A) (k : nat) : result A :=
  match k with
  | O => Raise (Exception "single positional indexer is out-of-bounds")
  | S k' =>
      match rev df !! k' with
      | Some r => Ok r
      | None => Raise (Exception "single positional indexer is out-of-bounds")
      end
  end.

(** [df.iloc[0]] *)
Definition iloc_first {A} (df : list A) : result A :=
  match df with
  | r :: _ => Ok r
  | [] => Raise (Exception "single positional indexer is out-of-bounds")
  end.

(** What the program calls of pandas, of numpy and of Python's number
    formatting. None of it is code of the repository, so it is taken as
    it is: the program is verified for every library that keeps the few
    laws listed, which are those of the documentation.
    - The cells of a ['value'] column are numpy numbers, all of one dtype
      (float64, or int64 when every cell of the source is an integer):
      they are the type [number], with the arithmetic numpy gives them,
      whatever it does on overflow or on a division by zero.
    - [to_numeric] converts a whole column, since the dtype of the result
      depends on all the cells; it returns as many cells as it was given.
    - [to_datetime] parses one cell: it returns a day or [NaT], or raises.
    - [strftime] is [Timestamp.strftime('%Y-%m-%d')]: it raises on [NaT].
    - [sort_values] returns the rows in ascending order of date. The
      default sort of pandas is not stable: nothing is said on the order
      among rows of equal date.
    - [f"{x:.2f}"] is a numeral, or one of nan, inf and -inf; all that is
      used of it is that it is not the text N/A. *)
Module pd.

Record t : Type := {
  number : Type;
  (** [pd.to_datetime] on one cell *)
  to_datetime : string -> result Timestamp;
  (** [pd.to_numeric(column, errors='coerce')] *)
  to_numeric : list string -> list number;
  to_numeric_length : forall cells, length (to_numeric cells) = length cells;
  (** [pd.isna] on a cell of the value column *)
  isna : number -> bool;
  (** [x != 0] *)
  ne_zero : number -> bool;
  (** [x - y] *)
  sub : number -> number -> number;
  (** [x / y] *)
  div : number -> number -> number;
  (** [x * 100] *)
  times_100 : number -> number;
  (** [f"{x:.2f}"] *)
  format_2f : number -> string;
  format_2f_text : forall x, format_2f x <> "N/A";
  (** [ts.strftime('%Y-%m-%d')] *)
  strftime : Timestamp -> result string;
  (** [df.sort_values('date')] *)
  sort_values : list (observation number) -> list (observation number);
  sort_values_sorted : forall df, StronglySorted by_date (sort_values df);
  sort_values_perm : forall df, Permutation (sort_values df) df
}.

End pd.

Abbreviation DataFrame pandas := (list (observation (pd.number pandas))) (only parsing).

(** [df.dropna(subset=['value'])] *)
Definition dropna (pandas : pd.t) (df : DataFrame pandas) : DataFrame pandas :=
  filter (fun r => pd.isna pandas (value r) = false) df.

(** ** class FredAPI *)

Module FredAPI.
Section Client.

Variable pandas : pd.t.
Variable net : network.

Record t : Type := { api_key : string; base_url : string }.

(** [FredAPI(api_key)] *)
Definition init (key : string) : t :=
  {| api_key := key; base_url := "https://api.stlouisfed.org/fred" |}.

(** [params[key] = v] when [v] is neither [None] nor empty. *)
Definition set_if_given (key : string) (v : option string)
    (params : gmap string string) : gmap string string :=
  match v with
  | Some s => if PyStr.truthy s then <[key := s]> params else params
  | None => params
  end.

(** The URL and the query of the request of [get_series_data]. *)
Definition observations_url (self : t) : string :=
  base_url self +:+ "/series/observations".

Definition observations_params (self : t) (series_id : string)
    (start_date end_date : option string) : gmap string string :=
  let params : gmap string string :=
    {[ "series_id" := series_id; "api_key" := api_key self;
       "file_type" := "json" ]} in
  let params := set_if_given "observation_start" start_date params in
  set_if_given "observation_end" end_date params.

(** The frame once its two columns are converted: the parsed dates next
    to [pd.to_numeric(df['value'], errors='coerce')], row by row. *)
Definition converted (dates : list Timestamp) (rows : list raw_observation)
  : DataFrame pandas :=
  map (fun dv => {| date := fst dv; value := snd dv |})
      (combine dates (pd.to_numeric pandas (map raw_value rows))).

(** From [pd.DataFrame(observations)] to the frame returned: the two
    columns converted, the rows without a value dropped, the rest
    sorted. An empty frame is returned as it is. *)
Definition frame_of_observations (rows : list raw_observation)
  : result (DataFrame pandas) :=
  match rows with
  | [] => Ok []
  | _ =>
      let! dates := result_mapM (fun r => pd.to_datetime pandas (raw_date r)) rows in
      let df := converted dates rows in
      let df := dropna pandas df in
      let df := pd.sort_values pandas df in
      Ok df
  end.

(** The body of the [try] of [get_series_data]. *)
Definition get_series_data_try (self : t) (series_id : string)
    (start_date end_date : option string) : result (DataFrame pandas) :=
  let url := observations_url self in
  let params := observations_params self series_id start_date end_date in
  let! response := get_observations net url params in
  let! _ := raise_for_status response in
  let! data := json_body response in
  match observations data with
  | Some rows => frame_of_observations rows
  | None => Ok []
  end.

(** [FredAPI.get_series_data(series_id, start_date=None, end_date=None)] *)
Definition get_series_data (self : t) (series_id : string)
    (start_date end_date : option string) : DataFrame pandas * list message :=
  match get_series_data_try self series_id start_date end_date with
  | Ok df => (df, [])
  | Raise (RequestException e) => ([], [Error ("Error fetching data: " +:+ e)])
  | Raise (Exception e) => ([], [Error ("Error processing data: " +:+ e)])
  end.

(** The body of the [try] of [get_series_info]. *)
Definition get_series_info_try (self : t) (series_id : string)
  : result (gmap string string) :=
  let url := base_url self +:+ "/series" in
  let params : gmap string string :=
    {[ "series_id" := series_id; "api_key" := api_key self;
       "file_type" := "json" ]} in
  let! response := get_series net url params in
  let! _ := raise_for_status response in
  let! data := json_body response in
  match seriess data with
  | Some (info :: _) => Ok info
  | _ => Ok ∅
  end.

(** [FredAPI.get_series_info(series_id)] *)
Definition get_series_info (self : t) (series_id : string)
  : gmap string string * list message :=
  match get_series_info_try self series_id with
  | Ok info => (info, [])
  | Raise (RequestException e) =>
      (∅, [Error ("Error fetching series info: " +:+ e)])
  | Raise (Exception e) =>
      (∅, [Error ("Error processing series info: " +:+ e)])
  end.

End Client.
End FredAPI.

(** ** The saved metrics in [st.session_state] *)

Record session : Type := {
  saved_metrics : list string;
  saved_metrics_names : gmap string string;
  saved_metrics_groups : gmap string string;
  show_add_metric : bool
}.

(** The session of an empty store, the add form closed. *)
Definition empty_session : session :=
  {| saved_metrics := []; saved_metrics_names := ∅;
     saved_metrics_groups := ∅; show_add_metric := false |}.

(** The session [main] starts from: the three values of
    [load_metrics_from_file], when they are a list of strings and two dicts
    of strings, which is how the rest of [main] uses them. *)
Definition session_of_loaded (loaded : json * json * json) : option session :=
  let '(metrics, names, groups) := loaded in
  match as_list metrics, as_dict names, as_dict groups with
  | Some l, Some n, Some g =>
      Some {| saved_metrics := l; saved_metrics_names := n;
              saved_metrics_groups := g; show_add_metric := false |}
  | _, _, _ => None
  end.

(** [saved_metrics_names.get(metric, metric)] *)
Definition display_name (ss : session) (metric : string) : string :=
  default metric (saved_metrics_names ss !! metric).

(** [saved_metrics_groups.get(metric)] *)
Definition group_name (ss : session) (metric : string) : option string :=
  saved_metrics_groups ss !! metric.

(** The label of the quick-access button of [metric]. *)
Definition button_text (ss : session) (metric : string) : string :=
  match group_name ss metric with
  | Some g =>
      if PyStr.truthy g then display_name ss metric +:+ " [" +:+ g +:+ "]"
      else display_name ss metric
  | None => display_name ss metric
  end.

(** [sorted(set(saved_metrics_groups.values()))] *)
Definition existing_groups (ss : session) : list string :=
  merge_sort String.le (elements (map_img (saved_metrics_groups ss) : gset string)).

(** The widgets of the "Add New Metric" form. *)
Inductive group_input : Type := SelectExisting | CreateNew.

Record add_form : Type := {
  new_metric : string;                 (* text input "FRED Series ID" *)
  group_input_type : group_input;      (* radio "Group" *)
  selected_existing_group : string;    (* selectbox "Choose group" *)
  new_group_name : string              (* text input "New group name" *)
}.

(** The value of [metric_group] the form computes before the buttons. *)
Definition metric_group (ss : session) (form : add_form) : option string :=
  match group_input_type form with
  | SelectExisting =>
      match existing_groups ss with
      | [] => None
      | _ =>
          if String.eqb (selected_existing_group form) "None" then None
          else Some (selected_existing_group form)
      end
  | CreateNew =>
      if negb (PyStr.truthy (PyStr.strip (new_group_name form))) then None
      else Some (new_group_name form)
  end.

(** [list.remove(x)]: drops the first occurrence, [ValueError] if none. *)
Fixpoint list_remove (x : string) (l : list string) : result (list string) :=
  match l with
  | [] => Raise (Exception "list.remove(x): x not in list")
  | y :: l' =>
      if decide (y = x) then Ok l'
      else let! r := list_remove x l' in Ok (y :: r)
  end.

Module Metrics.
Section Handlers.

Variable net : network.
Variable api_key : string.

(** "Save group assignment": [saved_metrics_groups[metric_upper] =
    metric_group.strip()] when [metric_group and metric_group.strip()]. *)
Definition assign_group (metric_upper : string) (metric_group : option string)
    (groups : gmap string string) : gmap string string :=
  match metric_group with
  | Some g =>
      if PyStr.truthy g && PyStr.truthy (PyStr.strip g)
      then <[metric_upper := PyStr.strip g]> groups
      else groups
  | None => groups
  end.

(** The branch of the "Save" button taken for an identifier that is not
    saved yet: append, record the group and the name, persist. The name is
    [series_info['title']] when [series_info and series_info.get('title')],
    a dict with a title being not empty; [get_series_info] returning
    without an exception, the [except] that writes the same fallback name
    is never entered. *)
Definition add_metric (metric_upper : string) (metric_group : option string)
    (ss : session) (fs : disk) : session * disk * list message :=
  let metrics := saved_metrics ss ++ [metric_upper] in
  let groups := assign_group metric_upper metric_group (saved_metrics_groups ss) in
  let temp_fred := FredAPI.init api_key in
  let '(series_info, fetch_msgs) :=
    FredAPI.get_series_info net temp_fred metric_upper in
  let names :=
    match series_info !! "title" with
    | Some title =>
        if PyStr.truthy title
        then <[metric_upper := title]> (saved_metrics_names ss)
        else <[metric_upper := metric_upper]> (saved_metrics_names ss)
    | None => <[metric_upper := metric_upper]> (saved_metrics_names ss)
    end in
  let '(fs', save_msgs) := save_metrics_to_file metrics names (Some groups) fs in
  ({| saved_metrics := metrics; saved_metrics_names := names;
      saved_metrics_groups := groups;
      show_add_metric := show_add_metric ss |},
   fs',
   fetch_msgs ++ save_msgs ++ [Success ("Added " +:+ metric_upper +:+ "!")]).

(** The "Save" button of the add form, given the identifier typed and
    the group the form computed. *)
Definition save_metric (new_metric : string) (metric_group : option string)
    (ss : session) (fs : disk) : session * disk * list message :=
  if PyStr.truthy (PyStr.strip new_metric) then
    let metric_upper := PyStr.upper (PyStr.strip new_metric) in
    let '(ss', fs', msgs) :=
      if negb (bool_decide (metric_upper ∈ saved_metrics ss))
      then add_metric metric_upper metric_group ss fs
      else (ss, fs, [Warning (metric_upper +:+ " already saved!")]) in
    ({| saved_metrics := saved_metrics ss';
        saved_metrics_names := saved_metrics_names ss';
        saved_metrics_groups := saved_metrics_groups ss';
        show_add_metric := false |}, fs', msgs)
  else (ss, fs, [Error "Please enter a metric ID"]).

(** The "Save" button, from the widgets of the form. *)
Definition save_clicked (form : add_form) (ss : session) (fs : disk)
  : session * disk * list message :=
  save_metric (new_metric form) (metric_group ss form) ss fs.

(** The choice of the group filter: the select box is shown only when
    some group exists. *)
Definition selected_filter (choice : string) (ss : session) : string :=
  match existing_groups ss with
  | [] => "All"
  | _ => choice
  end.

(** [filtered_metrics] *)
Definition filtered_metrics (choice : string) (ss : session) : list string :=
  if String.eqb (selected_filter choice ss) "All" then saved_metrics ss
  else filter (fun metric =>
                 saved_metrics_groups ss !! metric = Some (selected_filter choice ss))
              (saved_metrics ss).

(** The body of the delete button of [metric]. *)
Definition remove_metric (metric : string) (ss : session) (fs : disk)
  : result (session * disk * list message) :=
  let! metrics := list_remove metric (saved_metrics ss) in
  let groups :=
    if bool_decide (is_Some (saved_metrics_groups ss !! metric))
    then delete metric (saved_metrics_groups ss)
    else saved_metrics_groups ss in
  let names :=
    if bool_decide (is_Some (saved_metrics_names ss !! metric))
    then delete metric (saved_metrics_names ss)
    else saved_metrics_names ss in
  let '(fs', save_msgs) := save_metrics_to_file metrics names (Some groups) fs in
  Ok ({| saved_metrics := metrics; saved_metrics_names := names;
         saved_metrics_groups := groups;
         show_add_metric := show_add_metric ss |}, fs', save_msgs).

(** A click on the [i]-th delete button of the quick-access list. The
    buttons are drawn in edit mode only, one per entry of
    [filtered_metrics]; a click that hits no button does nothing. *)
Definition delete_clicked (edit_mode : bool) (choice : string) (i : nat)
    (ss : session) (fs : disk) : result (session * disk * list message) :=
  if edit_mode then
    match filtered_metrics choice ss !! i with
    | Some metric => remove_metric metric ss fs
    | None => Ok (ss, fs, [])
    end
  else Ok (ss, fs, []).

End Handlers.
End Metrics.

(** The sessions the program reaches from an empty store: by opening or
    closing the add form, by the "Save" button, by a delete button,
    whatever the network answers and whatever the file system does. *)
Inductive reachable : session -> Prop :=
| reachable_empty : reachable empty_session
| reachable_form (b : bool) (ss : session) :
    reachable ss ->
    reachable {| saved_metrics := saved_metrics ss;
                 saved_metrics_names := saved_metrics_names ss;
                 saved_metrics_groups := saved_metrics_groups ss;
                 show_add_metric := b |}
| reachable_save (net : network) (api_key : string) (form : add_form)
    (ss : session) (fs : disk) :
    reachable ss ->
    reachable (Metrics.save_clicked net api_key form ss fs).1.1
| reachable_delete (edit_mode : bool) (choice : string) (i : nat)
    (ss : session) (fs : disk) (after : session * disk * list message) :
    reachable ss ->
    Metrics.delete_clicked edit_mode choice i ss fs = Ok after ->
    reachable after.1.1.

(** An identifier in the form [strip] and [upper] leave it: not empty, no
    lower-case letter, no white space at either end. *)
Definition normal_form (id : string) : Prop :=
  id <> EmptyString /\ PyStr.upper id = id /\ PyStr.has_lower id = false
  /\ PyStr.stripped id.

(** A group label that is neither empty nor white space only, and has no
    white space at either end. *)
Definition proper_label (label : string) : Prop :=
  PyStr.all_space label = false /\ PyStr.stripped label.

(** A store as the add and delete buttons keep it: distinct identifiers in
    normal form, proper group labels. *)
Definition well_formed (ss : session) : Prop :=
  NoDup (saved_metrics ss)
  /\ (forall id, id ∈ saved_metrics ss -> normal_form id)
  /\ (forall id label, saved_metrics_groups ss !! id = Some label ->
                       proper_label label).

(** ** Formatting *)

Module Fmt.

(** [str(n)] for [n >= 0]. *)
Definition str_nat (n : Z) : string := NilZero.string_of_uint (N.to_uint (Z.to_N n)).

(** The decimal digit [n mod 10] as a character. *)
Definition digit (n : Z) : ascii := ascii_of_N (48 + Z.to_N (n mod 10)).

Definition sign (negative : bool) : string := if negative then "-" else "".

(** [m * 2^e] in hundredths, rounded to the nearest integer, ties to the
    even one. *)
Definition hundredths (m e : Z) : Z :=
  if 0 <=? e then m * 100 * 2 ^ e
  else
    let d := 2 ^ (- e) in
    let q := (m * 100) / d in
    let r := (m * 100) mod d in
    if 2 * r <? d then q
    else if d <? 2 * r then q + 1
    else if Z.even q then q else q + 1.

(** [f"{x:.2f}"] for a binary64 number: the exact value of the float,
    correctly rounded to two decimals. *)
Definition format_2f (x : float) : string :=
  match Prim2SF x with
  | S754_nan => "nan"
  | S754_infinity s => sign s +:+ "inf"
  | S754_zero s => sign s +:+ "0.00"
  | S754_finite s m e =>
      let n := hundredths (Z.pos m) e in
      sign s +:+ str_nat (n / 100)
        +:+ String "." (String (digit (n / 10)) (String (digit n) EmptyString))
  end.

(** [str(n).zfill(2)] for [0 <= n]. *)
Definition two_digits (n : Z) : string :=
  if n <? 10 then "0" +:+ str_nat n else str_nat n.

End Fmt.
Import Fmt.

(** ** The summary table *)

Record summary_entry : Type := {
  Metric_Name : string;
  Current_Value : string;
  Latest_Date : string;
  Units : string;
  Frequency : string;
  Sequential_Change : string;
  YTD_Change : string
}.

Module Summary.
Section Table.

Variable pandas : pd.t.
Variable net : network.

(** The sequential change of the summary, as shown. *)
Definition sequential_format (use_percentage : bool)
    (latest_value previous_value : pd.number pandas) : string :=
  if use_percentage && pd.ne_zero pandas previous_value then
    let sequential_change :=
      pd.times_100 pandas
        (pd.div pandas (pd.sub pandas latest_value previous_value) previous_value) in
    pd.format_2f pandas sequential_change +:+ "%"
  else
    let sequential_change := pd.sub pandas latest_value previous_value in
    pd.format_2f pandas sequential_change.

(** The year-to-date change of the summary, as shown. *)
Definition ytd_format (use_percentage : bool) (current_year : Z)
    (metric_df : DataFrame pandas) (latest_value : pd.number pandas)
  : result string :=
  let ytd_start := Day current_year 1 1 in
  let ytd_df := filter (fun r => Timestamp_geb (date r) ytd_start = true) metric_df in
  if negb (empty ytd_df) then
    let! first := iloc_first ytd_df in
    let ytd_start_value := value first in
    if use_percentage && pd.ne_zero pandas ytd_start_value then
      let ytd_change :=
        pd.times_100 pandas
          (pd.div pandas (pd.sub pandas latest_value ytd_start_value)
             ytd_start_value) in
      Ok (pd.format_2f pandas ytd_change +:+ "%")
    else
      let ytd_change := pd.sub pandas latest_value ytd_start_value in
      Ok (pd.format_2f pandas ytd_change)
  else Ok "N/A".

(** [metric_info.get(key, 'N/A') if metric_info else 'N/A'] *)
Definition info_or_na (metric_info : gmap string string) (key : string) : string :=
  if bool_decide (metric_info = ∅) then "N/A"
  else default "N/A" (metric_info !! key).

(** The body of the [try] of the loop over the saved metrics, for one
    metric, once its data and metadata are fetched. The positional
    accesses and [strftime] are the calls that can raise. *)
Definition summary_entry_try (ss : session) (use_percentage : bool)
    (current_year : Z) (metric : string) (metric_df : DataFrame pandas)
    (metric_info : gmap string string) : result summary_entry :=
  if negb (empty metric_df) && (2 <=? length metric_df)%nat then
    let metric_name := default metric (saved_metrics_names ss !! metric) in
    let frequency := default "N/A" (metric_info !! "frequency") in
    let units := default "N/A" (metric_info !! "units") in
    let metric_df := pd.sort_values pandas metric_df in
    let! latest := iloc_last metric_df 1 in
    let latest_value := value latest in
    let! latest_date := pd.strftime pandas (date latest) in
    let! previous := iloc_last metric_df 2 in
    let previous_value := value previous in
    let sequential := sequential_format use_percentage latest_value previous_value in
    let! ytd := ytd_format use_percentage current_year metric_df latest_value in
    Ok {| Metric_Name := metric_name;
          Current_Value := pd.format_2f pandas latest_value;
          Latest_Date := latest_date;
          Units := units;
          Frequency := frequency;
          Sequential_Change := sequential;
          YTD_Change := ytd |}
  else
    let metric_name := default metric (saved_metrics_names ss !! metric) in
    let frequency := info_or_na metric_info "frequency" in
    let units := info_or_na metric_info "units" in
    let! current :=
      if negb (empty metric_df) then
        let! latest := iloc_last metric_df 1 in
        let latest_value := value latest in
        let! latest_date := pd.strftime pandas (date latest) in
        Ok (pd.format_2f pandas latest_value, latest_date)
      else Ok ("N/A", "N/A") in
    Ok {| Metric_Name := metric_name;
          Current_Value := fst current;
          Latest_Date := snd current;
          Units := units;
          Frequency := frequency;
          Sequential_Change := "N/A";
          YTD_Change := "N/A" |}.

(** One turn of the loop: the entry appended to [summary_data]. *)
Definition summary_of_frame (ss : session) (use_percentage : bool)
    (current_year : Z) (metric : string) (metric_df : DataFrame pandas)
    (metric_info : gmap string string) : summary_entry :=
  match summary_entry_try ss use_percentage current_year metric metric_df metric_info with
  | Ok entry => entry
  | Raise _ =>
      {| Metric_Name := default metric (saved_metrics_names ss !! metric);
         Current_Value := "Error"; Latest_Date := "Error"; Units := "Error";
         Frequency := "Error"; Sequential_Change := "Error";
         YTD_Change := "Error" |}
  end.

(** The loop over [saved_metrics]: [summary_data] and the messages of the
    fetches. *)
Definition summary_data (fred_api : FredAPI.t) (ss : session)
    (use_percentage : bool) (current_year : Z)
  : list summary_entry * list message :=
  foldl (fun acc metric =>
           let '(metric_df, m1) :=
             FredAPI.get_series_data pandas net fred_api metric None None in
           let '(metric_info, m2) := FredAPI.get_series_info net fred_api metric in
           (fst acc ++ [summary_of_frame ss use_percentage current_year
                          metric metric_df metric_info],
            snd acc ++ m1 ++ m2))
        ([], []) (saved_metrics ss).

End Table.
End Summary.

(** The rows the API sent for the request of [get_series_data], none when
    the request failed or the body has no ['observations']. *)
Definition source_observations (net : network) (self : FredAPI.t)
    (series_id : string) (start_date end_date : option string)
  : list raw_observation :=
  match get_observations net (FredAPI.observations_url self)
          (FredAPI.observations_params self series_id start_date end_date) with
  | Ok response =>
      match json_body response with
      | Ok data => default [] (observations data)
      | Raise _ => []
      end
  | Raise _ => []
  end.

(** ** Further notions for the sessions *)

(** [all_groups]: the options of the group filter. *)
Definition all_groups (ss : session) : list string :=
  "All" :: existing_groups ss.

(** The file holds the three structures of the session: loading it gives
    the session back, the add form closed. *)
Definition synced (ss : session) (fs : disk) : Prop :=
  session_of_loaded (load_metrics_from_file fs).1
  = Some {| saved_metrics := saved_metrics ss;
            saved_metrics_names := saved_metrics_names ss;
            saved_metrics_groups := saved_metrics_groups ss;
            show_add_metric := false |}.

(** The side maps fit the sequence: the identifiers with a name are those
    of the sequence, no name is empty, and only identifiers of the
    sequence have a group. *)
Definition consistent (ss : session) : Prop :=
  (forall id, id ∈ saved_metrics ss <-> is_Some (saved_metrics_names ss !! id))
  /\ (forall id name, saved_metrics_names ss !! id = Some name ->
                      name <> EmptyString)
  /\ (forall id, is_Some (saved_metrics_groups ss !! id) ->
                 id ∈ saved_metrics ss).

(** Strictly earlier. *)
Definition Timestamp_lt (a b : Timestamp) : Prop := Timestamp_le a b /\ a <> b.

(** No two rows of the source carry the same date, once parsed. *)
Definition distinct_dates (to_datetime : string -> result Timestamp)
    (rows : list raw_observation) : Prop :=
  forall i j ri rj d,
    rows !! i = Some ri -> rows !! j = Some rj ->
    to_datetime (raw_date ri) = Ok d -> to_datetime (raw_date rj) = Ok d ->
    i = j.

(** ** bulk_add_tickers.py *)

Module Bulk.

(** [default_tickers], the categories in the order of the dict literal. *)
Definition default_tickers : list (string * list string) :=
  [ ("Automotive",
     ["AUINSA"; "TOTALSA"; "ALTSALES"; "IPG33611S"; "CAPUTLG33611S"]);
    ("Commercial Auto Insurance", ["PCU9241269241263"]);
    ("Construction", ["HOUST"; "HSN1F"; "MORTAGE30US"; "IPG321S"]);
    ("CPG_Food and Paper", ["IPG311S"; "IPG322S"]);
    ("Industrial Production",
     ["TRUCKD11"; "INDPRO"; "IPMAN"; "IPG311A2S"; "IPG333S"; "IPG322S";
      "IPG3361T3S"; "MCUMFN"]);
    ("Personal Consumption Trends", ["DFXARX1Q020SBEA"; "A136RC1Q027SBEA"]);
    ("Retail", ["RSAFS"]);
    ("Retail Inventories", ["RETAILIRSA"; "RETAILSMSA"; "RETAILIMSA"]) ].

(** What the script has collected so far, and the lines it has printed. *)
Record collected : Type := {
  metrics : list string;                 (* saved_metrics *)
  names : gmap string string;            (* saved_metrics_names *)
  groups : gmap string string;           (* saved_metrics_groups *)
  printed : list string
}.

(** How the script ends: [exit(1)], an exception nobody catches, or its
    last line, with the file system it leaves. *)
Inductive ending : Type :=
| Exited (code : Z) (out : list string)
| Crashed (e : exn) (out : list string)
| Finished (fs : disk) (out : list string).

Section Script.

Variable net : network.
Variable api_key : string.

(** The body of the [try] of [get_series_info]. *)
Definition get_series_info_try (series_id : string) : result string :=
  let url := "https://api.stlouisfed.org/fred/series" in
  let params : gmap string string :=
    {[ "series_id" := series_id; "api_key" := api_key;
       "file_type" := "json" ]} in
  let! response := get_series net url params in
  let! _ := raise_for_status response in
  let! data := json_body response in
  match seriess data with
  | Some (info :: _) => Ok (default series_id (info !! "title"))
  | _ => Ok series_id
  end.

(** [get_series_info(series_id)]: the name, and the line printed when the
    request failed. *)
Definition get_series_info (series_id : string) : string * list string :=
  match get_series_info_try series_id with
  | Ok title => (title, [])
  | Raise (RequestException e) | Raise (Exception e) =>
      (series_id, ["Error fetching info for " +:+ series_id +:+ ": " +:+ e])
  end.

(** One turn of the inner loop. *)
Definition add_ticker (group_name : string) (c : collected) (ticker : string)
  : collected :=
  let '(full_name, error_line) := get_series_info ticker in
  {| metrics := metrics c ++ [ticker];
     names := <[ticker := full_name]> (names c);
     groups := <[ticker := group_name]> (groups c);
     printed := printed c
                ++ ["  Fetching info for " +:+ ticker +:+ "..."]
                ++ error_line
                ++ ["    " +:+ ticker +:+ ": " +:+ full_name] |}.

(** One turn of the outer loop. *)
Definition add_group (c : collected) (entry : string * list string) : collected :=
  let '(group_name, tickers) := entry in
  foldl (add_ticker group_name)
        {| metrics := metrics c; names := names c; groups := groups c;
           printed := printed c
                      ++ [String "010" ("Processing group: " +:+ group_name)] |}
        tickers.

(** The two loops over a catalog. *)
Definition collect (catalog : list (string * list string)) : collected :=
  foldl add_group
        {| metrics := []; names := ∅; groups := ∅;
           printed := ["Fetching series information from FRED API..."] |}
        catalog.

(** The JSON object the script dumps. *)
Definition data (c : collected) : gmap string json :=
  {[ "saved_metrics" := of_list (metrics c);
     "saved_metrics_names" := of_dict (names c);
     "saved_metrics_groups" := of_dict (groups c) ]}.

(** The lines printed after the file is written. *)
Definition report (catalog : list (string * list string)) (c : collected)
  : list string :=
  [ String "010" ("✅ Successfully added " +:+ str_nat (Z.of_nat (length (metrics c)))
                  +:+ " metrics across "
                  +:+ str_nat (Z.of_nat (length catalog)) +:+ " groups!");
    "📁 Data saved to saved_metrics.json";
    String "010" "📊 Summary:" ]
  ++ map (fun entry : string * list string =>
            "  " +:+ entry.1 +:+ ": "
              +:+ str_nat (Z.of_nat (length entry.2)) +:+ " metrics")
         catalog.

End Script.

(** The script, for a catalog and the value of [FRED_API_KEY] in the
    environment. *)
Definition run (net : network) (catalog : list (string * list string))
    (env_key : option string) (fs : disk) : ending :=
  match env_key with
  | Some (String a key) =>
      let c := collect net (String a key) catalog in
      match write_error fs with
      | None =>
          Finished {| saved_metrics_json := Some (Document (JDict (data c)));
                      write_error := write_error fs |}
                   (printed c ++ report catalog c)
      | Some e => Crashed (Exception e) (printed c)
      end
  | _ => Exited 1 ["Please set your FRED_API_KEY in the .env file"]
  end.

(** [bulk_add_tickers.py] *)
Definition script (net : network) (env_key : option string) (fs : disk) : ending :=
  run net default_tickers env_key fs.

End Bulk.

(** ** Fixtures for the examples *)

Module Fixture.

(** The value of a string of decimal digits. *)
Fixpoint digits_value (acc : Z) (s : string) : option Z :=
  match s with
  | EmptyString => Some acc
  | String c s' =>
      match Ascii.is_nat c with
      | Some d => digits_value (10 * acc + Z.of_nat d) s'
      | None => None
      end
  end.

(** [s] cut at its first dot. *)
Fixpoint cut_at_dot (s : string) : string * option string :=
  match s with
  | EmptyString => (EmptyString, None)
  | String c s' =>
      if Ascii.eqb c "." then (EmptyString, Some s')
      else let '(a, b) := cut_at_dot s' in (String c a, b)
  end.

Definition float_of_Z (n : Z) : float := PrimFloat.of_uint63 (Uint63.of_Z n).

(** The number a cell holds, for the examples: numerals [ddd] and
    [ddd.ddd] of at most fifteen digits, where digits over a power of ten
    is the correctly rounded value; any other text is [NaN]. *)
Definition numeral (s : string) : float :=
  let '(int_part, frac_part) := cut_at_dot s in
  let frac := default EmptyString frac_part in
  if (String.length int_part =? 0)%nat || (15 <? String.length (int_part +:+ frac))%nat
  then nan
  else
    match digits_value 0 (int_part +:+ frac) with
    | Some n => (float_of_Z n / float_of_Z (10 ^ Z.of_nat (String.length frac)))%float
    | None => nan
    end.

(** A coercion for the examples, for the columns that are float64: those
    with a cell that has a decimal point or is not a number. *)
Definition to_numeric (cells : list string) : list float := map numeral cells.

Definition is_leap (y : Z) : bool :=
  (y mod 4 =? 0) && (negb (y mod 100 =? 0) || (y mod 400 =? 0)).

Definition days_in_month (y m : Z) : Z :=
  if m =? 2 then (if is_leap y then 29 else 28)
  else if (m =? 4) || (m =? 6) || (m =? 9) || (m =? 11) then 30 else 31.

(** A date parser for the examples: [YYYY-MM-DD] of a day that exists,
    [NaT] for the empty text; any other text raises. *)
Definition to_datetime (s : string) : result Timestamp :=
  let bad := Raise (Exception ("Unknown datetime string format, unable to parse: " +:+ s)) in
  match s with
  | EmptyString => Ok NaT
  | String y1 (String y2 (String y3 (String y4 (String "-"
      (String m1 (String m2 (String "-" (String d1 (String d2 EmptyString))))))))) =>
      match digits_value 0 (String y1 (String y2 (String y3 (String y4 EmptyString)))),
            digits_value 0 (String m1 (String m2 EmptyString)),
            digits_value 0 (String d1 (String d2 EmptyString)) with
      | Some y, Some m, Some d =>
          if (1 <=? m) && (m <=? 12) && (1 <=? d) && (d <=? days_in_month y m)
          then Ok (Day y m d)
          else bad
      | _, _, _ => bad
      end
  | _ => bad
  end.

(** [strftime('%Y-%m-%d')] for the examples: the year as it is written,
    month and day on two digits; [NaT] raises. *)
Definition strftime (ts : Timestamp) : result string :=
  match ts with
  | NaT => Raise (Exception "NaTType does not support strftime")
  | Day y m d => Ok (str_nat y +:+ "-" +:+ two_digits m +:+ "-" +:+ two_digits d)
  end.

(** A sort for the examples: insertion, which keeps the order of the rows
    of equal date. *)
Fixpoint insert_by_date {number} (r : observation number)
    (df : list (observation number)) : list (observation number) :=
  match df with
  | [] => [r]
  | r' :: df' =>
      if Timestamp_leb (date r) (date r') then r :: df
      else r' :: insert_by_date r df'
  end.

Fixpoint sort_values {number} (df : list (observation number))
  : list (observation number) :=
  match df with
  | [] => []
  | r :: df' => insert_by_date r (sort_values df')
  end.

(** A network that answers nothing. *)
Definition offline : network :=
  {| get_observations := fun _ _ => Raise (RequestException "Connection refused");
     get_series := fun _ _ => Raise (RequestException "Connection refused") |}.

(** A network that knows the series UNRATE: February, January, and a
    March without a value, in that order. *)
Definition unrate_rows : list raw_observation :=
  [ {| raw_date := "2020-02-01"; raw_value := "3.5" |};
    {| raw_date := "2020-01-01"; raw_value := "3.6" |};
    {| raw_date := "2020-03-01"; raw_value := "." |} ].

Definition not_found {A} : response A :=
  {| status_code := 400;
     http_error := "400 Client Error: Bad Request";
     json_body := Raise (Exception "unused") |}.

Definition unrate_only : network :=
  {| get_observations := fun _ params =>
       if bool_decide (params !! "series_id" = Some "UNRATE")
       then Ok {| status_code := 200; http_error := "";
                  json_body := Ok {| observations := Some unrate_rows |} |}
       else Ok not_found;
     get_series := fun _ params =>
       if bool_decide (params !! "series_id" = Some "UNRATE")
       then Ok {| status_code := 200; http_error := "";
                  json_body :=
                    Ok {| seriess := Some [ {[ "title" := "Unemployment Rate";
                                               "frequency" := "Monthly";
                                               "units" := "Percent" ]} ] |} |}
       else Ok not_found |}.

Definition fred : FredAPI.t := FredAPI.init "key".

Definition writable : disk := {| saved_metrics_json := None; write_error := None |}.

(** A store of two metrics, one named and grouped, one bare. *)
Definition stocked : session :=
  {| saved_metrics := ["UNRATE"; "GDP"];
     saved_metrics_names := {[ "UNRATE" := "Unemployment Rate" ]};
     saved_metrics_groups := {[ "UNRATE" := "Labor" ]};
     show_add_metric := false |}.

(** A store in which one identifier occurs twice, as the bulk import
    writes it for a ticker listed under two categories. *)
Definition twice : session :=
  {| saved_metrics := ["IPG322S"; "IPG322S"];
     saved_metrics_names := {[ "IPG322S" := "Industrial Production: Paper" ]};
     saved_metrics_groups := {[ "IPG322S" := "Industrial Production" ]};
     show_add_metric := false |}.

(** A file that does not parse. *)
Definition garbled : disk :=
  {| saved_metrics_json := Some (Unreadable "Expecting value: line 1 column 1 (char 0)");
     write_error := None |}.

(** A disk that refuses writes. *)
Definition read_only : disk :=
  {| saved_metrics_json := None; write_error := Some "Permission denied" |}.

(** The disk after [stocked] was saved, and what a click on the first
    delete button then leaves. *)
Definition stocked_disk : disk :=
  (save_metrics_to_file (saved_metrics stocked) (saved_metrics_names stocked)
     (Some (saved_metrics_groups stocked)) writable).1.

Definition unrate_deleted : session * disk * list message :=
  match Metrics.delete_clicked true "All" 0 stocked stocked_disk with
  | Ok after => after
  | Raise _ => (stocked, stocked_disk, [])
  end.

(** The form that adds UNRATE under a new group, the session it gives
    from the empty store, and the form that then adds GDP to that group. *)
Definition labor_form : add_form :=
  {| new_metric := " unrate "; group_input_type := CreateNew;
     selected_existing_group := "None"; new_group_name := " Labor " |}.

Definition grouped : session :=
  (Metrics.save_clicked unrate_only "key" labor_form empty_session writable).1.1.

Definition pick_labor_form : add_form :=
  {| new_metric := "gdp"; group_input_type := SelectExisting;
     selected_existing_group := "Labor"; new_group_name := "" |}.

(** A series of two observations, the earlier one of value zero. *)
Definition from_zero : list (observation float) :=
  [ {| date := Day 2024 1 1; value := 0%float |};
    {| date := Day 2024 2 1; value := 5%float |} ].

(** A series whose second observation came without a date. *)
Definition undated : list (observation float) :=
  [ {| date := Day 2024 1 1; value := 4%float |};
    {| date := NaT; value := 5%float |};
    {| date := Day 2024 2 1; value := 6%float |} ].

(** A network whose answer to every request is an object without the
    members ['observations'] and ['seriess']. *)
Definition no_observations : network :=
  {| get_observations := fun _ _ =>
       Ok {| status_code := 200; http_error := "";
             json_body := Ok {| observations := None |} |};
     get_series := fun _ _ =>
       Ok {| status_code := 200; http_error := "";
             json_body := Ok {| seriess := None |} |} |}.

End Fixture.
Import Fixture.


(** * Properties *)

(** ** Python strings *)

Section Strings.
Import PyStr.

Lemma isspace_upper_char (c : ascii) : isspace (upper_char c) = isspace c.
Proof. destruct c as [[] [] [] [] [] [] [] []]; reflexivity. Qed.

Lemma islower_upper_char (c : ascii) : islower (upper_char c) = false.
Proof. destruct c as [[] [] [] [] [] [] [] []]; reflexivity. Qed.

Lemma upper_char_idem (c : ascii) : upper_char (upper_char c) = upper_char c.
Proof. destruct c as [[] [] [] [] [] [] [] []]; reflexivity. Qed.

Lemma upper_idem (s : string) : upper (upper s) = upper s.
Proof. induction s as [| c s IH]; simpl; [| rewrite upper_char_idem, IH]; reflexivity. Qed.

Lemma has_lower_upper (s : string) : has_lower (upper s) = false.
Proof.
  induction s as [| c s IH]; simpl; [reflexivity |].
  rewrite islower_upper_char, IH. reflexivity.
Qed.

Lemma upper_empty (s : string) : upper s = EmptyString -> s = EmptyString.
Proof. destruct s; simpl; [reflexivity | discriminate]. Qed.

Lemma lstrip_upper (s : string) : lstrip (upper s) = upper (lstrip s).
Proof.
  induction s as [| c s IH]; simpl; [reflexivity |].
  rewrite isspace_upper_char. destruct (isspace c); [exact IH | reflexivity].
Qed.

Lemma rstrip_upper (s : string) : rstrip (upper s) = upper (rstrip s).
Proof.
  induction s as [| c s IH]; simpl; [reflexivity |].
  rewrite IH, isspace_upper_char.
  destruct (rstrip s); simpl; [destruct (isspace c) |]; reflexivity.
Qed.

Lemma strip_upper (s : string) : strip (upper s) = upper (strip s).
Proof. unfold strip. rewrite lstrip_upper, rstrip_upper. reflexivity. Qed.

Lemma append_cons (c : ascii) (s t : string) :
  String c s +:+ t = String c (s +:+ t).
Proof. reflexivity. Qed.

Lemma append_nil (t : string) : EmptyString +:+ t = t.
Proof. reflexivity. Qed.

Lemma lstrip_all_space (ws : string) : all_space ws = true -> lstrip ws = EmptyString.
Proof.
  induction ws as [| c ws IH]; simpl; [reflexivity |].
  intros [Hc Hws]%andb_true_iff. rewrite Hc. apply IH, Hws.
Qed.

Lemma rstrip_all_space (ws : string) : all_space ws = true -> rstrip ws = EmptyString.
Proof.
  induction ws as [| c ws IH]; simpl; [reflexivity |].
  intros [Hc Hws]%andb_true_iff. rewrite (IH Hws), Hc. reflexivity.
Qed.

Lemma lstrip_app_space (ws s : string) :
  all_space ws = true -> lstrip (ws +:+ s) = lstrip s.
Proof.
  induction ws as [| c ws IH]; [reflexivity |].
  simpl. intros [Hc Hws]%andb_true_iff. rewrite Hc. apply IH, Hws.
Qed.

Lemma rstrip_app_space (s ws : string) :
  all_space ws = true -> rstrip (s +:+ ws) = rstrip s.
Proof.
  intros Hws. induction s as [| c s IH].
  - rewrite append_nil. apply rstrip_all_space, Hws.
  - rewrite append_cons. simpl. rewrite IH. reflexivity.
Qed.

Lemma strip_app_space_r (s ws : string) :
  all_space ws = true -> strip (s +:+ ws) = strip s.
Proof.
  intros Hws. unfold strip. induction s as [| c s IH].
  - rewrite append_nil, (lstrip_all_space _ Hws). reflexivity.
  - rewrite append_cons. simpl. destruct (isspace c); [exact IH |].
    rewrite <- append_cons. apply rstrip_app_space, Hws.
Qed.

(** White space around the text does not change what [strip] returns. *)
Lemma strip_surrounding_space (ws1 s ws2 : string) :
  all_space ws1 = true -> all_space ws2 = true ->
  strip (ws1 +:+ s +:+ ws2) = strip s.
Proof.
  intros H1 H2. unfold strip at 1. rewrite (lstrip_app_space _ _ H1).
  apply (strip_app_space_r s ws2 H2).
Qed.

Lemma first_char_lstrip (s : string) (c : ascii) :
  first_char (lstrip s) = Some c -> isspace c = false.
Proof.
  induction s as [| c' s IH]; simpl; [discriminate |].
  destruct (isspace c') eqn:E; [exact IH |].
  simpl. intros [= <-]. exact E.
Qed.

Lemma first_char_rstrip (s : string) (c : ascii) :
  first_char (rstrip s) = Some c -> first_char s = Some c.
Proof.
  destruct s as [| c' s]; simpl; [discriminate |].
  destruct (rstrip s); [destruct (isspace c') |]; simpl; congruence.
Qed.

Lemma last_char_rstrip (s : string) (c : ascii) :
  last_char (rstrip s) = Some c -> isspace c = false.
Proof.
  induction s as [| c' s IH]; simpl; [discriminate |].
  destruct (rstrip s) as [| c'' r] eqn:E.
  - destruct (isspace c') eqn:E'; simpl; [discriminate |].
    intros [= <-]. exact E'.
  - simpl. exact IH.
Qed.

(** [strip] leaves no white space at either end. *)
Lemma strip_stripped (s : string) : stripped (strip s).
Proof.
  split; intros c H.
  - apply (first_char_lstrip s), first_char_rstrip, H.
  - apply (last_char_rstrip (lstrip s)), H.
Qed.

Lemma isascii_upper_char (c : ascii) :
  (N_of_ascii c <? 128)%N = true -> (N_of_ascii (upper_char c) <? 128)%N = true.
Proof. destruct c as [[] [] [] [] [] [] [] []]; vm_compute; congruence. Qed.

(** [upper] and [strip] keep ASCII text ASCII. *)
Lemma isascii_upper (s : string) : isascii s = true -> isascii (upper s) = true.
Proof.
  induction s as [| c s IH]; [reflexivity |]. simpl.
  intros [Hc Hs]%andb_true_iff. rewrite (isascii_upper_char c Hc), (IH Hs).
  reflexivity.
Qed.

Lemma isascii_lstrip (s : string) : isascii s = true -> isascii (lstrip s) = true.
Proof.
  induction s as [| c s IH]; [reflexivity |]. simpl.
  intros H. destruct (isspace c); [| exact H].
  apply andb_true_iff in H as [_ Hs]. apply IH, Hs.
Qed.

Lemma isascii_rstrip (s : string) : isascii s = true -> isascii (rstrip s) = true.
Proof.
  induction s as [| c s IH]; [reflexivity |]. simpl.
  intros [Hc Hs]%andb_true_iff. specialize (IH Hs).
  destruct (rstrip s) as [| c' r].
  - destruct (isspace c); [reflexivity |]. simpl. rewrite Hc. reflexivity.
  - cbn [isascii] in *. rewrite Hc, IH. reflexivity.
Qed.

Lemma isascii_strip (s : string) : isascii s = true -> isascii (strip s) = true.
Proof. intros H. apply isascii_rstrip, isascii_lstrip, H. Qed.

Lemma truthy_false (s : string) : truthy s = false -> s = EmptyString.
Proof. destruct s; [reflexivity | discriminate]. Qed.

Lemma truthy_true (s : string) : truthy s = true -> s <> EmptyString.
Proof. destruct s; [discriminate |]. intros _. discriminate. Qed.

Lemma truthy_upper (s : string) : truthy (upper s) = truthy s.
Proof. destruct s; reflexivity. Qed.

(** What [strip] returns is empty or has a character that is not white
    space: it is never made of white space only. *)
Lemma strip_not_blank (s : string) :
  strip s <> EmptyString -> all_space (strip s) = false.
Proof.
  intros Hne. pose proof (strip_stripped s) as [Hfirst _].
  destruct (strip s) as [| c r]; [congruence |].
  simpl. rewrite (Hfirst c eq_refl). reflexivity.
Qed.

Lemma lstrip_empty_all_space (s : string) :
  lstrip s = EmptyString -> all_space s = true.
Proof.
  induction s as [| c s IH]; simpl; [reflexivity |].
  destruct (isspace c); [exact IH | discriminate].
Qed.

Lemma rstrip_empty_all_space (s : string) :
  rstrip s = EmptyString -> all_space s = true.
Proof.
  induction s as [| c s IH]; simpl; [reflexivity |].
  destruct (rstrip s); [| discriminate].
  destruct (isspace c); [intros _; apply IH; reflexivity | discriminate].
Qed.

(** [strip] returns the empty string on white space only, and only then. *)
Lemma strip_empty_iff (s : string) :
  strip s = EmptyString <-> all_space s = true.
Proof.
  split.
  - unfold strip. intros H. apply lstrip_empty_all_space.
    pose proof (rstrip_empty_all_space _ H) as Hall.
    destruct (lstrip s) as [| c r] eqn:E; [reflexivity |].
    pose proof (first_char_lstrip s c) as Hc. rewrite E in Hc.
    simpl in Hall. rewrite (Hc eq_refl) in Hall. discriminate.
  - intros H. unfold strip. rewrite (lstrip_all_space _ H). reflexivity.
Qed.

End Strings.

(** ** The order of time stamps and sorted frames *)

Section Sorting.

Lemma Timestamp_le_days (y m d y' m' d' : Z) :
  Timestamp_le (Day y m d) (Day y' m' d') <->
  y < y' \/ y = y' /\ (m < m' \/ m = m' /\ d <= d').
Proof.
  unfold Timestamp_le, Timestamp_leb.
  rewrite !orb_true_iff, !andb_true_iff, !orb_true_iff, !andb_true_iff.
  rewrite !Z.ltb_lt, !Z.eqb_eq, Z.leb_le. tauto.
Qed.

Lemma Timestamp_le_NaT (a : Timestamp) : Timestamp_le a NaT.
Proof. destruct a; reflexivity. Qed.

Lemma Timestamp_le_refl (a : Timestamp) : Timestamp_le a a.
Proof. destruct a; [reflexivity |]. apply Timestamp_le_days. lia. Qed.

Lemma Timestamp_le_total (a b : Timestamp) : Timestamp_le a b \/ Timestamp_le b a.
Proof.
  destruct a, b; try (left; reflexivity); try (right; reflexivity).
  rewrite !Timestamp_le_days. lia.
Qed.

Lemma Timestamp_le_trans (a b c : Timestamp) :
  Timestamp_le a b -> Timestamp_le b c -> Timestamp_le a c.
Proof.
  destruct c; [intros _ _; apply Timestamp_le_NaT |].
  destruct b; [discriminate |]. destruct a; [discriminate |].
  rewrite !Timestamp_le_days. lia.
Qed.

Lemma Timestamp_le_antisym (a b : Timestamp) :
  Timestamp_le a b -> Timestamp_le b a -> a = b.
Proof.
  destruct a as [| ya ma da], b as [| yb mb db];
    [reflexivity | discriminate | intros _; discriminate |].
  rewrite !Timestamp_le_days. intros H1 H2.
  assert (ya = yb /\ ma = mb /\ da = db) as (-> & -> & ->) by lia.
  reflexivity.
Qed.

Lemma Timestamp_leb_false (a b : Timestamp) :
  Timestamp_leb a b = false -> Timestamp_le b a.
Proof.
  intros H. destruct (Timestamp_le_total a b) as [Hab | Hba]; [| exact Hba].
  unfold Timestamp_le in Hab. congruence.
Qed.

(** A cell that passes [>=] holds a day, and [NaT] passes no comparison. *)
Lemma Timestamp_geb_le (a b : Timestamp) :
  Timestamp_geb a b = true -> Timestamp_le b a /\ a <> NaT.
Proof.
  destruct a, b; try discriminate. cbn [Timestamp_geb]. intros H.
  split; [exact H | discriminate].
Qed.

Context {number : Type}.

Lemma insert_by_date_perm (r : observation number) (df : list (observation number)) :
  Permutation (Fixture.insert_by_date r df) (r :: df).
Proof.
  induction df as [| r' df IH]; simpl.
  - apply Permutation_refl.
  - destruct (Timestamp_leb (date r) (date r')).
    + apply Permutation_refl.
    + transitivity (r' :: r :: df).
      * apply perm_skip, IH.
      * apply perm_swap.
Qed.

Lemma insertion_sort_perm (df : list (observation number)) :
  Permutation (Fixture.sort_values df) df.
Proof.
  induction df as [| r df IH]; simpl.
  - apply Permutation_refl.
  - transitivity (r :: Fixture.sort_values df).
    + apply insert_by_date_perm.
    + apply perm_skip, IH.
Qed.

Lemma insert_by_date_sorted (r : observation number) (df : list (observation number)) :
  StronglySorted by_date df -> StronglySorted by_date (Fixture.insert_by_date r df).
Proof.
  induction 1 as [| r' df Hs IH Hall]; simpl.
  - repeat constructor.
  - destruct (Timestamp_leb (date r) (date r')) eqn:E.
    + constructor; [constructor; assumption |].
      constructor; [exact E |].
      eapply Forall_impl; [exact Hall |].
      intros r'' H. eapply Timestamp_le_trans; [exact E | exact H].
    + constructor; [exact IH |].
      eapply Permutation_Forall.
      * symmetry. apply insert_by_date_perm.
      * constructor; [apply Timestamp_leb_false, E | exact Hall].
Qed.

Lemma insertion_sort_sorted (df : list (observation number)) :
  StronglySorted by_date (Fixture.sort_values df).
Proof.
  induction df as [| r df IH]; simpl.
  - constructor.
  - apply insert_by_date_sorted, IH.
Qed.

Lemma sorted_dates (df : list (observation number)) :
  StronglySorted by_date df -> StronglySorted Timestamp_le (map date df).
Proof.
  induction 1 as [| r df Hs IH Hall]; simpl; constructor.
  - exact IH.
  - apply Forall_map. exact Hall.
Qed.

(** Two sorted sequences of the same dates are the same sequence. *)
Lemma sorted_dates_unique (l1 l2 : list Timestamp) :
  StronglySorted Timestamp_le l1 -> StronglySorted Timestamp_le l2 ->
  Permutation l1 l2 -> l1 = l2.
Proof.
  intros H1. revert l2. induction H1 as [| a l1 Hs IH Hall]; intros l2 H2 Hperm.
  - apply Permutation_nil in Hperm. congruence.
  - destruct H2 as [| b l2 Hs2 Hall2].
    + symmetry in Hperm. apply Permutation_nil in Hperm. discriminate.
    + assert (a = b) as <-.
      { rewrite Forall_forall in Hall, Hall2.
        assert (b ∈ a :: l1) as Hb by (rewrite Hperm; left).
        assert (a ∈ b :: l2) as Ha by (rewrite <- Hperm; left).
        apply elem_of_cons in Hb as [-> | Hb]; [reflexivity |].
        apply elem_of_cons in Ha as [-> | Ha]; [reflexivity |].
        apply Timestamp_le_antisym; [apply Hall, Hb | apply Hall2, Ha]. }
      f_equal. apply IH; [exact Hs2 |]. eapply Permutation_cons_inv, Hperm.
Qed.

End Sorting.

Lemma sort_values_length (pandas : pd.t) (df : DataFrame pandas) :
  length (pd.sort_values pandas df) = length df.
Proof. apply Permutation_length, pd.sort_values_perm. Qed.

(** ** Formatting *)

Section Formatting.

Lemma two_decimals_not_marker (pre : string) (c d : ascii) :
  pre +:+ String "." (String c (String d EmptyString)) <> "N/A".
Proof.
  destruct pre as [| x [| y [| z pre]]]; cbn; try discriminate.
  destruct pre; discriminate.
Qed.

(** A formatted number is never the marker "N/A". *)
Lemma format_2f_not_marker (x : float) : format_2f x <> "N/A".
Proof.
  unfold format_2f.
  destruct (Prim2SF x) as [s | s | | s m e].
  - destruct s; cbn; discriminate.
  - destruct s; cbn; discriminate.
  - discriminate.
  - destruct s; unfold sign.
    + cbn. discriminate.
    + change ("" +:+ ?t) with t. apply two_decimals_not_marker.
Qed.

Lemma percent_not_marker (s : string) : s +:+ "%" <> "N/A".
Proof.
  destruct s as [| a [| b [| c s]]]; cbn; try discriminate.
  destruct s; discriminate.
Qed.

End Formatting.

(** ** A pandas for the examples

    The numbers of a float64 column, with the parsers, the date format
    and the sort of the fixtures. *)

Definition float64 : pd.t :=
  {| pd.number := float;
     pd.to_datetime := Fixture.to_datetime;
     pd.to_numeric := Fixture.to_numeric;
     pd.to_numeric_length := fun cells => length_map Fixture.numeral cells;
     pd.isna := PrimFloat.is_nan;
     pd.ne_zero := fun x => negb (x =? 0)%float;
     pd.sub := PrimFloat.sub;
     pd.div := PrimFloat.div;
     pd.times_100 := fun x => (x * 100)%float;
     pd.format_2f := Fmt.format_2f;
     pd.format_2f_text := format_2f_not_marker;
     pd.strftime := Fixture.strftime;
     pd.sort_values := Fixture.sort_values;
     pd.sort_values_sorted := insertion_sort_sorted;
     pd.sort_values_perm := insertion_sort_perm |}.

(** ** The summary table *)

Section SummaryFacts.

Variable pandas : pd.t.

Lemma iloc_last_length {A} (df : list A) (k : nat) (r : A) :
  iloc_last df k = Ok r -> (k <= length df)%nat.
Proof.
  destruct k as [| k]; simpl; [discriminate |].
  destruct (rev df !! k) eqn:E; [| discriminate].
  intros _. apply lookup_lt_Some in E. rewrite length_rev in E. lia.
Qed.

Lemma iloc_last_Ok {A} (df : list A) (k : nat) :
  (1 <= k)%nat -> (k <= length df)%nat -> exists r, iloc_last df k = Ok r.
Proof.
  intros H1 Hk. destruct k as [| k]; [lia |]. simpl.
  destruct (rev df !! k) as [r |] eqn:E; [eexists; reflexivity |].
  apply lookup_ge_None in E. rewrite length_rev in E. lia.
Qed.

Lemma iloc_last_1 {A} (df : list A) (r : A) :
  iloc_last df 1 = Ok r -> exists pre, df = pre ++ [r].
Proof.
  simpl. destruct (rev df) as [| x t] eqn:E; simpl; [discriminate |].
  intros [= <-]. exists (rev t).
  rewrite <- (rev_involutive df), E. reflexivity.
Qed.

(** The year-to-date cell is computed without an exception. *)
Lemma ytd_format_returns (use_percentage : bool) (current_year : Z)
    (metric_df : DataFrame pandas) (latest_value : pd.number pandas) :
  exists s,
    Summary.ytd_format pandas use_percentage current_year metric_df latest_value
    = Ok s.
Proof.
  unfold Summary.ytd_format.
  destruct (filter _ metric_df) as [| first rest]; simpl.
  - eexists; reflexivity.
  - destruct (use_percentage && pd.ne_zero pandas (value first)); eexists; reflexivity.
Qed.

(** The [try] on a frame of two rows or more: the two positional accesses
    are within bounds, and the entry is built once the latest date is
    formatted. *)
Lemma summary_of_frame_two (ss : session) (use_percentage : bool)
    (current_year : Z) (metric : string) (metric_df : DataFrame pandas)
    (metric_info : gmap string string) :
  (2 <= length metric_df)%nat ->
  exists latest previous ytd,
    iloc_last (pd.sort_values pandas metric_df) 1 = Ok latest
    /\ iloc_last (pd.sort_values pandas metric_df) 2 = Ok previous
    /\ Summary.ytd_format pandas use_percentage current_year
         (pd.sort_values pandas metric_df) (value latest) = Ok ytd
    /\ Summary.summary_entry_try pandas ss use_percentage current_year metric
         metric_df metric_info
       = let! latest_date := pd.strftime pandas (date latest) in
         Ok {| Metric_Name := default metric (saved_metrics_names ss !! metric);
               Current_Value := pd.format_2f pandas (value latest);
               Latest_Date := latest_date;
               Units := default "N/A" (metric_info !! "units");
               Frequency := default "N/A" (metric_info !! "frequency");
               Sequential_Change :=
                 Summary.sequential_format pandas use_percentage (value latest)
                   (value previous);
               YTD_Change := ytd |}.
Proof.
  intros Hlen.
  destruct (iloc_last_Ok (pd.sort_values pandas metric_df) 1) as [latest Hlatest];
    [lia | rewrite sort_values_length; lia |].
  destruct (iloc_last_Ok (pd.sort_values pandas metric_df) 2) as [previous Hprevious];
    [lia | rewrite sort_values_length; lia |].
  destruct (ytd_format_returns use_percentage current_year
              (pd.sort_values pandas metric_df) (value latest)) as [ytd Hytd].
  exists latest, previous, ytd.
  split; [exact Hlatest |]. split; [exact Hprevious |]. split; [exact Hytd |].
  unfold Summary.summary_entry_try.
  assert (negb (empty metric_df) && (2 <=? length metric_df)%nat = true) as ->.
  { apply andb_true_iff. split.
    - destruct metric_df; [simpl in Hlen; lia | reflexivity].
    - apply Nat.leb_le, Hlen. }
  rewrite Hlatest. cbn [bind].
  destruct (pd.strftime pandas (date latest)) as [latest_date | e];
    cbn [bind]; [| reflexivity].
  rewrite Hprevious. cbn [bind]. rewrite Hytd. reflexivity.
Qed.

(** The [try] on a frame of at most one row. *)
Lemma summary_of_frame_short (ss : session) (use_percentage : bool)
    (current_year : Z) (metric : string) (metric_df : DataFrame pandas)
    (metric_info : gmap string string) :
  (length metric_df < 2)%nat ->
  Summary.summary_entry_try pandas ss use_percentage current_year metric metric_df
    metric_info
  = match metric_df with
    | [] =>
        Ok {| Metric_Name := default metric (saved_metrics_names ss !! metric);
              Current_Value := "N/A";
              Latest_Date := "N/A";
              Units := Summary.info_or_na metric_info "units";
              Frequency := Summary.info_or_na metric_info "frequency";
              Sequential_Change := "N/A";
              YTD_Change := "N/A" |}
    | r :: _ =>
        let! latest_date := pd.strftime pandas (date r) in
        Ok {| Metric_Name := default metric (saved_metrics_names ss !! metric);
              Current_Value := pd.format_2f pandas (value r);
              Latest_Date := latest_date;
              Units := Summary.info_or_na metric_info "units";
              Frequency := Summary.info_or_na metric_info "frequency";
              Sequential_Change := "N/A";
              YTD_Change := "N/A" |}
    end.
Proof.
  intros Hlen. unfold Summary.summary_entry_try.
  destruct metric_df as [| r [| r' rest]]; simpl in Hlen; try lia; [reflexivity |].
  cbn. destruct (pd.strftime pandas (date r)); reflexivity.
Qed.

(** What [sequential_format] prints is never the marker "N/A". *)
Lemma sequential_format_not_marker (use_percentage : bool)
    (latest_value previous_value : pd.number pandas) :
  Summary.sequential_format pandas use_percentage latest_value previous_value
  <> "N/A".
Proof.
  unfold Summary.sequential_format.
  destruct (use_percentage && pd.ne_zero pandas previous_value).
  - apply percent_not_marker.
  - apply pd.format_2f_text.
Qed.

(** The sequential change of a frame of two rows or more is not "N/A". *)
Lemma sequential_change_two (ss : session) (use_percentage : bool)
    (current_year : Z) (metric : string) (metric_df : DataFrame pandas)
    (metric_info : gmap string string) :
  (2 <= length metric_df)%nat ->
  Sequential_Change
    (Summary.summary_of_frame pandas ss use_percentage current_year metric
       metric_df metric_info) <> "N/A".
Proof.
  intros Hlen. unfold Summary.summary_of_frame.
  destruct (summary_of_frame_two ss use_percentage current_year metric metric_df
              metric_info Hlen) as (latest & previous & ytd & _ & _ & _ & ->).
  destruct (pd.strftime pandas (date latest)); cbn [bind Sequential_Change].
  - apply sequential_format_not_marker.
  - discriminate.
Qed.

(** C1, as amended. For a series with at least two observations, with
    percentage mode selected and a previous value equal to zero: when the
    latest date can be formatted, the [try] returns an entry, and its
    sequential change is the difference between the latest and the
    previous value, formatted with two decimals and no percent sign; when
    the latest date cannot be formatted (it is missing), the row is the
    "Error" row; in both cases the sequential change is not "N/A". In any
    mode, a sequential change shown as "N/A" is that of a frame of fewer
    than two observations, and such a frame shows "N/A", or "Error" when
    the date of its single row cannot be formatted. *)
Theorem sequential_change_zero_previous (ss : session) (current_year : Z)
    (metric : string) (metric_df : DataFrame pandas)
    (metric_info : gmap string string)
    (latest previous : observation (pd.number pandas)) :
  iloc_last (pd.sort_values pandas metric_df) 1 = Ok latest ->
  iloc_last (pd.sort_values pandas metric_df) 2 = Ok previous ->
  pd.ne_zero pandas (value previous) = false ->
  (forall latest_date,
      pd.strftime pandas (date latest) = Ok latest_date ->
      exists entry,
        Summary.summary_entry_try pandas ss true current_year metric metric_df
          metric_info = Ok entry
        /\ Summary.summary_of_frame pandas ss true current_year metric metric_df
             metric_info = entry
        /\ Sequential_Change entry
           = pd.format_2f pandas (pd.sub pandas (value latest) (value previous)))
  /\ (forall e,
        pd.strftime pandas (date latest) = Raise e ->
        Sequential_Change
          (Summary.summary_of_frame pandas ss true current_year metric metric_df
             metric_info) = "Error")
  /\ Sequential_Change
       (Summary.summary_of_frame pandas ss true current_year metric metric_df
          metric_info) <> "N/A"
  /\ (forall use_percentage frame info,
        Sequential_Change
          (Summary.summary_of_frame pandas ss use_percentage current_year metric
             frame info) = "N/A" ->
        (length frame < 2)%nat)
  /\ (forall use_percentage frame info,
        (length frame < 2)%nat ->
        Sequential_Change
          (Summary.summary_of_frame pandas ss use_percentage current_year metric
             frame info) = "N/A"
        \/ exists r e,
             frame = [r] /\ pd.strftime pandas (date r) = Raise e
             /\ Sequential_Change
                  (Summary.summary_of_frame pandas ss use_percentage current_year
                     metric frame info) = "Error").
Proof.
  intros Hlatest Hprevious Hzero.
  pose proof (iloc_last_length _ _ _ Hprevious) as Hlen.
  rewrite sort_values_length in Hlen.
  destruct (summary_of_frame_two ss true current_year metric metric_df
              metric_info Hlen) as (latest' & previous' & ytd & H1 & H2 & _ & Htry).
  rewrite Hlatest in H1. injection H1 as <-.
  rewrite Hprevious in H2. injection H2 as <-.
  split; [| split; [| split; [| split]]].
  - intros latest_date Hdate. rewrite Hdate in Htry. cbn [bind] in Htry.
    eexists. split; [exact Htry |]. split.
    + unfold Summary.summary_of_frame. rewrite Htry. reflexivity.
    + cbn [Sequential_Change]. unfold Summary.sequential_format.
      rewrite Hzero. reflexivity.
  - intros e Hdate. unfold Summary.summary_of_frame.
    rewrite Htry, Hdate. reflexivity.
  - apply sequential_change_two, Hlen.
  - intros use_percentage frame info Hcell.
    destruct (le_lt_dec 2 (length frame)) as [Hlong | Hshort]; [| exact Hshort].
    exfalso. revert Hcell. apply sequential_change_two, Hlong.
  - intros use_percentage frame info Hshort. unfold Summary.summary_of_frame.
    rewrite (summary_of_frame_short ss use_percentage current_year metric frame
               info Hshort).
    destruct frame as [| r [| r' rest]]; [left; reflexivity | | simpl in Hshort; lia].
    destruct (pd.strftime pandas (date r)) as [latest_date | e] eqn:Hdate;
      cbn [bind]; [left; reflexivity |].
    right. exists r, e. split; [reflexivity |]. split; [exact Hdate | reflexivity].
Qed.

End SummaryFacts.

Lemma sequential_change_zero_previous_witness :
  (forall latest_date,
      pd.strftime float64 (Day 2024 2 1) = Ok latest_date ->
      exists entry,
        Summary.summary_entry_try float64 empty_session true 2024 "GDP" from_zero
          ∅ = Ok entry
        /\ Summary.summary_of_frame float64 empty_session true 2024 "GDP"
             from_zero ∅ = entry
        /\ Sequential_Change entry = format_2f (5 - 0)%float)
  /\ (forall e,
        pd.strftime float64 (Day 2024 2 1) = Raise e ->
        Sequential_Change
          (Summary.summary_of_frame float64 empty_session true 2024 "GDP"
             from_zero ∅) = "Error")
  /\ Sequential_Change
       (Summary.summary_of_frame float64 empty_session true 2024 "GDP" from_zero
          ∅) <> "N/A"
  /\ (forall use_percentage frame info,
        Sequential_Change
          (Summary.summary_of_frame float64 empty_session use_percentage 2024
             "GDP" frame info) = "N/A" ->
        (length frame < 2)%nat)
  /\ (forall use_percentage frame info,
        (length frame < 2)%nat ->
        Sequential_Change
          (Summary.summary_of_frame float64 empty_session use_percentage 2024
             "GDP" frame info) = "N/A"
        \/ exists r e,
             frame = [r] /\ pd.strftime float64 (date r) = Raise e
             /\ Sequential_Change
                  (Summary.summary_of_frame float64 empty_session use_percentage
                     2024 "GDP" frame info) = "Error").
Proof.
  apply (sequential_change_zero_previous float64 empty_session 2024 "GDP"
           from_zero ∅
           {| date := Day 2024 2 1; value := 5%float |}
           {| date := Day 2024 1 1; value := 0%float |});
    vm_compute; reflexivity.
Defined.

(** C1, as stated, fails: with percentage mode selected and a previous
    value of 0.0 the sequential change shown is the number "5.00", not the
    marker "N/A". *)
Lemma sequential_change_zero_previous_is_a_number :
  Sequential_Change
    (Summary.summary_of_frame float64 empty_session true 2024 "GDP" from_zero ∅)
  = "5.00"
  /\ Sequential_Change
       (Summary.summary_of_frame float64 empty_session true 2024 "GDP" from_zero ∅)
     <> "N/A".
Proof. vm_compute. split; [reflexivity | discriminate]. Qed.

(** ** The file [saved_metrics.json] *)

Section StorageFacts.

Lemma as_list_of_list (l : list string) : as_list (of_list l) = Some l.
Proof.
  unfold as_list, of_list.
  assert (forallb (fun x => bool_decide (is_Some (as_str x))) (JString <$> l) = true) as ->.
  { induction l as [| s l IH]; simpl; [reflexivity | exact IH]. }
  f_equal. induction l as [| s l IH]; simpl; [reflexivity |].
  f_equal. exact IH.
Qed.

Lemma as_dict_of_dict (m : gmap string string) : as_dict (of_dict m) = Some m.
Proof.
  unfold as_dict, of_dict.
  rewrite bool_decide_eq_true_2.
  - f_equal. apply map_eq. intros k.
    rewrite lookup_omap, lookup_fmap. destruct (m !! k); reflexivity.
  - intros k v. rewrite lookup_fmap. destruct (m !! k); simpl; [| discriminate].
    intros [= <-]. eexists; reflexivity.
Qed.

(** Two lists, and two dicts, with the same JSON value are equal. *)
Lemma of_list_inj (l1 l2 : list string) : of_list l1 = of_list l2 -> l1 = l2.
Proof.
  intros H. apply (f_equal as_list) in H. rewrite !as_list_of_list in H. congruence.
Qed.

Lemma of_dict_inj (m1 m2 : gmap string string) : of_dict m1 = of_dict m2 -> m1 = m2.
Proof.
  intros H. apply (f_equal as_dict) in H. rewrite !as_dict_of_dict in H. congruence.
Qed.

(** [metrics_groups or {}] is [metrics_groups], or the empty dict for [None]. *)
Lemma groups_or_empty (g : gmap string string) :
  (if bool_decide (g = ∅) then ∅ else g) = g.
Proof. case_bool_decide; congruence. Qed.

(** What a successful save writes, read back. *)
Lemma load_after_save (metrics : list string) (names : gmap string string)
    (groups : option (gmap string string)) (fs : disk) :
  write_error fs = None ->
  load_metrics_from_file (save_metrics_to_file metrics names groups fs).1
  = ((of_list metrics, of_dict names, of_dict (default ∅ groups)), []).
Proof.
  intros Hw. unfold save_metrics_to_file, load_metrics_from_file. rewrite Hw. simpl.
  unfold dict_get.
  rewrite lookup_insert_eq.
  rewrite lookup_insert_ne, lookup_insert_eq by done.
  rewrite lookup_insert_ne, lookup_insert_ne, lookup_singleton_eq by done.
  simpl. destruct groups as [g |]; simpl; [rewrite groups_or_empty |]; reflexivity.
Qed.

(** C5. For every store, once it is persisted (the file could be
    written), loading returns the JSON images of the same ordered
    identifier list, name map and group map, with no error reported; read
    as a session they are the three structures that were saved. This
    covers the empty store, a single entry, and identifiers without a name
    or a group, since nothing is assumed of the store. *)
Theorem persist_then_load_round_trip (ss : session) (fs : disk) :
  write_error fs = None ->
  load_metrics_from_file
    (save_metrics_to_file (saved_metrics ss) (saved_metrics_names ss)
       (Some (saved_metrics_groups ss)) fs).1
  = ((of_list (saved_metrics ss), of_dict (saved_metrics_names ss),
      of_dict (saved_metrics_groups ss)), [])
  /\ (save_metrics_to_file (saved_metrics ss) (saved_metrics_names ss)
        (Some (saved_metrics_groups ss)) fs).2 = []
  /\ session_of_loaded
       (load_metrics_from_file
          (save_metrics_to_file (saved_metrics ss) (saved_metrics_names ss)
             (Some (saved_metrics_groups ss)) fs).1).1
     = Some {| saved_metrics := saved_metrics ss;
               saved_metrics_names := saved_metrics_names ss;
               saved_metrics_groups := saved_metrics_groups ss;
               show_add_metric := false |}.
Proof.
  intros Hw. rewrite (load_after_save _ _ _ _ Hw). cbn [fst snd default].
  split; [reflexivity |]. split.
  - unfold save_metrics_to_file. rewrite Hw. reflexivity.
  - unfold session_of_loaded.
    rewrite as_list_of_list, !as_dict_of_dict. reflexivity.
Qed.

Lemma persist_then_load_round_trip_witness :
  load_metrics_from_file
    (save_metrics_to_file (saved_metrics stocked) (saved_metrics_names stocked)
       (Some (saved_metrics_groups stocked)) writable).1
  = ((of_list (saved_metrics stocked), of_dict (saved_metrics_names stocked),
      of_dict (saved_metrics_groups stocked)), [])
  /\ (save_metrics_to_file (saved_metrics stocked) (saved_metrics_names stocked)
        (Some (saved_metrics_groups stocked)) writable).2 = []
  /\ session_of_loaded
       (load_metrics_from_file
          (save_metrics_to_file (saved_metrics stocked) (saved_metrics_names stocked)
             (Some (saved_metrics_groups stocked)) writable).1).1
     = Some {| saved_metrics := saved_metrics stocked;
               saved_metrics_names := saved_metrics_names stocked;
               saved_metrics_groups := saved_metrics_groups stocked;
               show_add_metric := false |}.
Proof. apply (persist_then_load_round_trip stocked writable). reflexivity. Defined.

(** C9. Loading a file that holds a JSON object reports no error, and
    each of the three values depends on its own key only: the stored value
    when the key is there, the empty list (for the identifiers) or the
    empty dict (for the names, for the groups) when it is not. *)
Theorem load_tolerates_missing_keys (data : gmap string json) (w : option string) :
  (load_metrics_from_file
     {| saved_metrics_json := Some (Document (JDict data)); write_error := w |}).2 = []
  /\ (load_metrics_from_file
        {| saved_metrics_json := Some (Document (JDict data)); write_error := w |}).1
     = (match data !! "saved_metrics" with Some v => v | None => JList [] end,
        match data !! "saved_metrics_names" with Some v => v | None => JDict ∅ end,
        match data !! "saved_metrics_groups" with Some v => v | None => JDict ∅ end).
Proof.
  unfold load_metrics_from_file, dict_get. simpl. split; [reflexivity |].
  destruct (data !! "saved_metrics"), (data !! "saved_metrics_names"),
    (data !! "saved_metrics_groups"); reflexivity.
Qed.

End StorageFacts.

(** ** Adding a metric *)

Section AddFacts.
Import PyStr.

Variable net : network.
Variable api_key : string.

Lemma add_metric_metrics (metric_upper : string) (metric_group : option string)
    (ss : session) (fs : disk) :
  saved_metrics (Metrics.add_metric net api_key metric_upper metric_group ss fs).1.1
  = saved_metrics ss ++ [metric_upper].
Proof.
  unfold Metrics.add_metric.
  destruct (FredAPI.get_series_info _ _ _) as [info m1].
  destruct (save_metrics_to_file _ _ _ _) as [fs' m2]. reflexivity.
Qed.

Lemma add_metric_groups (metric_upper : string) (metric_group : option string)
    (ss : session) (fs : disk) :
  saved_metrics_groups
    (Metrics.add_metric net api_key metric_upper metric_group ss fs).1.1
  = Metrics.assign_group metric_upper metric_group (saved_metrics_groups ss).
Proof.
  unfold Metrics.add_metric.
  destruct (FredAPI.get_series_info _ _ _) as [info m1].
  destruct (save_metrics_to_file _ _ _ _) as [fs' m2]. reflexivity.
Qed.

(** The name stored is the fetched title when there is a non-empty one,
    the identifier itself otherwise. *)
Lemma add_metric_names (metric_upper : string) (metric_group : option string)
    (ss : session) (fs : disk) :
  exists name,
    saved_metrics_names
      (Metrics.add_metric net api_key metric_upper metric_group ss fs).1.1
    = <[metric_upper := name]> (saved_metrics_names ss)
    /\ (name = metric_upper
        \/ (FredAPI.get_series_info net (FredAPI.init api_key) metric_upper).1
             !! "title" = Some name /\ name <> EmptyString).
Proof.
  unfold Metrics.add_metric.
  destruct (FredAPI.get_series_info _ _ _) as [info m1].
  destruct (save_metrics_to_file _ _ _ _) as [fs' m2]. cbn [fst snd].
  destruct (info !! "title") as [title |] eqn:E.
  - destruct (truthy title) eqn:T.
    + exists title. split; [reflexivity |]. right. split; [reflexivity |].
      apply truthy_true, T.
    + exists metric_upper. split; [reflexivity |]. left. reflexivity.
  - exists metric_upper. split; [reflexivity |]. left. reflexivity.
Qed.

(** The name stored, as the code computes it. *)
Lemma add_metric_name (metric_upper : string) (metric_group : option string)
    (ss : session) (fs : disk) :
  saved_metrics_names
    (Metrics.add_metric net api_key metric_upper metric_group ss fs).1.1
  = <[metric_upper :=
        match (FredAPI.get_series_info net (FredAPI.init api_key) metric_upper).1
                !! "title" with
        | Some title => if truthy title then title else metric_upper
        | None => metric_upper
        end]> (saved_metrics_names ss).
Proof.
  unfold Metrics.add_metric.
  destruct (FredAPI.get_series_info _ _ _) as [info m1].
  destruct (save_metrics_to_file _ _ _ _) as [fs' m2]. cbn [fst snd].
  destruct (info !! "title") as [title |]; [destruct (truthy title) |];
    reflexivity.
Qed.

(** The three ways out of the "Save" button. *)
Lemma save_metric_blank (input : string) (group : option string)
    (ss : session) (fs : disk) :
  strip input = EmptyString ->
  Metrics.save_metric net api_key input group ss fs
  = (ss, fs, [Error "Please enter a metric ID"]).
Proof. intros H. unfold Metrics.save_metric. rewrite H. reflexivity. Qed.

Lemma save_metric_duplicate (input : string) (group : option string)
    (ss : session) (fs : disk) :
  strip input <> EmptyString ->
  upper (strip input) ∈ saved_metrics ss ->
  Metrics.save_metric net api_key input group ss fs
  = ({| saved_metrics := saved_metrics ss;
        saved_metrics_names := saved_metrics_names ss;
        saved_metrics_groups := saved_metrics_groups ss;
        show_add_metric := false |},
     fs, [Warning (upper (strip input) +:+ " already saved!")]).
Proof.
  intros Hne Hin. unfold Metrics.save_metric.
  destruct (strip input) as [| c r] eqn:E; [congruence |].
  cbn [truthy]. rewrite bool_decide_eq_true_2 by exact Hin. reflexivity.
Qed.

Lemma save_metric_fresh (input : string) (group : option string)
    (ss : session) (fs : disk) :
  strip input <> EmptyString ->
  upper (strip input) ∉ saved_metrics ss ->
  saved_metrics (Metrics.save_metric net api_key input group ss fs).1.1
  = saved_metrics ss ++ [upper (strip input)]
  /\ saved_metrics_groups (Metrics.save_metric net api_key input group ss fs).1.1
     = Metrics.assign_group (upper (strip input)) group (saved_metrics_groups ss)
  /\ saved_metrics_names (Metrics.save_metric net api_key input group ss fs).1.1
     = saved_metrics_names
         (Metrics.add_metric net api_key (upper (strip input)) group ss fs).1.1.
Proof.
  intros Hne Hnotin. unfold Metrics.save_metric.
  destruct (strip input) as [| c r] eqn:E; [congruence |].
  cbn [truthy]. rewrite bool_decide_eq_false_2 by exact Hnotin. cbn [negb].
  pose proof (add_metric_metrics (upper (String c r)) group ss fs) as Hm.
  pose proof (add_metric_groups (upper (String c r)) group ss fs) as Hg.
  destruct (Metrics.add_metric net api_key (upper (String c r)) group ss fs)
    as [[ss' fs'] msgs].
  cbn [fst snd] in *. cbn [saved_metrics saved_metrics_groups saved_metrics_names].
  auto.
Qed.

End AddFacts.

(** ** Removing a metric *)

Section RemoveFacts.

Lemma list_remove_present (x : string) (l : list string) :
  x ∈ l ->
  exists l1 l2, l = l1 ++ x :: l2 /\ (x ∉ l1) /\ list_remove x l = Ok (l1 ++ l2).
Proof.
  induction l as [| y l IH]; intros Hin.
  - apply elem_of_nil in Hin. contradiction.
  - simpl. destruct (decide (y = x)) as [-> | Hne].
    + exists [], l. split; [reflexivity |]. split; [apply not_elem_of_nil | reflexivity].
    + apply elem_of_cons in Hin as [-> | Hin]; [congruence |].
      destruct (IH Hin) as (l1 & l2 & -> & Hnotin & ->).
      exists (y :: l1), l2. split; [reflexivity |]. split; [| reflexivity].
      intros [H | H]%elem_of_cons; [congruence | contradiction].
Qed.

Lemma list_remove_absent (x : string) (l : list string) :
  x ∉ l -> list_remove x l = Raise (Exception "list.remove(x): x not in list").
Proof.
  induction l as [| y l IH]; intros Hnotin; simpl; [reflexivity |].
  apply not_elem_of_cons in Hnotin as [Hne Hnotin].
  destruct (decide (y = x)); [congruence |]. rewrite (IH Hnotin). reflexivity.
Qed.

Lemma delete_if_present (metric : string) (m : gmap string string) :
  (if bool_decide (is_Some (m !! metric)) then delete metric m else m)
  = delete metric m.
Proof.
  case_bool_decide as H; [reflexivity |].
  symmetry. apply delete_id. destruct (m !! metric) eqn:E; [| reflexivity].
  exfalso. apply H. eexists; reflexivity.
Qed.

Lemma filtered_metrics_saved (choice : string) (ss : session) (metric : string) :
  metric ∈ Metrics.filtered_metrics choice ss -> metric ∈ saved_metrics ss.
Proof.
  unfold Metrics.filtered_metrics.
  destruct (String.eqb _ _); [auto |].
  intros H. apply list_elem_of_filter in H as [_ H]. exact H.
Qed.

(** What the body of a delete button does to the session and the file,
    for an identifier of the sequence. *)
Lemma remove_metric_present (metric : string) (ss : session) (fs : disk) :
  metric ∈ saved_metrics ss ->
  exists l1 l2,
    saved_metrics ss = l1 ++ metric :: l2 /\ (metric ∉ l1)
    /\ Metrics.remove_metric metric ss fs
       = Ok ({| saved_metrics := l1 ++ l2;
                saved_metrics_names := delete metric (saved_metrics_names ss);
                saved_metrics_groups := delete metric (saved_metrics_groups ss);
                show_add_metric := show_add_metric ss |},
             (save_metrics_to_file (l1 ++ l2)
                (delete metric (saved_metrics_names ss))
                (Some (delete metric (saved_metrics_groups ss))) fs).1,
             (save_metrics_to_file (l1 ++ l2)
                (delete metric (saved_metrics_names ss))
                (Some (delete metric (saved_metrics_groups ss))) fs).2).
Proof.
  intros Hin.
  destruct (list_remove_present metric (saved_metrics ss) Hin)
    as (l1 & l2 & Hsplit & Hnotin & Hremove).
  exists l1, l2. split; [exact Hsplit |]. split; [exact Hnotin |].
  unfold Metrics.remove_metric. rewrite Hremove. cbn [bind].
  rewrite !delete_if_present.
  destruct (save_metrics_to_file _ _ _ _) as [fs' msgs]. reflexivity.
Qed.

(** A click on a delete button returns: it changes nothing, or it ran the
    body of the button of an identifier of the sequence. *)
Lemma delete_clicked_cases (edit_mode : bool) (choice : string) (i : nat)
    (ss : session) (fs : disk) :
  Metrics.delete_clicked edit_mode choice i ss fs = Ok (ss, fs, [])
  \/ exists metric,
       metric ∈ saved_metrics ss
       /\ Metrics.delete_clicked edit_mode choice i ss fs
          = Metrics.remove_metric metric ss fs.
Proof.
  unfold Metrics.delete_clicked.
  destruct edit_mode; [| left; reflexivity].
  destruct (Metrics.filtered_metrics choice ss !! i) as [metric |] eqn:E;
    [| left; reflexivity].
  right. exists metric. split; [| reflexivity].
  apply list_elem_of_lookup_2, filtered_metrics_saved in E. exact E.
Qed.

Lemma NoDup_remove_middle (l1 l2 : list string) (x : string) :
  NoDup (l1 ++ x :: l2) -> NoDup (l1 ++ l2) /\ (x ∉ l1 ++ l2).
Proof.
  intros Hnd. apply NoDup_app in Hnd as (Hnd1 & Hdisj & Hnd2).
  apply NoDup_cons in Hnd2 as [Hnot2 Hnd2]. split.
  - apply NoDup_app. split; [exact Hnd1 |]. split; [| exact Hnd2].
    intros y Hy1 Hy2. apply (Hdisj y Hy1). right. exact Hy2.
  - intros [H1 | H2]%elem_of_app; [| contradiction].
    apply (Hdisj x H1). left.
Qed.

End RemoveFacts.

(** ** What holds of every session reached from the empty store *)

Section Invariant.
Import PyStr.

Lemma upper_strip_normal_form (input : string) :
  strip input <> EmptyString -> normal_form (upper (strip input)).
Proof.
  intros Hne. split.
  { intros H. apply upper_empty in H. contradiction. }
  split; [apply upper_idem |]. split; [apply has_lower_upper |].
  rewrite <- strip_upper. apply strip_stripped.
Qed.

Lemma strip_proper_label (g : string) :
  strip g <> EmptyString -> proper_label (strip g).
Proof. intros Hne. split; [apply strip_not_blank, Hne | apply strip_stripped]. Qed.

(** An entry of the group map after [assign_group] was there before, or
    is the one written, whose label is the group input stripped and is
    not blank. *)
Lemma assign_group_entries (metric_upper : string) (group : option string)
    (groups : gmap string string) (id label : string) :
  Metrics.assign_group metric_upper group groups !! id = Some label ->
  groups !! id = Some label
  \/ (id = metric_upper
      /\ exists g, group = Some g /\ label = strip g /\ label <> EmptyString
                   /\ proper_label label).
Proof.
  unfold Metrics.assign_group. intros Hlook.
  destruct group as [g |]; [| left; exact Hlook].
  destruct (truthy g && truthy (strip g)) eqn:T; [| left; exact Hlook].
  apply andb_true_iff in T as [_ T]. apply truthy_true in T.
  apply lookup_insert_Some in Hlook as [[<- <-] | [_ Hold]]; [| left; exact Hold].
  right. split; [reflexivity |]. exists g.
  split; [reflexivity |]. split; [reflexivity |]. split; [exact T |].
  apply strip_proper_label, T.
Qed.

Lemma assign_group_blank (metric_upper : string) (group : option string)
    (groups : gmap string string) :
  group = None \/ (exists g, group = Some g /\ all_space g = true) ->
  Metrics.assign_group metric_upper group groups = groups.
Proof.
  unfold Metrics.assign_group.
  intros [-> | (g & -> & Hblank)]; [reflexivity |].
  apply strip_empty_iff in Hblank. rewrite Hblank. cbn [truthy].
  rewrite andb_false_r. reflexivity.
Qed.

(** The "Save" button leaves the three structures and the file as they
    were (blank input, or identifier already saved), or appends the normal
    form of the input, which was not in the sequence. *)
Lemma save_metric_outcome (net : network) (api_key : string) (input : string)
    (group : option string) (ss : session) (fs : disk) :
  (saved_metrics (Metrics.save_metric net api_key input group ss fs).1.1
     = saved_metrics ss
   /\ saved_metrics_names (Metrics.save_metric net api_key input group ss fs).1.1
      = saved_metrics_names ss
   /\ saved_metrics_groups (Metrics.save_metric net api_key input group ss fs).1.1
      = saved_metrics_groups ss
   /\ (Metrics.save_metric net api_key input group ss fs).1.2 = fs)
  \/ (strip input <> EmptyString
      /\ (upper (strip input) ∉ saved_metrics ss)
      /\ saved_metrics (Metrics.save_metric net api_key input group ss fs).1.1
         = saved_metrics ss ++ [upper (strip input)]
      /\ saved_metrics_groups (Metrics.save_metric net api_key input group ss fs).1.1
         = Metrics.assign_group (upper (strip input)) group (saved_metrics_groups ss)).
Proof.
  destruct (decide (strip input = EmptyString)) as [Hblank | Hne].
  { left. rewrite (save_metric_blank net api_key input group ss fs Hblank).
    repeat split; reflexivity. }
  destruct (decide (upper (strip input) ∈ saved_metrics ss)) as [Hin | Hnotin].
  { left. rewrite (save_metric_duplicate net api_key input group ss fs Hne Hin).
    repeat split; reflexivity. }
  right. destruct (save_metric_fresh net api_key input group ss fs Hne Hnotin)
    as (Hm & Hg & _).
  split; [exact Hne |]. split; [exact Hnotin |]. split; [exact Hm | exact Hg].
Qed.

Lemma save_metric_well_formed (net : network) (api_key : string) (input : string)
    (group : option string) (ss : session) (fs : disk) :
  well_formed ss ->
  well_formed (Metrics.save_metric net api_key input group ss fs).1.1.
Proof.
  intros (Hnd & Hids & Hlabels). unfold well_formed.
  destruct (save_metric_outcome net api_key input group ss fs)
    as [(Hm & _ & Hg & _) | (Hne & Hnotin & Hm & Hg)]; rewrite Hm, Hg.
  - split; [exact Hnd |]. split; [exact Hids | exact Hlabels].
  - split; [| split].
    + apply NoDup_app. split; [exact Hnd |]. split; [| apply NoDup_singleton].
      intros id Hid Hid'. apply list_elem_of_singleton in Hid'. subst id.
      contradiction.
    + intros id [Hold | Hnew]%elem_of_app; [apply Hids, Hold |].
      apply list_elem_of_singleton in Hnew. subst id.
      apply upper_strip_normal_form, Hne.
    + intros id label Hlook.
      apply assign_group_entries in Hlook
        as [Hold | (_ & g & _ & _ & _ & Hproper)]; [| exact Hproper].
      apply (Hlabels id label Hold).
Qed.

Lemma delete_clicked_well_formed (edit_mode : bool) (choice : string) (i : nat)
    (ss : session) (fs : disk) (after : session * disk * list message) :
  well_formed ss ->
  Metrics.delete_clicked edit_mode choice i ss fs = Ok after ->
  well_formed after.1.1.
Proof.
  intros (Hnd & Hids & Hlabels) Hclick.
  destruct (delete_clicked_cases edit_mode choice i ss fs)
    as [Hsame | (metric & Hin & Hbody)].
  { rewrite Hsame in Hclick. injection Hclick as <-.
    split; [exact Hnd |]. split; [exact Hids | exact Hlabels]. }
  destruct (remove_metric_present metric ss fs Hin) as (l1 & l2 & Hsplit & _ & Hrm).
  rewrite Hbody, Hrm in Hclick. injection Hclick as <-.
  unfold well_formed. cbn [fst snd saved_metrics saved_metrics_groups].
  rewrite Hsplit in Hnd. split; [apply (NoDup_remove_middle l1 l2 metric Hnd) |].
  split.
  - intros id Hid. apply Hids. rewrite Hsplit.
    apply elem_of_app in Hid as [H1 | H2]; apply elem_of_app;
      [left; exact H1 | right; right; exact H2].
  - intros id label Hlook. apply lookup_delete_Some in Hlook as [_ Hold].
    apply (Hlabels id label Hold).
Qed.

(** In a session reached from the empty store the identifiers are
    distinct and in normal form, and no group label is blank. *)
Lemma reachable_well_formed (ss : session) : reachable ss -> well_formed ss.
Proof.
  induction 1 as [| b ss Hr IH | net api_key form ss fs Hr IH
                  | edit_mode choice i ss fs after Hr IH Hclick].
  - split; [apply NoDup_nil_2 |]. split.
    + intros id Hid. apply elem_of_nil in Hid. contradiction.
    + intros id label Hlook. simpl in Hlook.
      rewrite lookup_empty in Hlook. discriminate.
  - exact IH.
  - unfold Metrics.save_clicked. apply save_metric_well_formed, IH.
  - apply (delete_clicked_well_formed edit_mode choice i ss fs after IH Hclick).
Qed.

End Invariant.

(** ** The claims on adding and removing *)

Section AddClaims.
Import PyStr.

Variable net : network.
Variable api_key : string.

(** C2, as amended. From the empty store, adding "GDP" with no group
    gives the ordered list ["GDP"], a name map with the single entry of
    "GDP", an empty group map, and no group label for "GDP". The name
    stored, which is the name displayed, is the title of the fetched
    metadata when they have a title that is not empty, and "GDP" itself in
    every other case: no title, an empty title, no metadata. *)
Theorem add_gdp_to_empty_store (fs : disk) :
  saved_metrics (Metrics.save_metric net api_key "GDP" None empty_session fs).1.1
  = ["GDP"]
  /\ saved_metrics_names
       (Metrics.save_metric net api_key "GDP" None empty_session fs).1.1
     = {[ "GDP" :=
            match (FredAPI.get_series_info net (FredAPI.init api_key) "GDP").1
                    !! "title" with
            | Some title => if truthy title then title else "GDP"
            | None => "GDP"
            end ]}
  /\ display_name
       (Metrics.save_metric net api_key "GDP" None empty_session fs).1.1 "GDP"
     = match (FredAPI.get_series_info net (FredAPI.init api_key) "GDP").1
               !! "title" with
       | Some title => if truthy title then title else "GDP"
       | None => "GDP"
       end
  /\ saved_metrics_names
       (Metrics.save_metric net api_key "GDP" None empty_session fs).1.1
     <> ∅
  /\ saved_metrics_groups
       (Metrics.save_metric net api_key "GDP" None empty_session fs).1.1 = ∅
  /\ group_name
       (Metrics.save_metric net api_key "GDP" None empty_session fs).1.1 "GDP"
     = None.
Proof.
  assert (strip "GDP" <> EmptyString) as Hne by (vm_compute; discriminate).
  assert (upper (strip "GDP") ∉ saved_metrics empty_session) as Hfresh
    by (simpl; apply not_elem_of_nil).
  destruct (save_metric_fresh net api_key "GDP" None empty_session fs Hne Hfresh)
    as (Hm & Hg & Hn).
  pose proof (add_metric_name net api_key (upper (strip "GDP")) None empty_session fs)
    as Hname.
  change (upper (strip "GDP")) with "GDP" in *.
  rewrite <- Hn in Hname. simpl in Hm, Hg, Hname.
  split; [exact Hm |]. split; [exact Hname |]. split; [| split].
  - unfold display_name. rewrite Hname, lookup_insert_eq. reflexivity.
  - rewrite Hname. apply insert_non_empty.
  - split; [exact Hg |]. unfold group_name. rewrite Hg. apply lookup_empty.
Qed.

(** C6. For every store and every identifier [id] of its ordered
    sequence, an add that names [id], that is whose input stripped and
    upper-cased is [id], changes neither the sequence, nor the name map,
    nor the group map, nor the file, whatever group comes with it; it
    reports the duplicate with a warning (for an input that is not blank)
    and appends nothing. *)
Theorem add_present_identifier_rejected (id input : string)
    (group : option string) (ss : session) (fs : disk) :
  id ∈ saved_metrics ss ->
  upper (strip input) = id ->
  saved_metrics (Metrics.save_metric net api_key input group ss fs).1.1
  = saved_metrics ss
  /\ saved_metrics_names (Metrics.save_metric net api_key input group ss fs).1.1
     = saved_metrics_names ss
  /\ saved_metrics_groups (Metrics.save_metric net api_key input group ss fs).1.1
     = saved_metrics_groups ss
  /\ (Metrics.save_metric net api_key input group ss fs).1.2 = fs
  /\ (strip input <> EmptyString ->
      (Metrics.save_metric net api_key input group ss fs).2
      = [Warning (id +:+ " already saved!")]).
Proof.
  intros Hin Hid. subst id.
  destruct (decide (strip input = EmptyString)) as [Hblank | Hne].
  - rewrite (save_metric_blank net api_key input group ss fs Hblank).
    repeat split; try reflexivity. congruence.
  - rewrite (save_metric_duplicate net api_key input group ss fs Hne Hin).
    repeat split; reflexivity.
Qed.

(** C8, as amended. For an input that is ASCII text, the identifier an
    add appends is the input stripped of surrounding white space and
    upper-cased: every identifier in the sequence after the add was
    there before or is that normal form, which is ASCII text, is not
    empty, has no lower-case letter, is left unchanged by [upper], and has
    no white space at either end (white space inside is kept). So a
    sequence of identifiers in normal form stays one. ASCII inputs that
    differ only in case or in surrounding white space have the same normal
    form, and adding the second after the first is rejected as a
    duplicate. *)
Theorem add_stores_normal_form (input : string) (group : option string)
    (ss : session) (fs : disk) :
  isascii input = true ->
  (forall id,
      id ∈ saved_metrics (Metrics.save_metric net api_key input group ss fs).1.1 ->
      id ∈ saved_metrics ss
      \/ (id = upper (strip input) /\ normal_form id /\ isascii id = true))
  /\ ((forall id, id ∈ saved_metrics ss -> normal_form id) ->
      forall id,
        id ∈ saved_metrics (Metrics.save_metric net api_key input group ss fs).1.1 ->
        normal_form id)
  /\ (forall ws1 ws2 other,
         isascii other = true ->
         all_space ws1 = true -> all_space ws2 = true ->
         upper other = upper input ->
         upper (strip (ws1 +:+ other +:+ ws2)) = upper (strip input))
  /\ (forall other group' fs',
         isascii other = true ->
         upper (strip other) = upper (strip input) ->
         strip input <> EmptyString ->
         Metrics.save_metric net api_key other group'
           (Metrics.save_metric net api_key input group ss fs).1.1 fs'
         = ((Metrics.save_metric net api_key input group ss fs).1.1, fs',
            [Warning (upper (strip input) +:+ " already saved!")])).
Proof.
  intros Hascii.
  assert (forall id,
      id ∈ saved_metrics (Metrics.save_metric net api_key input group ss fs).1.1 ->
      id ∈ saved_metrics ss
      \/ (id = upper (strip input) /\ normal_form id /\ isascii id = true))
    as Hids.
  { intros id Hid.
    destruct (save_metric_outcome net api_key input group ss fs)
      as [(Hm & _) | (Hne & _ & Hm & _)]; rewrite Hm in Hid.
    - left. exact Hid.
    - apply elem_of_app in Hid as [Hold | Hnew]; [left; exact Hold |].
      apply list_elem_of_singleton in Hnew. subst id. right.
      split; [reflexivity |]. split; [apply upper_strip_normal_form, Hne |].
      apply isascii_upper, isascii_strip, Hascii. }
  split; [exact Hids |]. split; [| split].
  - intros Hinv id Hid.
    destruct (Hids id Hid) as [Hold | (_ & Hnf & _)]; [apply Hinv, Hold | exact Hnf].
  - intros ws1 ws2 other _ H1 H2 Hcase.
    rewrite (strip_surrounding_space ws1 other ws2 H1 H2).
    rewrite <- !strip_upper, Hcase. reflexivity.
  - intros other group' fs' _ Hsame Hne.
    assert (strip other <> EmptyString) as Hne'.
    { intros H. rewrite H in Hsame. simpl in Hsame. symmetry in Hsame.
      apply upper_empty in Hsame. contradiction. }
    assert (upper (strip input)
              ∈ saved_metrics (Metrics.save_metric net api_key input group ss fs).1.1
            /\ show_add_metric (Metrics.save_metric net api_key input group ss fs).1.1
               = false) as [Hin Hshow].
    { split.
      - destruct (save_metric_outcome net api_key input group ss fs)
          as [(Hm & _) | (_ & _ & Hm & _)]; rewrite Hm.
        + destruct (decide (upper (strip input) ∈ saved_metrics ss)) as [H | H];
            [exact H |].
          destruct (save_metric_fresh net api_key input group ss fs Hne H)
            as (Hm' & _). rewrite Hm' in Hm.
          apply (f_equal length) in Hm. rewrite length_app in Hm.
          simpl in Hm. lia.
        + apply elem_of_app. right. apply list_elem_of_singleton. reflexivity.
      - unfold Metrics.save_metric.
        destruct (strip input); [congruence |]. cbn [truthy].
        destruct (if negb _ then _ else _) as [[? ?] ?]. reflexivity. }
    rewrite <- Hsame in Hin.
    rewrite (save_metric_duplicate net api_key other group' _ fs' Hne' Hin).
    rewrite Hsame.
    destruct ((Metrics.save_metric net api_key input group ss fs).1.1) as [m n g sh].
    simpl in Hshow. subst sh. reflexivity.
Qed.

(** C10. An add never writes a blank group label. An entry of the group
    map after the add was there before, or belongs to the identifier
    added and holds the group input stripped, which is then neither empty
    nor white space only and has no white space at either end. A group
    input that is missing or blank leaves the group map as it was, and the
    form turns a blank new group name into no group. So a group map
    without blank labels stays without blank labels, and after every add
    in a session reached from the empty store no label is blank. *)
Theorem add_never_stores_blank_group (input : string) (group : option string)
    (ss : session) (fs : disk) :
  (forall id label,
      saved_metrics_groups (Metrics.save_metric net api_key input group ss fs).1.1
        !! id = Some label ->
      saved_metrics_groups ss !! id = Some label
      \/ (id = upper (strip input)
          /\ exists g, group = Some g /\ label = strip g /\ label <> EmptyString
                       /\ proper_label label))
  /\ ((group = None \/ exists g, group = Some g /\ all_space g = true) ->
      saved_metrics_groups (Metrics.save_metric net api_key input group ss fs).1.1
      = saved_metrics_groups ss)
  /\ (forall form,
         group_input_type form = CreateNew ->
         all_space (new_group_name form) = true ->
         metric_group ss form = None)
  /\ ((forall id label, saved_metrics_groups ss !! id = Some label ->
                        all_space label = false) ->
      forall id label,
        saved_metrics_groups (Metrics.save_metric net api_key input group ss fs).1.1
          !! id = Some label ->
        all_space label = false)
  /\ (reachable ss ->
      forall id label,
        saved_metrics_groups (Metrics.save_metric net api_key input group ss fs).1.1
          !! id = Some label ->
        proper_label label).
Proof.
  assert (forall id label,
      saved_metrics_groups (Metrics.save_metric net api_key input group ss fs).1.1
        !! id = Some label ->
      saved_metrics_groups ss !! id = Some label
      \/ (id = upper (strip input)
          /\ exists g, group = Some g /\ label = strip g /\ label <> EmptyString
                       /\ proper_label label)) as Hentries.
  { intros id label Hlook.
    destruct (save_metric_outcome net api_key input group ss fs)
      as [(_ & _ & Hg & _) | (_ & _ & _ & Hg)]; rewrite Hg in Hlook.
    - left. exact Hlook.
    - apply assign_group_entries, Hlook. }
  split; [exact Hentries |]. split; [| split; [| split]].
  - intros Hnone.
    destruct (save_metric_outcome net api_key input group ss fs)
      as [(_ & _ & Hg & _) | (_ & _ & _ & Hg)]; rewrite Hg; [reflexivity |].
    apply assign_group_blank, Hnone.
  - intros form Hnew Hblank. unfold metric_group. rewrite Hnew.
    apply strip_empty_iff in Hblank. rewrite Hblank. reflexivity.
  - intros Hinv id label Hlook.
    destruct (Hentries id label Hlook) as [Hold | (_ & g & _ & _ & _ & Hns & _)].
    + exact (Hinv id label Hold).
    + exact Hns.
  - intros Hreach id label Hlook.
    apply reachable_well_formed in Hreach.
    apply (save_metric_well_formed net api_key input group ss fs) in Hreach
      as (_ & _ & Hlabels).
    apply (Hlabels id label Hlook).
Qed.

End AddClaims.

Lemma add_present_identifier_rejected_witness :
  saved_metrics
    (Metrics.save_metric offline "key" " unrate " (Some "Prices") stocked writable).1.1
  = saved_metrics stocked
  /\ saved_metrics_names
       (Metrics.save_metric offline "key" " unrate " (Some "Prices") stocked writable).1.1
     = saved_metrics_names stocked
  /\ saved_metrics_groups
       (Metrics.save_metric offline "key" " unrate " (Some "Prices") stocked writable).1.1
     = saved_metrics_groups stocked
  /\ (Metrics.save_metric offline "key" " unrate " (Some "Prices") stocked writable).1.2
     = writable
  /\ (PyStr.strip " unrate " <> EmptyString ->
      (Metrics.save_metric offline "key" " unrate " (Some "Prices") stocked writable).2
      = [Warning ("UNRATE" +:+ " already saved!")]).
Proof.
  apply (add_present_identifier_rejected offline "key" "UNRATE" " unrate "
           (Some "Prices") stocked writable).
  - vm_compute. constructor.
  - vm_compute. reflexivity.
Defined.

(** C2, as stated, fails: after adding "GDP" to the empty store the name
    map is not empty, it maps "GDP" to its name (here "GDP" itself, the
    metadata request having failed). *)
Lemma add_gdp_name_map_not_empty :
  saved_metrics_names
    (Metrics.save_metric offline "key" "GDP" None empty_session writable).1.1
    !! "GDP" = Some "GDP"
  /\ saved_metrics_names
       (Metrics.save_metric offline "key" "GDP" None empty_session writable).1.1
     <> ∅.
Proof.
  assert (saved_metrics_names
            (Metrics.save_metric offline "key" "GDP" None empty_session writable).1.1
            !! "GDP" = Some "GDP") as H by (vm_compute; reflexivity).
  split; [exact H |].
  intros Hempty. rewrite Hempty, lookup_empty in H. discriminate.
Qed.

Lemma add_stores_normal_form_witness :
  (forall id,
      id ∈ saved_metrics
             (Metrics.save_metric offline "key" " unrate " None stocked writable).1.1 ->
      id ∈ saved_metrics stocked
      \/ (id = PyStr.upper (PyStr.strip " unrate ") /\ normal_form id
          /\ PyStr.isascii id = true))
  /\ ((forall id, id ∈ saved_metrics stocked -> normal_form id) ->
      forall id,
        id ∈ saved_metrics
               (Metrics.save_metric offline "key" " unrate " None stocked writable).1.1 ->
        normal_form id)
  /\ (forall ws1 ws2 other,
         PyStr.isascii other = true ->
         PyStr.all_space ws1 = true -> PyStr.all_space ws2 = true ->
         PyStr.upper other = PyStr.upper " unrate " ->
         PyStr.upper (PyStr.strip (ws1 +:+ other +:+ ws2))
         = PyStr.upper (PyStr.strip " unrate "))
  /\ (forall other group' fs',
         PyStr.isascii other = true ->
         PyStr.upper (PyStr.strip other) = PyStr.upper (PyStr.strip " unrate ") ->
         PyStr.strip " unrate " <> EmptyString ->
         Metrics.save_metric offline "key" other group'
           (Metrics.save_metric offline "key" " unrate " None stocked writable).1.1 fs'
         = ((Metrics.save_metric offline "key" " unrate " None stocked writable).1.1,
            fs',
            [Warning (PyStr.upper (PyStr.strip " unrate ") +:+ " already saved!")])).
Proof.
  apply (add_stores_normal_form offline "key" " unrate " None stocked writable).
  reflexivity.
Defined.

(** C8, as stated, fails: white space inside the input is kept, so the
    identifier stored for " a b " is "A B", which is not free of white
    space. *)
Lemma add_keeps_inner_white_space :
  saved_metrics
    (Metrics.save_metric offline "key" " a b " None empty_session writable).1.1
  = ["A B"]
  /\ PyStr.has_space "A B" = true.
Proof. vm_compute. split; reflexivity. Qed.

Section RemoveClaims.

(** C7, as amended. For an identifier that is in the ordered sequence,
    the only ones a delete button exists for, removing it drops its first
    occurrence from the sequence and its entry from the name map and from
    the group map, and persists the result; the other identifiers keep
    their order, their names and their groups. An identifier that
    occurred once is gone from the sequence, which is the case in every
    session reached from the empty store. A click on a delete button
    never raises. *)
Theorem remove_present_metric (metric : string) (ss : session) (fs : disk) :
  metric ∈ saved_metrics ss ->
  exists l1 l2,
    saved_metrics ss = l1 ++ metric :: l2 /\ (metric ∉ l1)
    /\ Metrics.remove_metric metric ss fs
       = Ok ({| saved_metrics := l1 ++ l2;
                saved_metrics_names := delete metric (saved_metrics_names ss);
                saved_metrics_groups := delete metric (saved_metrics_groups ss);
                show_add_metric := show_add_metric ss |},
             (save_metrics_to_file (l1 ++ l2)
                (delete metric (saved_metrics_names ss))
                (Some (delete metric (saved_metrics_groups ss))) fs).1,
             (save_metrics_to_file (l1 ++ l2)
                (delete metric (saved_metrics_names ss))
                (Some (delete metric (saved_metrics_groups ss))) fs).2)
    /\ delete metric (saved_metrics_names ss) !! metric = None
    /\ delete metric (saved_metrics_groups ss) !! metric = None
    /\ (forall other, other <> metric ->
          delete metric (saved_metrics_names ss) !! other
          = saved_metrics_names ss !! other
          /\ delete metric (saved_metrics_groups ss) !! other
             = saved_metrics_groups ss !! other
          /\ (other ∈ l1 ++ l2 <-> other ∈ saved_metrics ss))
    /\ (NoDup (saved_metrics ss) -> metric ∉ l1 ++ l2)
    /\ (reachable ss -> metric ∉ l1 ++ l2)
    /\ (forall edit_mode choice i,
          exists after, Metrics.delete_clicked edit_mode choice i ss fs = Ok after).
Proof.
  intros Hin.
  destruct (remove_metric_present metric ss fs Hin)
    as (l1 & l2 & Hsplit & Hnotin & Hremove).
  exists l1, l2. split; [exact Hsplit |]. split; [exact Hnotin |].
  split; [exact Hremove |].
  split; [apply lookup_delete_eq |]. split; [apply lookup_delete_eq |]. split.
  { intros other Hne. split; [apply lookup_delete_ne; congruence |].
    split; [apply lookup_delete_ne; congruence |].
    rewrite Hsplit, !elem_of_app, elem_of_cons. intuition congruence. }
  split.
  { rewrite Hsplit. intros Hnd. apply (NoDup_remove_middle l1 l2 metric Hnd). }
  split.
  { intros Hreach. apply reachable_well_formed in Hreach as (Hnd & _).
    rewrite Hsplit in Hnd. apply (NoDup_remove_middle l1 l2 metric Hnd). }
  intros edit_mode choice i.
  destruct (delete_clicked_cases edit_mode choice i ss fs)
    as [Hsame | (m & Hm & Hbody)]; [eexists; exact Hsame |].
  destruct (remove_metric_present m ss fs Hm) as (k1 & k2 & _ & _ & Hrm).
  rewrite Hbody, Hrm. eexists; reflexivity.
Qed.

End RemoveClaims.

Lemma remove_present_metric_witness :
  exists l1 l2,
    saved_metrics stocked = l1 ++ "UNRATE" :: l2 /\ ("UNRATE" ∉ l1)
    /\ Metrics.remove_metric "UNRATE" stocked writable
       = Ok ({| saved_metrics := l1 ++ l2;
                saved_metrics_names := delete "UNRATE" (saved_metrics_names stocked);
                saved_metrics_groups := delete "UNRATE" (saved_metrics_groups stocked);
                show_add_metric := show_add_metric stocked |},
             (save_metrics_to_file (l1 ++ l2)
                (delete "UNRATE" (saved_metrics_names stocked))
                (Some (delete "UNRATE" (saved_metrics_groups stocked))) writable).1,
             (save_metrics_to_file (l1 ++ l2)
                (delete "UNRATE" (saved_metrics_names stocked))
                (Some (delete "UNRATE" (saved_metrics_groups stocked))) writable).2)
    /\ delete "UNRATE" (saved_metrics_names stocked) !! "UNRATE" = None
    /\ delete "UNRATE" (saved_metrics_groups stocked) !! "UNRATE" = None
    /\ (forall other, other <> "UNRATE" ->
          delete "UNRATE" (saved_metrics_names stocked) !! other
          = saved_metrics_names stocked !! other
          /\ delete "UNRATE" (saved_metrics_groups stocked) !! other
             = saved_metrics_groups stocked !! other
          /\ (other ∈ l1 ++ l2 <-> other ∈ saved_metrics stocked))
    /\ (NoDup (saved_metrics stocked) -> "UNRATE" ∉ l1 ++ l2)
    /\ (reachable stocked -> "UNRATE" ∉ l1 ++ l2)
    /\ (forall edit_mode choice i,
          exists after, Metrics.delete_clicked edit_mode choice i stocked writable = Ok after).
Proof.
  apply (remove_present_metric "UNRATE" stocked writable).
  vm_compute. constructor.
Defined.

(** C7, as stated, fails twice. Removing an identifier that is not in
    the sequence is not a silent no-op: [list.remove] raises. And for an
    identifier stored twice only the first copy leaves the sequence, while
    its name and its group are deleted. *)
Lemma remove_absent_raises_and_duplicate_stays :
  Metrics.remove_metric "GDP" empty_session writable
  = Raise (Exception "list.remove(x): x not in list")
  /\ (exists after,
        Metrics.remove_metric "IPG322S" twice writable = Ok after
        /\ saved_metrics after.1.1 = ["IPG322S"]
        /\ saved_metrics_names after.1.1 !! "IPG322S" = None
        /\ saved_metrics_groups after.1.1 !! "IPG322S" = None).
Proof.
  split; [reflexivity |].
  eexists. split; [reflexivity |]. vm_compute. repeat split.
Qed.

(** ** The series client *)

Section ClientFacts.

Variable pandas : pd.t.
Variable net : network.

Lemma result_mapM_Ok {A B} (f : A -> result B) (l : list A) (bs : list B) :
  result_mapM f l = Ok bs <-> Forall2 (fun a b => f a = Ok b) l bs.
Proof.
  split.
  - revert bs. induction l as [| a l IH]; simpl; intros bs H.
    + injection H as <-. constructor.
    + destruct (f a) as [b | e] eqn:E; simpl in H; [| discriminate].
      destruct (result_mapM f l) as [bs' | e]; simpl in H; [| discriminate].
      injection H as <-. constructor; [exact E | apply IH; reflexivity].
  - induction 1 as [| a b l bs Hab Hrest IH]; [reflexivity |].
    simpl. rewrite Hab. cbn [bind]. rewrite IH. reflexivity.
Qed.

(** When some element raises, the exception of the traversal is that of
    an element. *)
Lemma result_mapM_Raise {A B} (f : A -> result B) (l : list A) (a : A) (e : exn) :
  a ∈ l -> f a = Raise e ->
  exists a' e', a' ∈ l /\ f a' = Raise e' /\ result_mapM f l = Raise e'.
Proof.
  intros Hin Hf. induction l as [| a0 l IH].
  - apply elem_of_nil in Hin. contradiction.
  - simpl. destruct (f a0) as [b | e0] eqn:E.
    + apply elem_of_cons in Hin as [-> | Hin]; [congruence |].
      destruct (IH Hin) as (a' & e' & Hmem & Ha' & ->).
      exists a', e'. split; [right; exact Hmem | split; [exact Ha' | reflexivity]].
    + exists a0, e0. split; [left | split; [exact E | reflexivity]].
Qed.

(** The rows of two columns put side by side. *)
Lemma zipped_lookup {N} (dates : list Timestamp) (values : list N) (i : nat)
    (r : observation N) :
  map (fun dv => {| date := fst dv; value := snd dv |}) (combine dates values) !! i
  = Some r
  <-> dates !! i = Some (date r) /\ values !! i = Some (value r).
Proof.
  revert values i. induction dates as [| d dates IH]; intros [| v values] i;
    cbn [combine map];
    try (rewrite !lookup_nil; split; [discriminate | intros [? ?]; discriminate]).
  destruct i as [| i]; cbn [lookup list_lookup].
  - destruct r as [d' v']. cbn [date value]. split.
    + intros [= -> ->]. split; reflexivity.
    + intros [[= ->] [= ->]]. reflexivity.
  - apply IH.
Qed.

Lemma zipped_filter_length {N} (keep : N -> bool) (dates : list Timestamp)
    (values : list N) :
  length dates = length values ->
  length (filter (fun r : observation N => keep (value r) = false)
            (map (fun dv => {| date := fst dv; value := snd dv |})
               (combine dates values)))
  = length (filter (fun v => keep v = false) values).
Proof.
  revert values. induction dates as [| d dates IH]; intros [| v values] Hlen;
    try discriminate; [reflexivity |].
  cbn [combine map fst snd]. injection Hlen as Hlen.
  destruct (keep v) eqn:E.
  - rewrite (filter_cons_False _ v) by congruence.
    rewrite filter_cons_False by (cbn [value]; congruence).
    apply IH, Hlen.
  - rewrite (filter_cons_True _ v) by exact E.
    rewrite filter_cons_True by exact E.
    cbn [length]. f_equal. apply IH, Hlen.
Qed.

Lemma parsed_length (rows : list raw_observation) (dates : list Timestamp) :
  Forall2 (fun raw d => pd.to_datetime pandas (raw_date raw) = Ok d) rows dates ->
  length dates = length (pd.to_numeric pandas (map raw_value rows)).
Proof.
  intros H. rewrite pd.to_numeric_length, length_map.
  symmetry. apply (Forall2_length _ _ _ H).
Qed.

(** A row of the converted frame is a row of the source, by position. *)
Lemma converted_origin (rows : list raw_observation) (dates : list Timestamp) :
  Forall2 (fun raw d => pd.to_datetime pandas (raw_date raw) = Ok d) rows dates ->
  forall r, r ∈ FredAPI.converted pandas dates rows ->
    exists i raw,
      rows !! i = Some raw
      /\ pd.to_datetime pandas (raw_date raw) = Ok (date r)
      /\ pd.to_numeric pandas (map raw_value rows) !! i = Some (value r).
Proof.
  intros Hparsed r Hin. apply list_elem_of_lookup in Hin as [i Hi].
  unfold FredAPI.converted in Hi. apply zipped_lookup in Hi as [Hd Hv].
  destruct (Forall2_lookup_r _ _ _ _ _ Hparsed Hd) as (raw & Hraw & Hdate).
  exists i, raw. split; [exact Hraw |]. split; [exact Hdate | exact Hv].
Qed.

(** And every row of the source is a row of the converted frame. *)
Lemma converted_row (rows : list raw_observation) (dates : list Timestamp)
    (i : nat) (d : Timestamp) (v : pd.number pandas) :
  dates !! i = Some d ->
  pd.to_numeric pandas (map raw_value rows) !! i = Some v ->
  {| date := d; value := v |} ∈ FredAPI.converted pandas dates rows.
Proof.
  intros Hd Hv. apply list_elem_of_lookup. exists i.
  unfold FredAPI.converted. apply zipped_lookup. split; assumption.
Qed.

Lemma converted_dropna_length (rows : list raw_observation) (dates : list Timestamp) :
  Forall2 (fun raw d => pd.to_datetime pandas (raw_date raw) = Ok d) rows dates ->
  length (dropna pandas (FredAPI.converted pandas dates rows))
  = length (filter (fun v => pd.isna pandas v = false)
              (pd.to_numeric pandas (map raw_value rows))).
Proof.
  intros Hparsed. unfold dropna, FredAPI.converted.
  apply (zipped_filter_length (pd.isna pandas)), parsed_length, Hparsed.
Qed.

(** What [frame_of_observations] returns once the dates are parsed. *)
Lemma frame_of_observations_parsed (rows : list raw_observation)
    (dates : list Timestamp) :
  Forall2 (fun raw d => pd.to_datetime pandas (raw_date raw) = Ok d) rows dates ->
  FredAPI.frame_of_observations pandas rows
  = Ok (pd.sort_values pandas (dropna pandas (FredAPI.converted pandas dates rows))).
Proof.
  intros Hparsed. unfold FredAPI.frame_of_observations.
  destruct rows as [| raw0 rows0] eqn:Erows.
  - inversion Hparsed; subst. f_equal. symmetry.
    apply Permutation_nil. symmetry. apply pd.sort_values_perm.
  - rewrite <- Erows in *. apply result_mapM_Ok in Hparsed. rewrite Hparsed.
    reflexivity.
Qed.

(** When it returns, the dates were parsed. *)
Lemma frame_of_observations_dates (rows : list raw_observation)
    (df : DataFrame pandas) :
  FredAPI.frame_of_observations pandas rows = Ok df ->
  exists dates,
    Forall2 (fun raw d => pd.to_datetime pandas (raw_date raw) = Ok d) rows dates
    /\ df = pd.sort_values pandas (dropna pandas (FredAPI.converted pandas dates rows)).
Proof.
  intros Hframe.
  destruct (result_mapM (fun r => pd.to_datetime pandas (raw_date r)) rows)
    as [dates | e] eqn:Edates.
  - apply result_mapM_Ok in Edates. exists dates. split; [exact Edates |].
    rewrite (frame_of_observations_parsed rows dates Edates) in Hframe.
    congruence.
  - unfold FredAPI.frame_of_observations in Hframe. rewrite Edates in Hframe.
    destruct rows; [discriminate | discriminate].
Qed.

(** What [frame_of_observations] returns, when it returns. *)
Lemma frame_of_observations_Ok (rows : list raw_observation) (df : DataFrame pandas) :
  FredAPI.frame_of_observations pandas rows = Ok df ->
  StronglySorted by_date df
  /\ (forall r, r ∈ df ->
        pd.isna pandas (value r) = false
        /\ exists i raw,
             rows !! i = Some raw
             /\ pd.to_datetime pandas (raw_date raw) = Ok (date r)
             /\ pd.to_numeric pandas (map raw_value rows) !! i = Some (value r)).
Proof.
  intros Hframe.
  apply frame_of_observations_dates in Hframe as (dates & Hparsed & ->).
  split; [apply pd.sort_values_sorted |].
  intros r Hin. rewrite (pd.sort_values_perm pandas) in Hin.
  unfold dropna in Hin. apply list_elem_of_filter in Hin as [Hnum Hin].
  split; [exact Hnum |]. apply (converted_origin rows dates Hparsed r Hin).
Qed.

(** The cases of [get_series_data_try], by what the network answered. *)
Lemma get_series_data_try_cases (self : FredAPI.t) (series_id : string)
    (start_date end_date : option string) :
  match get_observations net (FredAPI.observations_url self)
          (FredAPI.observations_params self series_id start_date end_date) with
  | Raise e =>
      FredAPI.get_series_data_try pandas net self series_id start_date end_date
      = Raise e
  | Ok response =>
      if (400 <=? status_code response) && (status_code response <? 600) then
        FredAPI.get_series_data_try pandas net self series_id start_date end_date
        = Raise (RequestException (http_error response))
      else
        match json_body response with
        | Raise e =>
            FredAPI.get_series_data_try pandas net self series_id start_date
              end_date = Raise e
        | Ok data =>
            FredAPI.get_series_data_try pandas net self series_id start_date
              end_date
            = match observations data with
              | Some rows => FredAPI.frame_of_observations pandas rows
              | None => Ok []
              end
        end
  end.
Proof.
  unfold FredAPI.get_series_data_try, raise_for_status.
  destruct (get_observations net _ _) as [response | e]; cbn [bind]; [| reflexivity].
  destruct ((400 <=? status_code response) && (status_code response <? 600));
    cbn [bind]; [reflexivity |].
  destruct (json_body response); reflexivity.
Qed.

Lemma status_not_error (status : Z) :
  ~ 400 <= status < 600 -> (400 <=? status) && (status <? 600) = false.
Proof.
  intros H. apply andb_false_iff.
  destruct (Z.leb_spec 400 status); [| left; reflexivity].
  right. apply Z.ltb_ge. lia.
Qed.

(** The [try] of a request that went through. *)
Lemma get_series_data_try_through (self : FredAPI.t) (series_id : string)
    (start_date end_date : option string)
    (response : response observations_body) (data : observations_body) :
  get_observations net (FredAPI.observations_url self)
    (FredAPI.observations_params self series_id start_date end_date) = Ok response ->
  ~ 400 <= status_code response < 600 ->
  json_body response = Ok data ->
  FredAPI.get_series_data_try pandas net self series_id start_date end_date
  = match observations data with
    | Some rows => FredAPI.frame_of_observations pandas rows
    | None => Ok []
    end.
Proof.
  intros Hresp Hstatus Hdata.
  pose proof (get_series_data_try_cases self series_id start_date end_date) as Hcases.
  rewrite Hresp, (status_not_error _ Hstatus), Hdata in Hcases. exact Hcases.
Qed.

(** What [get_series_data] returns is the frame of the [try], or nothing
    when there is none. *)
Lemma get_series_data_frame (self : FredAPI.t) (series_id : string)
    (start_date end_date : option string) :
  (FredAPI.get_series_data pandas net self series_id start_date end_date).1
  = match FredAPI.get_series_data_try pandas net self series_id start_date
            end_date with
    | Ok df => df
    | Raise _ => []
    end.
Proof.
  unfold FredAPI.get_series_data.
  destruct (FredAPI.get_series_data_try _ _ _ _ _ _) as [df | [e | e]]; reflexivity.
Qed.

Lemma get_series_data_try_rows (self : FredAPI.t) (series_id : string)
    (start_date end_date : option string) (df : DataFrame pandas) :
  FredAPI.get_series_data_try pandas net self series_id start_date end_date
  = Ok df ->
  FredAPI.frame_of_observations pandas
    (source_observations net self series_id start_date end_date) = Ok df.
Proof.
  intros Htry.
  pose proof (get_series_data_try_cases self series_id start_date end_date)
    as Hcases.
  unfold source_observations.
  destruct (get_observations net _ _) as [response | e]; [| congruence].
  destruct ((400 <=? status_code response) && (status_code response <? 600));
    [congruence |].
  destruct (json_body response) as [data | e]; [| congruence].
  rewrite Hcases in Htry.
  destruct (observations data) as [rows |]; [exact Htry |].
  injection Htry as <-. reflexivity.
Qed.

End ClientFacts.

Section ClientClaims.

Variable pandas : pd.t.
Variable net : network.

(** C3. Whatever the identifier, the date bounds and the answer of the
    network, the frame [get_series_data] returns is in ascending order of
    date, and each of its rows is a row sent by the API whose date parsed
    and whose value is a number: no row carries the missing value. And
    when the request went through and the dates of the body parsed, the
    frame is returned without a message and holds the rows of the source
    that carry a number, all of them and nothing else: those without a
    number are dropped, the others are put in order. *)
Theorem get_series_data_sorted_numeric (self : FredAPI.t) (series_id : string)
    (start_date end_date : option string) :
  StronglySorted Timestamp_le
    (map date
       (FredAPI.get_series_data pandas net self series_id start_date end_date).1)
  /\ (forall r,
        r ∈ (FredAPI.get_series_data pandas net self series_id start_date
               end_date).1 ->
        pd.isna pandas (value r) = false
        /\ exists i raw,
             source_observations net self series_id start_date end_date !! i
             = Some raw
             /\ pd.to_datetime pandas (raw_date raw) = Ok (date r)
             /\ pd.to_numeric pandas
                  (map raw_value
                     (source_observations net self series_id start_date end_date))
                  !! i = Some (value r))
  /\ (forall response data rows dates,
        get_observations net (FredAPI.observations_url self)
          (FredAPI.observations_params self series_id start_date end_date)
        = Ok response ->
        ~ 400 <= status_code response < 600 ->
        json_body response = Ok data ->
        observations data = Some rows ->
        Forall2 (fun raw d => pd.to_datetime pandas (raw_date raw) = Ok d)
          rows dates ->
        FredAPI.get_series_data pandas net self series_id start_date end_date
        = (pd.sort_values pandas
             (dropna pandas (FredAPI.converted pandas dates rows)), [])
        /\ (forall i d v,
              dates !! i = Some d ->
              pd.to_numeric pandas (map raw_value rows) !! i = Some v ->
              pd.isna pandas v = false ->
              {| date := d; value := v |}
              ∈ (FredAPI.get_series_data pandas net self series_id start_date
                   end_date).1)
        /\ length (FredAPI.get_series_data pandas net self series_id start_date
                     end_date).1
           = length (filter (fun v => pd.isna pandas v = false)
                       (pd.to_numeric pandas (map raw_value rows)))).
Proof.
  split; [| split].
  - rewrite get_series_data_frame.
    destruct (FredAPI.get_series_data_try pandas net self series_id start_date
                end_date) as [df | e] eqn:Htry; [| constructor].
    apply get_series_data_try_rows, frame_of_observations_Ok in Htry as [Hsorted _].
    apply sorted_dates, Hsorted.
  - rewrite get_series_data_frame.
    destruct (FredAPI.get_series_data_try pandas net self series_id start_date
                end_date) as [df | e] eqn:Htry.
    + apply get_series_data_try_rows, frame_of_observations_Ok in Htry as [_ Hrows].
      exact Hrows.
    + intros r Hin. apply elem_of_nil in Hin. contradiction.
  - intros response data rows dates Hresp Hstatus Hdata Hrows Hparsed.
    assert (FredAPI.get_series_data pandas net self series_id start_date end_date
            = (pd.sort_values pandas
                 (dropna pandas (FredAPI.converted pandas dates rows)), [])) as ->.
    { unfold FredAPI.get_series_data.
      rewrite (get_series_data_try_through pandas net self series_id start_date
                 end_date response data Hresp Hstatus Hdata), Hrows.
      rewrite (frame_of_observations_parsed pandas rows dates Hparsed).
      reflexivity. }
    cbn [fst]. split; [reflexivity |]. split.
    + intros i d v Hd Hv Hnum. rewrite (pd.sort_values_perm pandas).
      unfold dropna. apply list_elem_of_filter. split; [exact Hnum |].
      apply (converted_row pandas rows dates i d v Hd Hv).
    + rewrite sort_values_length.
      apply converted_dropna_length, Hparsed.
Qed.

(** C4, as amended. [get_series_data] always returns a frame and a list
    of messages: no exception leaves it. If the request fails in
    transport, if the status is an HTTP error, if the body cannot be
    decoded, or if a date of the body cannot be parsed, the frame is empty
    and the failure is reported as one error message, which carries the
    text of the exception. A body without ['observations'] gives the
    empty frame and no message; and when the dates of the body parse
    there is no message either. In all cases either no message is
    reported, or the frame is empty and one error message is. *)
Theorem get_series_data_never_raises (self : FredAPI.t) (series_id : string)
    (start_date end_date : option string) :
  (forall e,
      get_observations net (FredAPI.observations_url self)
        (FredAPI.observations_params self series_id start_date end_date) = Raise e ->
      FredAPI.get_series_data pandas net self series_id start_date end_date
      = ([], [Error (match e with
                     | RequestException t => "Error fetching data: " +:+ t
                     | Exception t => "Error processing data: " +:+ t
                     end)]))
  /\ (forall response,
        get_observations net (FredAPI.observations_url self)
          (FredAPI.observations_params self series_id start_date end_date)
        = Ok response ->
        (400 <= status_code response < 600 ->
         FredAPI.get_series_data pandas net self series_id start_date end_date
         = ([], [Error ("Error fetching data: " +:+ http_error response)]))
        /\ (~ 400 <= status_code response < 600 ->
            (forall e, json_body response = Raise e ->
               FredAPI.get_series_data pandas net self series_id start_date
                 end_date
               = ([], [Error (match e with
                              | RequestException t => "Error fetching data: " +:+ t
                              | Exception t => "Error processing data: " +:+ t
                              end)]))
            /\ (forall data, json_body response = Ok data ->
                  (observations data = None ->
                   FredAPI.get_series_data pandas net self series_id start_date
                     end_date = ([], []))
                  /\ (forall rows raw e,
                        observations data = Some rows -> raw ∈ rows ->
                        pd.to_datetime pandas (raw_date raw) = Raise e ->
                        exists raw' e',
                          raw' ∈ rows
                          /\ pd.to_datetime pandas (raw_date raw') = Raise e'
                          /\ FredAPI.get_series_data pandas net self series_id
                               start_date end_date
                             = ([], [Error (match e' with
                                            | RequestException t =>
                                                "Error fetching data: " +:+ t
                                            | Exception t =>
                                                "Error processing data: " +:+ t
                                            end)]))
                  /\ (forall rows dates,
                        observations data = Some rows ->
                        Forall2
                          (fun raw d => pd.to_datetime pandas (raw_date raw) = Ok d)
                          rows dates ->
                        (FredAPI.get_series_data pandas net self series_id
                           start_date end_date).2 = []))))
  /\ ((FredAPI.get_series_data pandas net self series_id start_date end_date).2
      = []
      \/ (FredAPI.get_series_data pandas net self series_id start_date end_date).1
         = []
         /\ exists text,
              (FredAPI.get_series_data pandas net self series_id start_date
                 end_date).2 = [Error text]).
Proof.
  pose proof (get_series_data_try_cases pandas net self series_id start_date
                end_date) as Hcases.
  split; [| split].
  - intros e He. rewrite He in Hcases. unfold FredAPI.get_series_data.
    rewrite Hcases. destruct e; reflexivity.
  - intros response Hresp. rewrite Hresp in Hcases. split.
    + intros Hstatus.
      assert ((400 <=? status_code response) && (status_code response <? 600) = true)
        as Hb by (apply andb_true_iff; split; [apply Z.leb_le | apply Z.ltb_lt]; lia).
      rewrite Hb in Hcases. unfold FredAPI.get_series_data. rewrite Hcases.
      reflexivity.
    + intros Hstatus. rewrite (status_not_error _ Hstatus) in Hcases. split.
      * intros e He. rewrite He in Hcases. unfold FredAPI.get_series_data.
        rewrite Hcases. destruct e; reflexivity.
      * intros data Hdata. rewrite Hdata in Hcases. split; [| split].
        -- intros Hnone. rewrite Hnone in Hcases. unfold FredAPI.get_series_data.
           rewrite Hcases. reflexivity.
        -- intros rows raw e Hrows Hin Hdate. rewrite Hrows in Hcases.
           unfold FredAPI.get_series_data. rewrite Hcases.
           unfold FredAPI.frame_of_observations.
           destruct rows as [| raw0 rows0] eqn:Erows;
             [apply elem_of_nil in Hin; contradiction |].
           rewrite <- Erows in *.
           destruct (result_mapM_Raise (fun r => pd.to_datetime pandas (raw_date r))
                       rows raw e Hin Hdate) as (raw' & e' & Hmem & Hraw' & ->).
           cbn [bind]. exists raw', e'.
           split; [exact Hmem |]. split; [exact Hraw' |]. destruct e'; reflexivity.
        -- intros rows dates Hrows Hparsed. rewrite Hrows in Hcases.
           unfold FredAPI.get_series_data. rewrite Hcases.
           rewrite (frame_of_observations_parsed pandas rows dates Hparsed).
           reflexivity.
  - unfold FredAPI.get_series_data.
    destruct (FredAPI.get_series_data_try _ _ _ _ _ _) as [df | [t | t]].
    + left. reflexivity.
    + right. split; [reflexivity | eexists; reflexivity].
    + right. split; [reflexivity | eexists; reflexivity].
Qed.

End ClientClaims.

(** C4, as stated, fails: an answer that is not of the expected form, an
    object without ['observations'], gives the empty frame without any
    message to the user. *)
Lemma get_series_data_silent_without_observations :
  get_observations no_observations (FredAPI.observations_url fred)
    (FredAPI.observations_params fred "UNRATE" None None)
  = Ok {| status_code := 200; http_error := "";
          json_body := Ok {| observations := None |} |}
  /\ FredAPI.get_series_data float64 no_observations fred "UNRATE" None None
     = ([], []).
Proof. split; reflexivity. Qed.

(** The scenario of the specification: UNRATE between 2020-01-01 and
    2020-03-01, the source sending February, January, and a March whose
    value is ".", gives January and February, in that order. *)
Example fetch_unrate_first_quarter :
  FredAPI.get_series_data float64 unrate_only fred
    "UNRATE" (Some "2020-01-01") (Some "2020-03-01")
  = ([ {| date := Day 2020 1 1; value := Fixture.numeral "3.6" |};
       {| date := Day 2020 2 1; value := Fixture.numeral "3.5" |} ], []).
Proof. vm_compute. reflexivity. Qed.

(** An injected transport failure gives the empty frame and one message. *)
Example fetch_offline :
  FredAPI.get_series_data float64 offline fred "UNRATE" None None
  = ([], [Error "Error fetching data: Connection refused"]).
Proof. reflexivity. Qed.

(** A row without a date is kept, after the dated ones. *)
Example fetch_undated_row :
  (FredAPI.get_series_data float64
     {| get_observations := fun _ _ =>
          Ok {| status_code := 200; http_error := "";
                json_body :=
                  Ok {| observations :=
                          Some [ {| raw_date := ""; raw_value := "1.5" |};
                                 {| raw_date := "2020-01-01"; raw_value := "2.5" |} ]
                     |} |};
        get_series := fun _ _ => Raise (RequestException "Connection refused") |}
     fred "UNRATE" None None).1
  = [ {| date := Day 2020 1 1; value := Fixture.numeral "2.5" |};
      {| date := NaT; value := Fixture.numeral "1.5" |} ].
Proof. vm_compute. reflexivity. Qed.

(** ** The scenarios, computed *)

(** A group given with white space around it is stored stripped. *)
Example add_with_group :
  saved_metrics_groups
    (Metrics.save_metric offline "key" "gdp" (Some "  Output ") empty_session writable).1.1
    !! "GDP" = Some "Output".
Proof. vm_compute. reflexivity. Qed.

(** A group of white space only is no group. *)
Example add_with_blank_group :
  saved_metrics_groups
    (Metrics.save_metric offline "key" "gdp" (Some "   ") empty_session writable).1.1
    !! "GDP" = None.
Proof. vm_compute. reflexivity. Qed.

(** The title the API knows becomes the name. *)
Example add_with_title :
  saved_metrics_names
    (Metrics.save_metric unrate_only "key" "unrate" None empty_session writable).1.1
    !! "UNRATE" = Some "Unemployment Rate".
Proof. vm_compute. reflexivity. Qed.

(** A file with the identifier list only loads with two empty dicts. *)
Example load_list_only :
  load_metrics_from_file
    {| saved_metrics_json :=
         Some (Document (JDict {[ "saved_metrics" := of_list ["GDP"] ]}));
       write_error := None |}
  = ((of_list ["GDP"], JDict ∅, JDict ∅), []).
Proof. reflexivity. Qed.

(** No file, and a file that does not parse, load as the empty store; the
    second reports the error. *)
Example load_no_file :
  load_metrics_from_file writable = ((JList [], JDict ∅, JDict ∅), []).
Proof. reflexivity. Qed.

Example load_garbled_file :
  load_metrics_from_file
    {| saved_metrics_json := Some (Unreadable "Expecting value: line 1 column 1 (char 0)");
       write_error := None |}
  = ((JList [], JDict ∅, JDict ∅),
     [Error "Could not load saved metrics: Expecting value: line 1 column 1 (char 0)"]).
Proof. reflexivity. Qed.

(** With a single observation the changes are not applicable. *)
Example summary_single_observation :
  Sequential_Change
    (Summary.summary_of_frame float64 empty_session true 2024 "GDP"
       [ {| date := Day 2024 1 1; value := 5%float |} ] ∅)
  = "N/A".
Proof. reflexivity. Qed.

(** In percentage mode, a previous value that is not zero gives a ratio. *)
Example summary_percentage :
  Sequential_Change
    (Summary.summary_of_frame float64 empty_session true 2024 "GDP"
       [ {| date := Day 2024 1 1; value := 4%float |};
         {| date := Day 2024 2 1; value := 5%float |} ] ∅)
  = "25.00%".
Proof. vm_compute. reflexivity. Qed.

(** A row without a date sorts last, its date cannot be formatted, and
    the row of the metric is the "Error" row. *)
Example summary_undated :
  Summary.summary_of_frame float64 empty_session true 2024 "GDP" undated ∅
  = {| Metric_Name := "GDP"; Current_Value := "Error"; Latest_Date := "Error";
       Units := "Error"; Frequency := "Error"; Sequential_Change := "Error";
       YTD_Change := "Error" |}.
Proof. vm_compute. reflexivity. Qed.


(** * Further properties *)

(** ** The file and the session *)

Section SyncFacts.
Import PyStr.

Lemma session_of_images (l : list string) (n g : gmap string string) :
  session_of_loaded (of_list l, of_dict n, of_dict g)
  = Some {| saved_metrics := l; saved_metrics_names := n;
            saved_metrics_groups := g; show_add_metric := false |}.
Proof.
  unfold session_of_loaded. rewrite as_list_of_list, !as_dict_of_dict. reflexivity.
Qed.

Lemma of_dict_empty : of_dict ∅ = JDict ∅.
Proof. unfold of_dict. rewrite fmap_empty. reflexivity. Qed.

Lemma session_of_nothing :
  session_of_loaded (JList [], JDict ∅, JDict ∅) = Some empty_session.
Proof. rewrite <- of_dict_empty. apply (session_of_images [] ∅ ∅). Qed.

(** A save that could write leaves a file in step with what was saved,
    and a disk that can still be written. *)
Lemma save_then_synced (l : list string) (n g : gmap string string) (sh : bool)
    (fs : disk) :
  write_error fs = None ->
  synced {| saved_metrics := l; saved_metrics_names := n;
            saved_metrics_groups := g; show_add_metric := sh |}
         (save_metrics_to_file l n (Some g) fs).1
  /\ write_error (save_metrics_to_file l n (Some g) fs).1 = None.
Proof.
  intros Hw. split.
  - unfold synced. rewrite (load_after_save _ _ _ _ Hw). cbn [fst default].
    apply session_of_images.
  - unfold save_metrics_to_file. rewrite Hw. reflexivity.
Qed.

(** The file the appending branch leaves is the one [save_metrics_to_file]
    writes for the new session. *)
Lemma add_metric_disk (net : network) (api_key : string) (metric_upper : string)
    (group : option string) (ss : session) (fs : disk) :
  (Metrics.add_metric net api_key metric_upper group ss fs).1.2
  = (save_metrics_to_file
       (saved_metrics (Metrics.add_metric net api_key metric_upper group ss fs).1.1)
       (saved_metrics_names (Metrics.add_metric net api_key metric_upper group ss fs).1.1)
       (Some (saved_metrics_groups
                (Metrics.add_metric net api_key metric_upper group ss fs).1.1))
       fs).1
  /\ (Metrics.add_metric net api_key metric_upper group ss fs).2
     = (FredAPI.get_series_info net (FredAPI.init api_key) metric_upper).2
       ++ (save_metrics_to_file
             (saved_metrics (Metrics.add_metric net api_key metric_upper group ss fs).1.1)
             (saved_metrics_names
                (Metrics.add_metric net api_key metric_upper group ss fs).1.1)
             (Some (saved_metrics_groups
                      (Metrics.add_metric net api_key metric_upper group ss fs).1.1))
             fs).2
       ++ [Success ("Added " +:+ metric_upper +:+ "!")].
Proof.
  unfold Metrics.add_metric.
  destruct (FredAPI.get_series_info _ _ _) as [info m1].
  destruct (save_metrics_to_file _ _ _ _) as [fs' m2] eqn:E.
  cbn [fst snd saved_metrics saved_metrics_names saved_metrics_groups].
  rewrite E. split; reflexivity.
Qed.

(** For an input that is not blank and names a new identifier, the "Save"
    button returns what the appending branch returns, the form closed. *)
Lemma save_metric_fresh_eq (net : network) (api_key : string) (input : string)
    (group : option string) (ss : session) (fs : disk) :
  strip input <> EmptyString ->
  upper (strip input) ∉ saved_metrics ss ->
  saved_metrics (Metrics.save_metric net api_key input group ss fs).1.1
  = saved_metrics (Metrics.add_metric net api_key (upper (strip input)) group ss fs).1.1
  /\ saved_metrics_names (Metrics.save_metric net api_key input group ss fs).1.1
     = saved_metrics_names
         (Metrics.add_metric net api_key (upper (strip input)) group ss fs).1.1
  /\ saved_metrics_groups (Metrics.save_metric net api_key input group ss fs).1.1
     = saved_metrics_groups
         (Metrics.add_metric net api_key (upper (strip input)) group ss fs).1.1
  /\ (Metrics.save_metric net api_key input group ss fs).1.2
     = (Metrics.add_metric net api_key (upper (strip input)) group ss fs).1.2
  /\ (Metrics.save_metric net api_key input group ss fs).2
     = (Metrics.add_metric net api_key (upper (strip input)) group ss fs).2.
Proof.
  intros Hne Hnotin. unfold Metrics.save_metric.
  destruct (strip input) as [| c r] eqn:E; [congruence |].
  cbn [truthy]. rewrite bool_decide_eq_false_2 by exact Hnotin. cbn [negb].
  destruct (Metrics.add_metric net api_key (upper (String c r)) group ss fs)
    as [[ss' fs'] msgs].
  repeat split; reflexivity.
Qed.

(** X1. When [saved_metrics.json] is missing, cannot be read or parsed,
    or holds a JSON value that is not an object, the program starts from
    the empty store; an error is reported in all these cases but the
    first. *)
Theorem load_unusable_file_is_empty_store (fs : disk) :
  (forall data, saved_metrics_json fs <> Some (Document (JDict data))) ->
  session_of_loaded (load_metrics_from_file fs).1 = Some empty_session
  /\ ((load_metrics_from_file fs).2 = [] <-> saved_metrics_json fs = None)
  /\ (saved_metrics_json fs <> None ->
      exists text, (load_metrics_from_file fs).2 = [Error text]).
Proof.
  intros Hnot. unfold load_metrics_from_file.
  destruct (saved_metrics_json fs) as [[text | j] |].
  - cbn [fst snd]. split; [apply session_of_nothing |].
    split; [split; discriminate |]. intros _. eexists; reflexivity.
  - destruct j; try (cbn [fst snd]; split; [apply session_of_nothing |];
      split; [split; discriminate |]; intros _; eexists; reflexivity).
    exfalso. apply (Hnot d). reflexivity.
  - cbn [fst snd]. split; [apply session_of_nothing |].
    split; [split; reflexivity |]. congruence.
Qed.

(** X2. On a disk that takes writes, the "Save" button keeps the file in
    step with the session: if loading the file gave the session before,
    it gives the new session after, whether the button appended, warned
    of a duplicate or refused a blank input; and the disk still takes
    writes. *)
Theorem add_keeps_file_synced (net : network) (api_key : string)
    (input : string) (group : option string) (ss : session) (fs : disk) :
  write_error fs = None ->
  synced ss fs ->
  synced (Metrics.save_metric net api_key input group ss fs).1.1
         (Metrics.save_metric net api_key input group ss fs).1.2
  /\ write_error (Metrics.save_metric net api_key input group ss fs).1.2 = None.
Proof.
  intros Hw Hsync.
  destruct (decide (strip input = EmptyString)) as [Hblank | Hne].
  { rewrite (save_metric_blank net api_key input group ss fs Hblank).
    split; assumption. }
  destruct (decide (upper (strip input) ∈ saved_metrics ss)) as [Hin | Hnotin].
  { rewrite (save_metric_duplicate net api_key input group ss fs Hne Hin).
    split; assumption. }
  destruct (save_metric_fresh_eq net api_key input group ss fs Hne Hnotin)
    as (Hm & Hn & Hg & Hfs & _).
  destruct (add_metric_disk net api_key (upper (strip input)) group ss fs)
    as [Hdisk _].
  unfold synced. rewrite Hm, Hn, Hg, Hfs, Hdisk.
  generalize (Metrics.add_metric net api_key (upper (strip input)) group ss fs).1.1.
  intros [l n g sh]. apply (save_then_synced l n g sh fs Hw).
Qed.

(** X3. On a disk that takes writes, a click on a delete button keeps the
    file in step with the session as well. *)
Theorem remove_keeps_file_synced (edit_mode : bool) (choice : string) (i : nat)
    (ss : session) (fs : disk) (after : session * disk * list message) :
  write_error fs = None ->
  synced ss fs ->
  Metrics.delete_clicked edit_mode choice i ss fs = Ok after ->
  synced after.1.1 after.1.2 /\ write_error after.1.2 = None.
Proof.
  intros Hw Hsync Hclick.
  destruct (delete_clicked_cases edit_mode choice i ss fs)
    as [Hsame | (metric & Hin & Hbody)].
  { rewrite Hsame in Hclick. injection Hclick as <-. split; assumption. }
  destruct (remove_metric_present metric ss fs Hin) as (l1 & l2 & _ & _ & Hrm).
  rewrite Hbody, Hrm in Hclick. injection Hclick as <-. cbn [fst snd].
  apply (save_then_synced (l1 ++ l2) (delete metric (saved_metrics_names ss))
           (delete metric (saved_metrics_groups ss)) (show_add_metric ss) fs Hw).
Qed.

(** X4. When the file cannot be written, an add that appends still
    changes the session in memory and leaves the file as it was; the user
    is shown the error of the save and, after it, the success message. *)
Theorem add_with_failed_write (net : network) (api_key : string)
    (input : string) (group : option string) (ss : session) (fs : disk)
    (e : string) :
  write_error fs = Some e ->
  strip input <> EmptyString ->
  upper (strip input) ∉ saved_metrics ss ->
  (Metrics.save_metric net api_key input group ss fs).1.2 = fs
  /\ saved_metrics (Metrics.save_metric net api_key input group ss fs).1.1
     = saved_metrics ss ++ [upper (strip input)]
  /\ (Metrics.save_metric net api_key input group ss fs).2
     = (FredAPI.get_series_info net (FredAPI.init api_key) (upper (strip input))).2
       ++ [Error ("Could not save metrics: " +:+ e);
           Success ("Added " +:+ upper (strip input) +:+ "!")].
Proof.
  intros Hw Hne Hnotin.
  destruct (save_metric_fresh_eq net api_key input group ss fs Hne Hnotin)
    as (Hm & _ & _ & Hfs & Hmsgs).
  destruct (add_metric_disk net api_key (upper (strip input)) group ss fs)
    as [Hdisk Hout].
  rewrite Hfs, Hmsgs, Hm, Hdisk, Hout, add_metric_metrics.
  unfold save_metrics_to_file. rewrite Hw. cbn [fst snd].
  repeat split; reflexivity.
Qed.

End SyncFacts.

(** ** The side maps and the sequence *)

Section ConsistencyFacts.
Import PyStr.

Lemma save_metric_consistent (net : network) (api_key : string) (input : string)
    (group : option string) (ss : session) (fs : disk) :
  consistent ss ->
  consistent (Metrics.save_metric net api_key input group ss fs).1.1.
Proof.
  intros (Hnames & Hnonempty & Hgroups).
  destruct (decide (strip input = EmptyString)) as [Hblank | Hne].
  { rewrite (save_metric_blank net api_key input group ss fs Hblank).
    split; [exact Hnames |]. split; [exact Hnonempty | exact Hgroups]. }
  destruct (decide (upper (strip input) ∈ saved_metrics ss)) as [Hin | Hnotin].
  { rewrite (save_metric_duplicate net api_key input group ss fs Hne Hin).
    split; [exact Hnames |]. split; [exact Hnonempty | exact Hgroups]. }
  destruct (save_metric_fresh net api_key input group ss fs Hne Hnotin)
    as (Hm & Hg & Hn).
  destruct (add_metric_names net api_key (upper (strip input)) group ss fs)
    as (name & Hname & Htitle).
  unfold consistent. rewrite Hm, Hg, Hn, Hname.
  assert (name <> EmptyString) as Hname_ne.
  { destruct Htitle as [-> | [_ H]]; [| exact H].
    intros H. apply upper_empty in H. contradiction. }
  split; [| split].
  - intros id. rewrite elem_of_app, list_elem_of_singleton, Hnames.
    destruct (decide (id = upper (strip input))) as [-> | Hother].
    + rewrite lookup_insert_eq. split; [eauto | right; reflexivity].
    + rewrite lookup_insert_ne by congruence. tauto.
  - intros id n Hlook.
    apply lookup_insert_Some in Hlook as [[_ <-] | [_ Hold]]; [exact Hname_ne |].
    apply (Hnonempty id n Hold).
  - intros id [label Hlook].
    apply assign_group_entries in Hlook as [Hold | (-> & _)].
    + apply elem_of_app. left. apply Hgroups. eauto.
    + apply elem_of_app. right. apply list_elem_of_singleton. reflexivity.
Qed.

Lemma delete_clicked_consistent (edit_mode : bool) (choice : string) (i : nat)
    (ss : session) (fs : disk) (after : session * disk * list message) :
  NoDup (saved_metrics ss) ->
  consistent ss ->
  Metrics.delete_clicked edit_mode choice i ss fs = Ok after ->
  consistent after.1.1.
Proof.
  intros Hnd (Hnames & Hnonempty & Hgroups) Hclick.
  destruct (delete_clicked_cases edit_mode choice i ss fs)
    as [Hsame | (metric & Hin & Hbody)].
  { rewrite Hsame in Hclick. injection Hclick as <-.
    split; [exact Hnames |]. split; [exact Hnonempty | exact Hgroups]. }
  destruct (remove_metric_present metric ss fs Hin) as (l1 & l2 & Hsplit & _ & Hrm).
  rewrite Hbody, Hrm in Hclick. injection Hclick as <-.
  unfold consistent.
  cbn [fst snd saved_metrics saved_metrics_names saved_metrics_groups].
  rewrite Hsplit in Hnd.
  destruct (NoDup_remove_middle l1 l2 metric Hnd) as [_ Hgone].
  assert (forall id, id <> metric -> (id ∈ l1 ++ l2 <-> id ∈ saved_metrics ss))
    as Hrest.
  { intros id Hother. rewrite Hsplit, !elem_of_app, elem_of_cons.
    intuition congruence. }
  split; [| split].
  - intros id. destruct (decide (id = metric)) as [-> | Hother].
    + rewrite lookup_delete_eq. split; [contradiction |].
      intros [x Hx]. discriminate.
    + rewrite lookup_delete_ne by congruence. rewrite (Hrest id Hother).
      apply Hnames.
  - intros id n Hlook. apply lookup_delete_Some in Hlook as [_ Hold].
    apply (Hnonempty id n Hold).
  - intros id [label Hlook]. apply lookup_delete_Some in Hlook as [Hother Hold].
    apply (Hrest id); [congruence |]. apply Hgroups. eauto.
Qed.

Lemma reachable_is_consistent (ss : session) : reachable ss -> consistent ss.
Proof.
  induction 1 as [| b ss Hr IH | net api_key form ss fs Hr IH
                  | edit_mode choice i ss fs after Hr IH Hclick].
  - split; [| split].
    + intros id. simpl. rewrite lookup_empty. split.
      * intros H. apply elem_of_nil in H. contradiction.
      * intros [x Hx]. discriminate.
    + intros id n H. simpl in H. rewrite lookup_empty in H. discriminate.
    + intros id [x Hx]. simpl in Hx. rewrite lookup_empty in Hx. discriminate.
  - exact IH.
  - unfold Metrics.save_clicked. apply save_metric_consistent, IH.
  - apply reachable_well_formed in Hr as (Hnd & _).
    apply (delete_clicked_consistent edit_mode choice i ss fs after Hnd IH Hclick).
Qed.

(** X5. In every session reached from the empty store the two side maps
    fit the sequence: an identifier has a name exactly when it is in the
    sequence, that name is not empty, and only identifiers of the sequence
    have a group. So the name shown for a saved metric is always the
    stored one, and removing a metric leaves no orphan entry. *)
Theorem reachable_consistent (ss : session) :
  reachable ss ->
  consistent ss
  /\ (forall id, id ∈ saved_metrics ss ->
        saved_metrics_names ss !! id = Some (display_name ss id)).
Proof.
  intros Hreach. apply reachable_is_consistent in Hreach as Hcons.
  split; [exact Hcons |].
  intros id Hin. destruct Hcons as (Hnames & _ & _).
  apply Hnames in Hin as [n Hn]. unfold display_name. rewrite Hn. reflexivity.
Qed.

(** X21. In every session reached from the empty store the identifiers
    of the sequence are pairwise distinct. *)
Theorem reachable_distinct (ss : session) :
  reachable ss -> NoDup (saved_metrics ss).
Proof. intros Hreach. apply reachable_well_formed in Hreach as (Hnd & _). exact Hnd. Qed.

Lemma list_remove_last (x : string) (l : list string) :
  x ∉ l -> list_remove x (l ++ [x]) = Ok l.
Proof.
  induction l as [| y l IH]; intros Hnotin; simpl.
  - destruct (decide (x = x)); [reflexivity | congruence].
  - apply not_elem_of_cons in Hnotin as [Hne Hnotin].
    destruct (decide (y = x)); [congruence |]. rewrite (IH Hnotin). reflexivity.
Qed.

(** X22. Adding a new metric and then removing it gives back the store
    as it was: the same sequence, the same names and the same groups,
    whatever name was fetched and whatever group was given. *)
Theorem add_then_remove (net : network) (api_key : string) (input : string)
    (group : option string) (ss : session) (fs fs' : disk) :
  reachable ss ->
  strip input <> EmptyString ->
  upper (strip input) ∉ saved_metrics ss ->
  exists after,
    Metrics.remove_metric (upper (strip input))
      (Metrics.save_metric net api_key input group ss fs).1.1 fs' = Ok after
    /\ saved_metrics after.1.1 = saved_metrics ss
    /\ saved_metrics_names after.1.1 = saved_metrics_names ss
    /\ saved_metrics_groups after.1.1 = saved_metrics_groups ss.
Proof.
  intros Hreach Hne Hfresh.
  apply reachable_is_consistent in Hreach as (Hnames & _ & Hgroups).
  assert (saved_metrics_names ss !! upper (strip input) = None) as Hnoname.
  { destruct (saved_metrics_names ss !! upper (strip input)) eqn:E; [| reflexivity].
    exfalso. apply Hfresh, Hnames. eauto. }
  assert (saved_metrics_groups ss !! upper (strip input) = None) as Hnogroup.
  { destruct (saved_metrics_groups ss !! upper (strip input)) eqn:E; [| reflexivity].
    exfalso. apply Hfresh, Hgroups. eauto. }
  destruct (save_metric_fresh net api_key input group ss fs Hne Hfresh)
    as (Hm & Hg & Hn).
  destruct (add_metric_names net api_key (upper (strip input)) group ss fs)
    as (name & Hname & _).
  unfold Metrics.remove_metric.
  rewrite Hm, Hg, Hn, Hname, (list_remove_last _ _ Hfresh). cbn [bind].
  rewrite !delete_if_present.
  destruct (save_metrics_to_file _ _ _ _) as [fs'' msgs].
  eexists. split; [reflexivity |]. cbn [fst snd saved_metrics saved_metrics_names
                                         saved_metrics_groups].
  split; [reflexivity |]. split.
  - apply delete_insert_id, Hnoname.
  - unfold Metrics.assign_group.
    destruct group as [g |]; [| apply delete_id, Hnogroup].
    destruct (truthy g && truthy (strip g));
      [apply delete_insert_id, Hnogroup | apply delete_id, Hnogroup].
Qed.

End ConsistencyFacts.

Lemma reachable_consistent_witness :
  consistent
    (Metrics.save_clicked unrate_only "key"
       {| new_metric := " unrate "; group_input_type := CreateNew;
          selected_existing_group := "None"; new_group_name := " Labor " |}
       empty_session writable).1.1
  /\ (forall id,
        id ∈ saved_metrics
               (Metrics.save_clicked unrate_only "key"
                  {| new_metric := " unrate "; group_input_type := CreateNew;
                     selected_existing_group := "None";
                     new_group_name := " Labor " |}
                  empty_session writable).1.1 ->
        saved_metrics_names
          (Metrics.save_clicked unrate_only "key"
             {| new_metric := " unrate "; group_input_type := CreateNew;
                selected_existing_group := "None"; new_group_name := " Labor " |}
             empty_session writable).1.1 !! id
        = Some (display_name
                  (Metrics.save_clicked unrate_only "key"
                     {| new_metric := " unrate "; group_input_type := CreateNew;
                        selected_existing_group := "None";
                        new_group_name := " Labor " |}
                     empty_session writable).1.1 id)).
Proof.
  apply (reachable_consistent
           (Metrics.save_clicked unrate_only "key"
              {| new_metric := " unrate "; group_input_type := CreateNew;
                 selected_existing_group := "None"; new_group_name := " Labor " |}
              empty_session writable).1.1).
  apply reachable_save, reachable_empty.
Defined.

Lemma load_unusable_file_is_empty_store_witness :
  session_of_loaded (load_metrics_from_file garbled).1 = Some empty_session
  /\ ((load_metrics_from_file garbled).2 = [] <-> saved_metrics_json garbled = None)
  /\ (saved_metrics_json garbled <> None ->
      exists text, (load_metrics_from_file garbled).2 = [Error text]).
Proof.
  apply (load_unusable_file_is_empty_store garbled).
  intros data. simpl. discriminate.
Defined.

Lemma add_keeps_file_synced_witness :
  synced (Metrics.save_metric unrate_only "key" "unrate" (Some "Labor")
            empty_session writable).1.1
         (Metrics.save_metric unrate_only "key" "unrate" (Some "Labor")
            empty_session writable).1.2
  /\ write_error (Metrics.save_metric unrate_only "key" "unrate" (Some "Labor")
                    empty_session writable).1.2 = None.
Proof.
  apply (add_keeps_file_synced unrate_only "key" "unrate" (Some "Labor")
           empty_session writable).
  - reflexivity.
  - vm_compute. reflexivity.
Defined.

Lemma remove_keeps_file_synced_witness :
  synced unrate_deleted.1.1 unrate_deleted.1.2
  /\ write_error unrate_deleted.1.2 = None.
Proof.
  apply (remove_keeps_file_synced true "All" 0 stocked stocked_disk unrate_deleted).
  - reflexivity.
  - vm_compute. reflexivity.
  - vm_compute. reflexivity.
Defined.

Lemma add_with_failed_write_witness :
  (Metrics.save_metric offline "key" "gdp" None empty_session read_only).1.2
  = read_only
  /\ saved_metrics
       (Metrics.save_metric offline "key" "gdp" None empty_session read_only).1.1
     = saved_metrics empty_session ++ [PyStr.upper (PyStr.strip "gdp")]
  /\ (Metrics.save_metric offline "key" "gdp" None empty_session read_only).2
     = (FredAPI.get_series_info offline (FredAPI.init "key")
          (PyStr.upper (PyStr.strip "gdp"))).2
       ++ [Error ("Could not save metrics: " +:+ "Permission denied");
           Success ("Added " +:+ PyStr.upper (PyStr.strip "gdp") +:+ "!")].
Proof.
  apply (add_with_failed_write offline "key" "gdp" None empty_session read_only
           "Permission denied").
  - reflexivity.
  - vm_compute. discriminate.
  - vm_compute. apply not_elem_of_nil.
Defined.

(** ** Groups and the group filter *)

Section GroupFacts.
Import PyStr.

Lemma lstrip_id (s : string) :
  (forall c, first_char s = Some c -> isspace c = false) -> lstrip s = s.
Proof.
  destruct s as [| c s]; [reflexivity |]. simpl. intros H.
  rewrite (H c eq_refl). reflexivity.
Qed.

Lemma rstrip_id (s : string) :
  (forall c, last_char s = Some c -> isspace c = false) -> rstrip s = s.
Proof.
  induction s as [| c s IH]; [reflexivity |]. intros H.
  destruct s as [| c' s'].
  - simpl. rewrite (H c eq_refl). reflexivity.
  - change (rstrip (String c (String c' s')))
      with (match rstrip (String c' s') with
            | EmptyString => if isspace c then EmptyString else String c EmptyString
            | r => String c r
            end).
    rewrite IH; [reflexivity |]. intros x Hx. apply H. exact Hx.
Qed.

(** [strip] leaves alone a string without white space at its ends. *)
Lemma strip_id (s : string) : stripped s -> strip s = s.
Proof.
  intros [Hfirst Hlast]. unfold strip.
  rewrite (lstrip_id s Hfirst). apply rstrip_id, Hlast.
Qed.

Lemma elem_of_existing_groups (ss : session) (g : string) :
  g ∈ existing_groups ss <-> exists id, saved_metrics_groups ss !! id = Some g.
Proof.
  unfold existing_groups.
  rewrite merge_sort_Permutation, elem_of_elements, elem_of_map_img. reflexivity.
Qed.

Lemma existing_groups_nil (ss : session) :
  existing_groups ss = [] <-> saved_metrics_groups ss = ∅.
Proof.
  split.
  - intros Hnil. apply map_eq. intros id. rewrite lookup_empty.
    destruct (saved_metrics_groups ss !! id) as [g |] eqn:E; [| reflexivity].
    assert (g ∈ existing_groups ss) as Hin
      by (apply elem_of_existing_groups; eauto).
    rewrite Hnil in Hin. apply elem_of_nil in Hin. contradiction.
  - intros Hempty. destruct (existing_groups ss) as [| g rest] eqn:E; [reflexivity |].
    assert (g ∈ existing_groups ss) as Hin by (rewrite E; left).
    apply elem_of_existing_groups in Hin as [id Hid].
    rewrite Hempty, lookup_empty in Hid. discriminate.
Qed.

Lemma selected_filter_choice (choice : string) (ss : session) :
  saved_metrics_groups ss <> ∅ -> Metrics.selected_filter choice ss = choice.
Proof.
  intros Hne. unfold Metrics.selected_filter.
  destruct (existing_groups ss) eqn:E; [| reflexivity].
  apply existing_groups_nil in E. contradiction.
Qed.

(** X6. The groups offered by the add form and by the filter are exactly
    the labels in use, each once, in ascending order. *)
Theorem existing_groups_sorted_labels (ss : session) :
  StronglySorted String.le (existing_groups ss)
  /\ NoDup (existing_groups ss)
  /\ (forall g, g ∈ existing_groups ss
                <-> exists id, saved_metrics_groups ss !! id = Some g)
  /\ (all_groups ss = ["All"] <-> saved_metrics_groups ss = ∅).
Proof.
  split; [| split; [| split]].
  - unfold existing_groups. apply StronglySorted_merge_sort; apply _.
  - unfold existing_groups. rewrite merge_sort_Permutation. apply NoDup_elements.
  - intros g. apply elem_of_existing_groups.
  - unfold all_groups. rewrite <- existing_groups_nil. split.
    + intros [= H]. exact H.
    + intros ->. reflexivity.
Qed.

(** X7. The metrics shown under a filter are saved metrics in their saved
    order. All of them are shown when the choice is "All" or when no group
    exists; otherwise exactly those whose group is the choice. A group
    that is itself called "All" therefore cannot be singled out. *)
Theorem filtered_metrics_shown (choice : string) (ss : session) :
  sublist (Metrics.filtered_metrics choice ss) (saved_metrics ss)
  /\ (choice = "All" \/ saved_metrics_groups ss = ∅ ->
      Metrics.filtered_metrics choice ss = saved_metrics ss)
  /\ (choice <> "All" -> saved_metrics_groups ss <> ∅ ->
      forall metric,
        metric ∈ Metrics.filtered_metrics choice ss
        <-> metric ∈ saved_metrics ss
            /\ saved_metrics_groups ss !! metric = Some choice).
Proof.
  split; [| split].
  - unfold Metrics.filtered_metrics.
    destruct (String.eqb _ _); [reflexivity | apply sublist_filter].
  - intros Hall. unfold Metrics.filtered_metrics, Metrics.selected_filter.
    destruct Hall as [-> | Hempty].
    + destruct (existing_groups ss); reflexivity.
    + apply existing_groups_nil in Hempty. rewrite Hempty. reflexivity.
  - intros Hchoice Hgroups metric. unfold Metrics.filtered_metrics.
    rewrite (selected_filter_choice choice ss Hgroups).
    destruct (String.eqb choice "All") eqn:E.
    + apply String.eqb_eq in E. contradiction.
    + rewrite list_elem_of_filter. tauto.
Qed.

(** X8. In a session reached from the empty store, picking an existing
    group (other than the entry "None") for a new metric files the metric
    under exactly that group, and the metric is then shown when the list
    is filtered by it. *)
Theorem pick_existing_group (net : network) (api_key : string) (form : add_form)
    (ss : session) (fs : disk) (g : string) :
  reachable ss ->
  g ∈ existing_groups ss ->
  g <> "None" ->
  group_input_type form = SelectExisting ->
  selected_existing_group form = g ->
  strip (new_metric form) <> EmptyString ->
  upper (strip (new_metric form)) ∉ saved_metrics ss ->
  saved_metrics_groups (Metrics.save_clicked net api_key form ss fs).1.1
    !! upper (strip (new_metric form)) = Some g
  /\ upper (strip (new_metric form))
       ∈ Metrics.filtered_metrics g (Metrics.save_clicked net api_key form ss fs).1.1.
Proof.
  intros Hreach Hg Hnone Htype Hsel Hne Hfresh.
  apply reachable_well_formed in Hreach as (_ & _ & Hlabels).
  pose proof Hg as Hg'. apply elem_of_existing_groups in Hg' as [id Hid].
  destruct (Hlabels id g Hid) as [Hnotblank Hstripped].
  assert (metric_group ss form = Some g) as Hgroup.
  { unfold metric_group. rewrite Htype, Hsel.
    destruct (existing_groups ss) as [| g0 rest];
      [apply elem_of_nil in Hg; contradiction |].
    destruct (String.eqb g "None") eqn:E; [| reflexivity].
    apply String.eqb_eq in E. contradiction. }
  unfold Metrics.save_clicked. rewrite Hgroup.
  destruct (save_metric_fresh net api_key (new_metric form) (Some g) ss fs Hne Hfresh)
    as (Hm & Hgroups & _).
  assert (saved_metrics_groups
            (Metrics.save_metric net api_key (new_metric form) (Some g) ss fs).1.1
            !! upper (strip (new_metric form)) = Some g) as Hstored.
  { rewrite Hgroups. unfold Metrics.assign_group.
    rewrite (strip_id g Hstripped).
    assert (truthy g = true) as ->.
    { destruct g; [simpl in Hnotblank; discriminate | reflexivity]. }
    cbn [andb]. apply lookup_insert_eq. }
  split; [exact Hstored |].
  assert (upper (strip (new_metric form))
            ∈ saved_metrics
                (Metrics.save_metric net api_key (new_metric form) (Some g) ss fs).1.1)
    as Hin.
  { rewrite Hm. apply elem_of_app. right. apply list_elem_of_singleton. reflexivity. }
  assert (saved_metrics_groups
            (Metrics.save_metric net api_key (new_metric form) (Some g) ss fs).1.1
          <> ∅) as Hnonempty.
  { intros H. rewrite H, lookup_empty in Hstored. discriminate. }
  unfold Metrics.filtered_metrics.
  rewrite (selected_filter_choice g _ Hnonempty).
  destruct (String.eqb g "All"); [exact Hin |].
  apply list_elem_of_filter. split; [exact Hstored | exact Hin].
Qed.

End GroupFacts.

Lemma pick_existing_group_witness :
  saved_metrics_groups
    (Metrics.save_clicked offline "key" pick_labor_form grouped writable).1.1
    !! PyStr.upper (PyStr.strip (new_metric pick_labor_form)) = Some "Labor"
  /\ PyStr.upper (PyStr.strip (new_metric pick_labor_form))
       ∈ Metrics.filtered_metrics "Labor"
           (Metrics.save_clicked offline "key" pick_labor_form grouped writable).1.1.
Proof.
  apply (pick_existing_group offline "key" pick_labor_form grouped writable "Labor").
  - apply reachable_save, reachable_empty.
  - vm_compute. constructor.
  - discriminate.
  - reflexivity.
  - reflexivity.
  - vm_compute. discriminate.
  - vm_compute. intros H. inversion H as [| ? ? ? H']. inversion H'.
Defined.

(** ** The series client, further *)

Section ClientMore.

Variable pandas : pd.t.
Variable net : network.

(** X9. [get_series_info] always returns a dict and a list of messages.
    A transport failure, an HTTP error status or a body that cannot be
    decoded give the empty dict and one error message; a body without
    ['seriess'], or with an empty list, gives the empty dict and no
    message; otherwise the first element of the list is returned. *)
Theorem get_series_info_never_raises (self : FredAPI.t) (series_id : string) :
  (forall e,
      get_series net (FredAPI.base_url self +:+ "/series")
        {[ "series_id" := series_id; "api_key" := FredAPI.api_key self;
           "file_type" := "json" ]} = Raise e ->
      FredAPI.get_series_info net self series_id
      = (∅, [Error (match e with
                     | RequestException t => "Error fetching series info: " +:+ t
                     | Exception t => "Error processing series info: " +:+ t
                     end)]))
  /\ (forall response,
        get_series net (FredAPI.base_url self +:+ "/series")
          {[ "series_id" := series_id; "api_key" := FredAPI.api_key self;
             "file_type" := "json" ]} = Ok response ->
        (400 <= status_code response < 600 ->
         FredAPI.get_series_info net self series_id
         = (∅, [Error ("Error fetching series info: " +:+ http_error response)]))
        /\ (~ 400 <= status_code response < 600 ->
            (forall e, json_body response = Raise e ->
               FredAPI.get_series_info net self series_id
               = (∅, [Error (match e with
                              | RequestException t =>
                                  "Error fetching series info: " +:+ t
                              | Exception t =>
                                  "Error processing series info: " +:+ t
                              end)]))
            /\ (forall data, json_body response = Ok data ->
                  FredAPI.get_series_info net self series_id
                  = (match seriess data with
                     | Some (info :: _) => info
                     | _ => ∅
                     end, []))))
  /\ ((FredAPI.get_series_info net self series_id).2 = []
      \/ (FredAPI.get_series_info net self series_id).1 = ∅
         /\ exists text,
              (FredAPI.get_series_info net self series_id).2 = [Error text]).
Proof.
  unfold FredAPI.get_series_info, FredAPI.get_series_info_try, raise_for_status.
  split; [| split].
  - intros e ->. cbn [bind]. destruct e; reflexivity.
  - intros response ->. cbn [bind]. split.
    + intros Hstatus.
      assert ((400 <=? status_code response) && (status_code response <? 600) = true)
        as -> by (apply andb_true_iff; split; [apply Z.leb_le | apply Z.ltb_lt]; lia).
      reflexivity.
    + intros Hstatus.
      assert ((400 <=? status_code response) && (status_code response <? 600) = false)
        as ->.
      { apply andb_false_iff.
        destruct (Z.leb_spec 400 (status_code response)); [| left; reflexivity].
        right. apply Z.ltb_ge. lia. }
      cbn [bind]. split.
      * intros e ->. cbn [bind]. destruct e; reflexivity.
      * intros data ->. cbn [bind].
        destruct (seriess data) as [[| info rest] |]; reflexivity.
  - destruct (get_series net _ _) as [response | [t | t]]; cbn [bind];
      try (right; split; [reflexivity | eexists; reflexivity]).
    destruct ((400 <=? status_code response) && (status_code response <? 600));
      cbn [bind]; [right; split; [reflexivity | eexists; reflexivity] |].
    destruct (json_body response) as [data | [t | t]]; cbn [bind];
      try (right; split; [reflexivity | eexists; reflexivity]).
    left. destruct (seriess data) as [[| info rest] |]; reflexivity.
Qed.

Lemma set_if_given_lookup (key : string) (v : option string)
    (params : gmap string string) (k : string) :
  FredAPI.set_if_given key v params !! k
  = match v with
    | Some s =>
        if decide (k = key) then
          (if PyStr.truthy s then Some s else params !! k)
        else params !! k
    | None => params !! k
    end.
Proof.
  unfold FredAPI.set_if_given. destruct v as [s |]; [| reflexivity].
  destruct (PyStr.truthy s); destruct (decide (k = key)) as [-> | Hne];
    try reflexivity.
  - apply lookup_insert_eq.
  - apply lookup_insert_ne. congruence.
Qed.

(** X10. The query of [get_series_data] always carries the series
    identifier, the API key and the JSON format; it carries a start (an
    end) exactly when one is given and is not the empty string, and a
    bound never replaces one of the three other fields. So an empty
    bound asks the same as no bound. *)
Theorem observations_params_fields (self : FredAPI.t) (series_id : string)
    (start_date end_date : option string) :
  FredAPI.observations_params self series_id start_date end_date !! "series_id"
  = Some series_id
  /\ FredAPI.observations_params self series_id start_date end_date !! "api_key"
     = Some (FredAPI.api_key self)
  /\ FredAPI.observations_params self series_id start_date end_date !! "file_type"
     = Some "json"
  /\ FredAPI.observations_params self series_id start_date end_date
       !! "observation_start"
     = match start_date with
       | Some (String c s) => Some (String c s)
       | _ => None
       end
  /\ FredAPI.observations_params self series_id start_date end_date
       !! "observation_end"
     = match end_date with
       | Some (String c s) => Some (String c s)
       | _ => None
       end
  /\ FredAPI.get_series_data pandas net self series_id
       (Some EmptyString) (Some EmptyString)
     = FredAPI.get_series_data pandas net self series_id None None.
Proof.
  unfold FredAPI.observations_params.
  repeat split; rewrite ?set_if_given_lookup;
    try (destruct start_date as [[| c s] |]; destruct end_date as [[| c' s'] |];
         reflexivity).
Qed.

Lemma dropna_id (df : DataFrame pandas) :
  (forall r, r ∈ df -> pd.isna pandas (value r) = false) -> dropna pandas df = df.
Proof.
  induction df as [| r df IH]; intros H; [reflexivity |].
  unfold dropna. rewrite filter_cons_True by (apply H; left).
  f_equal. apply IH. intros r' Hr'. apply H. right. exact Hr'.
Qed.

Lemma get_series_data_clean (self : FredAPI.t) (series_id : string)
    (start_date end_date : option string) :
  StronglySorted by_date
    (FredAPI.get_series_data pandas net self series_id start_date end_date).1
  /\ (forall r,
        r ∈ (FredAPI.get_series_data pandas net self series_id start_date
               end_date).1 ->
        pd.isna pandas (value r) = false).
Proof.
  rewrite get_series_data_frame.
  destruct (FredAPI.get_series_data_try pandas net self series_id start_date
              end_date) as [df | e] eqn:Htry.
  - apply get_series_data_try_rows, frame_of_observations_Ok in Htry
      as (Hsorted & Hrows).
    split; [exact Hsorted |]. intros r Hr. apply (Hrows r Hr).
  - split; [constructor |]. intros r Hr. apply elem_of_nil in Hr. contradiction.
Qed.

(** X11. What [get_series_data] returns is already clean. Dropping the
    missing values again gives the same frame. Sorting it by date again,
    as the summary does, gives the same rows with the same dates at the
    same positions: only rows of equal date can change places, the sort
    of pandas not being stable. *)
Theorem get_series_data_already_clean (self : FredAPI.t) (series_id : string)
    (start_date end_date : option string) :
  dropna pandas
    (FredAPI.get_series_data pandas net self series_id start_date end_date).1
  = (FredAPI.get_series_data pandas net self series_id start_date end_date).1
  /\ Permutation
       (pd.sort_values pandas
          (FredAPI.get_series_data pandas net self series_id start_date
             end_date).1)
       (FredAPI.get_series_data pandas net self series_id start_date end_date).1
  /\ map date
       (pd.sort_values pandas
          (FredAPI.get_series_data pandas net self series_id start_date
             end_date).1)
     = map date
         (FredAPI.get_series_data pandas net self series_id start_date
            end_date).1.
Proof.
  destruct (get_series_data_clean self series_id start_date end_date)
    as [Hsorted Hnum].
  split; [apply dropna_id, Hnum |].
  split; [apply pd.sort_values_perm |].
  apply sorted_dates_unique.
  - apply sorted_dates, pd.sort_values_sorted.
  - apply sorted_dates, Hsorted.
  - apply Permutation_map, pd.sort_values_perm.
Qed.

End ClientMore.

Section StrictDates.

Variable pandas : pd.t.
Variable net : network.

Lemma sorted_nodup_strict (l : list Timestamp) :
  StronglySorted Timestamp_le l -> NoDup l -> StronglySorted Timestamp_lt l.
Proof.
  induction 1 as [| a l Hs IH Hall]; intros Hnd; [constructor |].
  apply NoDup_cons in Hnd as [Hnotin Hnd]. constructor; [apply IH, Hnd |].
  apply Forall_forall. intros x Hx. split.
  - rewrite Forall_forall in Hall. apply Hall, Hx.
  - intros ->. contradiction.
Qed.

Lemma zipped_dates {N} (dates : list Timestamp) (values : list N) :
  length dates = length values ->
  map date (map (fun dv => {| date := fst dv; value := snd dv |})
              (combine dates values)) = dates.
Proof.
  revert values. induction dates as [| d dates IH]; intros [| v values] Hlen;
    try discriminate; [reflexivity |].
  cbn [combine map fst date]. f_equal. apply IH. injection Hlen as Hlen. exact Hlen.
Qed.

Lemma converted_dates (rows : list raw_observation) (dates : list Timestamp) :
  Forall2 (fun raw d => pd.to_datetime pandas (raw_date raw) = Ok d) rows dates ->
  map date (FredAPI.converted pandas dates rows) = dates.
Proof.
  intros Hparsed. unfold FredAPI.converted.
  apply zipped_dates, parsed_length, Hparsed.
Qed.

Lemma parsed_dates_nodup (rows : list raw_observation) (dates : list Timestamp) :
  distinct_dates (pd.to_datetime pandas) rows ->
  Forall2 (fun raw d => pd.to_datetime pandas (raw_date raw) = Ok d) rows dates ->
  NoDup dates.
Proof.
  intros Hdistinct Hparsed. apply NoDup_alt. intros i j d Hi Hj.
  destruct (Forall2_lookup_r _ _ _ _ _ Hparsed Hi) as (ri & Hri & Hdi).
  destruct (Forall2_lookup_r _ _ _ _ _ Hparsed Hj) as (rj & Hrj & Hdj).
  apply (Hdistinct i j ri rj d Hri Hrj Hdi Hdj).
Qed.

Lemma dropna_dates_nodup (df : DataFrame pandas) :
  NoDup (map date df) -> NoDup (map date (dropna pandas df)).
Proof.
  induction df as [| r df IH]; [intros _; constructor |].
  simpl. intros [Hnotin Hnd]%NoDup_cons. unfold dropna in *.
  destruct (decide (pd.isna pandas (value r) = false)) as [Hnum | Hnan].
  - rewrite filter_cons_True by exact Hnum. simpl. apply NoDup_cons.
    split; [| apply IH, Hnd].
    intros Hin. apply Hnotin.
    apply list_elem_of_In, in_map_iff in Hin as (r' & Hdate & Hr').
    apply list_elem_of_In, in_map_iff. exists r'. split; [exact Hdate |].
    apply list_elem_of_In. apply list_elem_of_In in Hr'.
    apply list_elem_of_filter in Hr' as [_ Hr']. exact Hr'.
  - rewrite filter_cons_False by exact Hnan. apply IH, Hnd.
Qed.

(** X12. When no two rows of the source carry the same date, the dates
    of the frame [get_series_data] returns are strictly increasing. *)
Theorem distinct_dates_strictly_increasing (self : FredAPI.t)
    (series_id : string) (start_date end_date : option string) :
  distinct_dates (pd.to_datetime pandas)
    (source_observations net self series_id start_date end_date) ->
  StronglySorted Timestamp_lt
    (map date
       (FredAPI.get_series_data pandas net self series_id start_date end_date).1).
Proof.
  intros Hdistinct. rewrite get_series_data_frame.
  destruct (FredAPI.get_series_data_try pandas net self series_id start_date
              end_date) as [df | e] eqn:Htry; [| constructor].
  apply get_series_data_try_rows in Htry.
  pose proof (frame_of_observations_Ok pandas _ _ Htry) as (Hsorted & _).
  apply sorted_nodup_strict; [apply sorted_dates, Hsorted |].
  apply frame_of_observations_dates in Htry as (dates & Hparsed & ->).
  rewrite (Permutation_map date (pd.sort_values_perm pandas _)).
  apply dropna_dates_nodup. rewrite (converted_dates _ dates Hparsed).
  apply (parsed_dates_nodup _ dates Hdistinct Hparsed).
Qed.

End StrictDates.

Lemma distinct_dates_strictly_increasing_witness :
  StronglySorted Timestamp_lt
    (map date (FredAPI.get_series_data float64 unrate_only fred "UNRATE" None None).1).
Proof.
  apply (distinct_dates_strictly_increasing float64 unrate_only fred "UNRATE"
           None None).
  intros i j ri rj d Hi Hj Hdi Hdj.
  destruct i as [| [| [| i]]]; destruct j as [| [| [| j]]];
    vm_compute in Hi, Hj; try discriminate; try reflexivity;
    injection Hi as <-; injection Hj as <-;
    vm_compute in Hdi, Hdj; congruence.
Defined.

(** ** The summary table, further *)

Section SummaryMore.

Variable pandas : pd.t.

Lemma iloc_last_sorted_max (df : DataFrame pandas)
    (latest : observation (pd.number pandas)) :
  StronglySorted by_date df -> iloc_last df 1 = Ok latest ->
  latest ∈ df /\ forall r, r ∈ df -> Timestamp_le (date r) (date latest).
Proof.
  intros Hsorted Hlast. apply iloc_last_1 in Hlast as [pre ->]. split.
  - apply elem_of_app. right. left.
  - intros r [Hpre | Hr]%elem_of_app.
    + apply (StronglySorted_app_1_elem_of by_date pre [latest] r latest Hsorted Hpre).
      left.
    + apply list_elem_of_singleton in Hr. subst r. apply Timestamp_le_refl.
Qed.

(** The latest row of a frame of two rows or more, as the summary finds
    it: a row of the frame that no row is later than. *)
Lemma summary_latest (metric_df : DataFrame pandas)
    (latest : observation (pd.number pandas)) :
  iloc_last (pd.sort_values pandas metric_df) 1 = Ok latest ->
  latest ∈ metric_df
  /\ forall r, r ∈ metric_df -> Timestamp_le (date r) (date latest).
Proof.
  intros Hlatest.
  destruct (iloc_last_sorted_max (pd.sort_values pandas metric_df) latest
              (pd.sort_values_sorted pandas metric_df) Hlatest) as [Hin Hmax].
  split.
  - rewrite <- (pd.sort_values_perm pandas metric_df). exact Hin.
  - intros r Hr. apply Hmax. rewrite (pd.sort_values_perm pandas metric_df).
    exact Hr.
Qed.

Lemma filter_sorted (P : observation (pd.number pandas) -> Prop)
    `{!forall r, Decision (P r)} (df : DataFrame pandas) :
  StronglySorted by_date df -> StronglySorted by_date (filter P df).
Proof.
  induction 1 as [| r df Hs IH Hall]; [constructor |].
  rewrite filter_cons. destruct (decide (P r)); [| exact IH].
  constructor; [exact IH |].
  apply Forall_forall. intros x [_ Hx]%list_elem_of_filter.
  rewrite Forall_forall in Hall. apply Hall, Hx.
Qed.

(** The name of a row is the stored name, or the identifier. *)
Lemma summary_of_frame_name (ss : session) (use_percentage : bool)
    (current_year : Z) (metric : string) (metric_df : DataFrame pandas)
    (metric_info : gmap string string) :
  Metric_Name
    (Summary.summary_of_frame pandas ss use_percentage current_year metric
       metric_df metric_info) = display_name ss metric.
Proof.
  unfold Summary.summary_of_frame.
  destruct (Summary.summary_entry_try pandas ss use_percentage current_year metric
              metric_df metric_info) as [entry | e] eqn:Htry; [| reflexivity].
  destruct (le_lt_dec 2 (length metric_df)) as [Hlen | Hlen].
  - destruct (summary_of_frame_two pandas ss use_percentage current_year metric
                metric_df metric_info Hlen)
      as (latest & previous & ytd & _ & _ & _ & Htwo).
    rewrite Htwo in Htry.
    destruct (pd.strftime pandas (date latest)); cbn [bind] in Htry;
      [| discriminate].
    injection Htry as <-. reflexivity.
  - rewrite (summary_of_frame_short pandas ss use_percentage current_year metric
               metric_df metric_info Hlen) in Htry.
    destruct metric_df as [| r rest]; [injection Htry as <-; reflexivity |].
    destruct (pd.strftime pandas (date r)); cbn [bind] in Htry; [| discriminate].
    injection Htry as <-. reflexivity.
Qed.

(** X13. Every positional access of the summary is within bounds: the
    [try] of the loop raises only from the formatting of a date. When the
    dates of all the rows of the frame can be formatted, the [try] returns
    an entry, which is the row shown; when the [try] raises, the
    exception is that of [strftime] on the date of a row that no row of
    the frame is later than, as a missing date is. In both cases the row
    shown carries the display name of the metric. *)
Theorem summary_entry_try_returns (ss : session) (use_percentage : bool)
    (current_year : Z) (metric : string) (metric_df : DataFrame pandas)
    (metric_info : gmap string string) :
  ((forall r, r ∈ metric_df -> exists text, pd.strftime pandas (date r) = Ok text) ->
   exists entry,
     Summary.summary_entry_try pandas ss use_percentage current_year metric
       metric_df metric_info = Ok entry
     /\ Summary.summary_of_frame pandas ss use_percentage current_year metric
          metric_df metric_info = entry)
  /\ (forall e,
        Summary.summary_entry_try pandas ss use_percentage current_year metric
          metric_df metric_info = Raise e ->
        exists r,
          r ∈ metric_df
          /\ (forall r', r' ∈ metric_df -> Timestamp_le (date r') (date r))
          /\ pd.strftime pandas (date r) = Raise e)
  /\ Metric_Name
       (Summary.summary_of_frame pandas ss use_percentage current_year metric
          metric_df metric_info) = display_name ss metric.
Proof.
  split; [| split; [| apply summary_of_frame_name]].
  - intros Hdates. unfold Summary.summary_of_frame.
    destruct (le_lt_dec 2 (length metric_df)) as [Hlen | Hlen].
    + destruct (summary_of_frame_two pandas ss use_percentage current_year metric
                  metric_df metric_info Hlen)
        as (latest & previous & ytd & Hlatest & _ & _ & ->).
      apply summary_latest in Hlatest as [Hin _].
      destruct (Hdates latest Hin) as [text ->]. cbn [bind].
      eexists. split; reflexivity.
    + rewrite (summary_of_frame_short pandas ss use_percentage current_year metric
                 metric_df metric_info Hlen).
      destruct metric_df as [| r rest]; [eexists; split; reflexivity |].
      destruct (Hdates r) as [text ->]; [left |]. cbn [bind].
      eexists. split; reflexivity.
  - intros e Htry.
    destruct (le_lt_dec 2 (length metric_df)) as [Hlen | Hlen].
    + destruct (summary_of_frame_two pandas ss use_percentage current_year metric
                  metric_df metric_info Hlen)
        as (latest & previous & ytd & Hlatest & _ & _ & Htwo).
      rewrite Htwo in Htry. apply summary_latest in Hlatest as [Hin Hmax].
      exists latest. split; [exact Hin |]. split; [exact Hmax |].
      destruct (pd.strftime pandas (date latest)); cbn [bind] in Htry;
        [discriminate | congruence].
    + rewrite (summary_of_frame_short pandas ss use_percentage current_year metric
                 metric_df metric_info Hlen) in Htry.
      destruct metric_df as [| r [| r' rest]];
        [discriminate | | simpl in Hlen; lia].
      exists r. split; [left |]. split.
      * intros r' Hr'. apply list_elem_of_singleton in Hr'. subst r'.
        apply Timestamp_le_refl.
      * destruct (pd.strftime pandas (date r)); cbn [bind] in Htry;
          [discriminate | congruence].
Qed.

(** X14. With two observations or more, the row shown is that of an
    observation of the frame that no other observation is later than,
    whatever the order of the frame, a missing date counting as the
    latest: when its date can be formatted, the current value and the
    latest date shown are its value and its date; when it cannot, the row
    is the "Error" row. *)
Theorem summary_shows_latest (ss : session) (use_percentage : bool)
    (current_year : Z) (metric : string) (metric_df : DataFrame pandas)
    (metric_info : gmap string string) :
  (2 <= length metric_df)%nat ->
  exists latest,
    latest ∈ metric_df
    /\ (forall r, r ∈ metric_df -> Timestamp_le (date r) (date latest))
    /\ (forall text,
          pd.strftime pandas (date latest) = Ok text ->
          Current_Value
            (Summary.summary_of_frame pandas ss use_percentage current_year metric
               metric_df metric_info) = pd.format_2f pandas (value latest)
          /\ Latest_Date
               (Summary.summary_of_frame pandas ss use_percentage current_year
                  metric metric_df metric_info) = text)
    /\ (forall e,
          pd.strftime pandas (date latest) = Raise e ->
          Summary.summary_of_frame pandas ss use_percentage current_year metric
            metric_df metric_info
          = {| Metric_Name := display_name ss metric;
               Current_Value := "Error"; Latest_Date := "Error";
               Units := "Error"; Frequency := "Error";
               Sequential_Change := "Error"; YTD_Change := "Error" |}).
Proof.
  intros Hlen.
  destruct (summary_of_frame_two pandas ss use_percentage current_year metric
              metric_df metric_info Hlen)
    as (latest & previous & ytd & Hlatest & _ & _ & Htry).
  apply summary_latest in Hlatest as [Hin Hmax].
  exists latest. split; [exact Hin |]. split; [exact Hmax |].
  unfold Summary.summary_of_frame. rewrite Htry. split.
  - intros text ->. split; reflexivity.
  - intros e ->. reflexivity.
Qed.

(** X15. With two observations or more and a row that is computed (the
    [try] returned), the year-to-date change is "N/A" when no observation
    is dated on or after January 1 of the current year. Otherwise it is
    computed from the earliest observation on or after that day and the
    latest observation: their difference, or in percentage mode the ratio
    to the earlier value when that value is not zero; it is then never
    "N/A". *)
Theorem ytd_change_cell (ss : session) (use_percentage : bool)
    (current_year : Z) (metric : string) (metric_df : DataFrame pandas)
    (metric_info : gmap string string) (entry : summary_entry) :
  (2 <= length metric_df)%nat ->
  Summary.summary_entry_try pandas ss use_percentage current_year metric
    metric_df metric_info = Ok entry ->
  ((forall r, r ∈ metric_df ->
      Timestamp_geb (date r) (Day current_year 1 1) = false) ->
   YTD_Change entry = "N/A")
  /\ (forall r0, r0 ∈ metric_df ->
        Timestamp_geb (date r0) (Day current_year 1 1) = true ->
        exists first latest,
          first ∈ metric_df /\ latest ∈ metric_df
          /\ Timestamp_geb (date first) (Day current_year 1 1) = true
          /\ (forall r, r ∈ metric_df ->
                Timestamp_geb (date r) (Day current_year 1 1) = true ->
                Timestamp_le (date first) (date r))
          /\ (forall r, r ∈ metric_df -> Timestamp_le (date r) (date latest))
          /\ YTD_Change entry
             = (if use_percentage && pd.ne_zero pandas (value first)
                then pd.format_2f pandas
                       (pd.times_100 pandas
                          (pd.div pandas
                             (pd.sub pandas (value latest) (value first))
                             (value first)))
                     +:+ "%"
                else pd.format_2f pandas
                       (pd.sub pandas (value latest) (value first)))
          /\ YTD_Change entry <> "N/A").
Proof.
  intros Hlen Hentry.
  destruct (summary_of_frame_two pandas ss use_percentage current_year metric
              metric_df metric_info Hlen)
    as (latest & previous & ytd & Hlatest & _ & Hytd & Htry).
  rewrite Htry in Hentry.
  destruct (pd.strftime pandas (date latest)) as [text | e]; cbn [bind] in Hentry;
    [| discriminate].
  injection Hentry as <-. cbn [YTD_Change].
  unfold Summary.ytd_format in Hytd.
  pose proof (filter_sorted
                (fun r => Timestamp_geb (date r) (Day current_year 1 1) = true)
                (pd.sort_values pandas metric_df)
                (pd.sort_values_sorted pandas metric_df)) as Hfs.
  destruct (filter _ (pd.sort_values pandas metric_df)) as [| first rest] eqn:Efilter.
  - cbn [empty negb] in Hytd. injection Hytd as <-. split; [reflexivity |].
    intros r0 Hr0 Hgeb. exfalso.
    assert (r0 ∈ filter
              (fun r => Timestamp_geb (date r) (Day current_year 1 1) = true)
              (pd.sort_values pandas metric_df)) as Hin.
    { apply list_elem_of_filter. split; [exact Hgeb |].
      rewrite (pd.sort_values_perm pandas metric_df). exact Hr0. }
    rewrite Efilter in Hin. apply elem_of_nil in Hin. exact Hin.
  - assert (first ∈ filter
              (fun r => Timestamp_geb (date r) (Day current_year 1 1) = true)
              (pd.sort_values pandas metric_df)) as Hfirst
      by (rewrite Efilter; left).
    apply list_elem_of_filter in Hfirst as [Hfirst_geb Hfirst_in].
    rewrite (pd.sort_values_perm pandas metric_df) in Hfirst_in.
    split.
    { intros Hnone. rewrite (Hnone first Hfirst_in) in Hfirst_geb. discriminate. }
    intros _ _ _.
    apply summary_latest in Hlatest as [Hin Hmax].
    exists first, latest.
    split; [exact Hfirst_in |]. split; [exact Hin |].
    split; [exact Hfirst_geb |]. split.
    { intros r Hr Hgeb.
      assert (r ∈ first :: rest) as Hmem.
      { rewrite <- Efilter. apply list_elem_of_filter. split; [exact Hgeb |].
        rewrite (pd.sort_values_perm pandas metric_df). exact Hr. }
      apply elem_of_cons in Hmem as [-> | Hrest]; [apply Timestamp_le_refl |].
      apply StronglySorted_inv in Hfs as [_ Hall].
      rewrite Forall_forall in Hall. apply (Hall r Hrest). }
    split; [exact Hmax |].
    cbn [empty negb iloc_first bind] in Hytd.
    destruct (use_percentage && pd.ne_zero pandas (value first));
      injection Hytd as <-;
      (split; [reflexivity |]);
      [apply percent_not_marker | apply pd.format_2f_text].
Qed.

(** X16. With fewer than two observations: without any observation the
    current value, the latest date and both changes are shown as "N/A";
    with a single observation whose date can be formatted both changes
    are "N/A" and the current value and the latest date are those of the
    observation; with a single observation whose date cannot be formatted
    the row is the "Error" row. *)
Theorem summary_short_history (ss : session) (use_percentage : bool)
    (current_year : Z) (metric : string) (metric_df : DataFrame pandas)
    (metric_info : gmap string string) :
  (length metric_df < 2)%nat ->
  (metric_df = [] ->
   Summary.summary_of_frame pandas ss use_percentage current_year metric
     metric_df metric_info
   = {| Metric_Name := display_name ss metric;
        Current_Value := "N/A"; Latest_Date := "N/A";
        Units := Summary.info_or_na metric_info "units";
        Frequency := Summary.info_or_na metric_info "frequency";
        Sequential_Change := "N/A"; YTD_Change := "N/A" |})
  /\ (forall r, metric_df = [r] ->
        (forall text,
           pd.strftime pandas (date r) = Ok text ->
           Summary.summary_of_frame pandas ss use_percentage current_year metric
             metric_df metric_info
           = {| Metric_Name := display_name ss metric;
                Current_Value := pd.format_2f pandas (value r);
                Latest_Date := text;
                Units := Summary.info_or_na metric_info "units";
                Frequency := Summary.info_or_na metric_info "frequency";
                Sequential_Change := "N/A"; YTD_Change := "N/A" |})
        /\ (forall e,
              pd.strftime pandas (date r) = Raise e ->
              Summary.summary_of_frame pandas ss use_percentage current_year
                metric metric_df metric_info
              = {| Metric_Name := display_name ss metric;
                   Current_Value := "Error"; Latest_Date := "Error";
                   Units := "Error"; Frequency := "Error";
                   Sequential_Change := "Error"; YTD_Change := "Error" |})).
Proof.
  intros Hlen. unfold Summary.summary_of_frame.
  rewrite (summary_of_frame_short pandas ss use_percentage current_year metric
             metric_df metric_info Hlen).
  split.
  - intros ->. reflexivity.
  - intros r ->. split.
    + intros text ->. reflexivity.
    + intros e ->. reflexivity.
Qed.

End SummaryMore.

Section SummaryLoop.

Variable pandas : pd.t.
Variable net : network.

Lemma summary_loop (fred_api : FredAPI.t) (ss : session)
    (use_percentage : bool) (current_year : Z)
    (acc : list summary_entry * list message) (l : list string) :
  (foldl (fun acc metric =>
            let '(metric_df, m1) :=
              FredAPI.get_series_data pandas net fred_api metric None None in
            let '(metric_info, m2) := FredAPI.get_series_info net fred_api metric in
            (fst acc ++ [Summary.summary_of_frame pandas ss use_percentage
                           current_year metric metric_df metric_info],
             snd acc ++ m1 ++ m2))
         acc l).1
  = acc.1 ++ map (fun metric =>
                    Summary.summary_of_frame pandas ss use_percentage current_year
                      metric
                      (FredAPI.get_series_data pandas net fred_api metric None
                         None).1
                      (FredAPI.get_series_info net fred_api metric).1) l.
Proof.
  revert acc. induction l as [| metric l IH]; intros acc.
  - simpl. rewrite app_nil_r. reflexivity.
  - cbn [foldl map]. rewrite IH.
    destruct (FredAPI.get_series_data pandas net fred_api metric None None)
      as [metric_df m1].
    destruct (FredAPI.get_series_info net fred_api metric) as [metric_info m2].
    cbn [fst snd]. rewrite <- app_assoc. reflexivity.
Qed.

(** X17. The summary table has one row per saved metric, in the order of
    the sequence (a metric saved twice gets two rows): the row of a metric
    is the summary of the frame and the metadata fetched for it, without
    date bounds, and it is named by the stored name of the metric, or by
    the identifier when there is none. *)
Theorem summary_data_rows (fred_api : FredAPI.t) (ss : session)
    (use_percentage : bool) (current_year : Z) :
  (Summary.summary_data pandas net fred_api ss use_percentage current_year).1
  = map (fun metric =>
           Summary.summary_of_frame pandas ss use_percentage current_year metric
             (FredAPI.get_series_data pandas net fred_api metric None None).1
             (FredAPI.get_series_info net fred_api metric).1)
        (saved_metrics ss)
  /\ map Metric_Name
       (Summary.summary_data pandas net fred_api ss use_percentage current_year).1
     = map (display_name ss) (saved_metrics ss)
  /\ length (Summary.summary_data pandas net fred_api ss use_percentage
               current_year).1
     = length (saved_metrics ss).
Proof.
  pose proof (summary_loop fred_api ss use_percentage current_year ([], [])
                (saved_metrics ss)) as Hrows.
  cbn [fst app] in Hrows.
  fold (Summary.summary_data pandas net fred_api ss use_percentage current_year)
    in Hrows.
  split; [exact Hrows |]. split.
  - rewrite Hrows, map_map. apply map_ext. intros metric.
    apply summary_of_frame_name.
  - rewrite Hrows. apply length_map.
Qed.

End SummaryLoop.

(** ** The bulk import *)

Section BulkFacts.

Variable net : network.
Variable api_key : string.

(** What one turn of the outer loop adds. *)
Lemma add_tickers_spec (group_name : string) (tickers : list string)
    (c : Bulk.collected) :
  Bulk.metrics (foldl (Bulk.add_ticker net api_key group_name) c tickers)
  = Bulk.metrics c ++ tickers
  /\ (forall t,
        Bulk.names (foldl (Bulk.add_ticker net api_key group_name) c tickers) !! t
        = if decide (t ∈ tickers)
          then Some (Bulk.get_series_info net api_key t).1
          else Bulk.names c !! t)
  /\ (forall t,
        Bulk.groups (foldl (Bulk.add_ticker net api_key group_name) c tickers) !! t
        = if decide (t ∈ tickers) then Some group_name else Bulk.groups c !! t).
Proof.
  revert c. induction tickers as [| ticker tickers IH]; intros c.
  - simpl. rewrite app_nil_r. split; [reflexivity |].
    split; intros t; destruct (decide (t ∈ [])) as [H | _]; try reflexivity;
      apply elem_of_nil in H; contradiction.
  - cbn [foldl]. destruct (IH (Bulk.add_ticker net api_key group_name c ticker))
      as (Hm & Hn & Hg).
    rewrite Hm.
    assert (Bulk.metrics (Bulk.add_ticker net api_key group_name c ticker)
            = Bulk.metrics c ++ [ticker]
            /\ Bulk.names (Bulk.add_ticker net api_key group_name c ticker)
               = <[ticker := (Bulk.get_series_info net api_key ticker).1]>
                   (Bulk.names c)
            /\ Bulk.groups (Bulk.add_ticker net api_key group_name c ticker)
               = <[ticker := group_name]> (Bulk.groups c)) as (H1 & H2 & H3).
    { unfold Bulk.add_ticker.
      destruct (Bulk.get_series_info net api_key ticker) as [name line].
      repeat split; reflexivity. }
    split; [rewrite H1, <- app_assoc; reflexivity |].
    split; intros t; [rewrite Hn, H2 | rewrite Hg, H3];
      (destruct (decide (t ∈ tickers)) as [Hin | Hnotin];
       [rewrite decide_True by (right; exact Hin); reflexivity |];
       destruct (decide (t = ticker)) as [-> | Hne];
       [rewrite decide_True by left; apply lookup_insert_eq |];
       rewrite decide_False by (intros [H | H]%elem_of_cons; contradiction);
       apply lookup_insert_ne; congruence).
Qed.

Lemma add_group_spec (c : Bulk.collected) (group_name : string)
    (tickers : list string) :
  Bulk.metrics (Bulk.add_group net api_key c (group_name, tickers))
  = Bulk.metrics c ++ tickers
  /\ (forall t,
        Bulk.names (Bulk.add_group net api_key c (group_name, tickers)) !! t
        = if decide (t ∈ tickers)
          then Some (Bulk.get_series_info net api_key t).1
          else Bulk.names c !! t)
  /\ (forall t,
        Bulk.groups (Bulk.add_group net api_key c (group_name, tickers)) !! t
        = if decide (t ∈ tickers) then Some group_name else Bulk.groups c !! t).
Proof.
  unfold Bulk.add_group.
  apply (add_tickers_spec group_name tickers
           {| Bulk.metrics := Bulk.metrics c; Bulk.names := Bulk.names c;
              Bulk.groups := Bulk.groups c;
              Bulk.printed :=
                Bulk.printed c
                ++ [String "010" ("Processing group: " +:+ group_name)] |}).
Qed.

Lemma collect_snoc (catalog : list (string * list string))
    (entry : string * list string) :
  Bulk.collect net api_key (catalog ++ [entry])
  = Bulk.add_group net api_key (Bulk.collect net api_key catalog) entry.
Proof. unfold Bulk.collect. apply foldl_snoc. Qed.

(** What the two loops collect. *)
Lemma collect_spec (catalog : list (string * list string)) :
  Bulk.metrics (Bulk.collect net api_key catalog) = concat (map snd catalog)
  /\ (forall t,
        Bulk.names (Bulk.collect net api_key catalog) !! t
        = if decide (t ∈ concat (map snd catalog))
          then Some (Bulk.get_series_info net api_key t).1
          else None)
  /\ (forall t, t ∉ concat (map snd catalog) ->
        Bulk.groups (Bulk.collect net api_key catalog) !! t = None)
  /\ (forall c1 g ts c2 t,
        catalog = c1 ++ (g, ts) :: c2 -> t ∈ ts ->
        (forall entry, entry ∈ c2 -> t ∉ entry.2) ->
        Bulk.groups (Bulk.collect net api_key catalog) !! t = Some g).
Proof.
  induction catalog as [| [g' ts'] catalog IH] using rev_ind.
  - split; [reflexivity |]. split; [| split].
    + intros t. destruct (decide (t ∈ concat (map snd []))) as [H | _];
        [apply elem_of_nil in H; contradiction | apply lookup_empty].
    + intros t _. apply lookup_empty.
    + intros c1 g ts c2 t H. destruct c1; discriminate.
  - destruct IH as (Hm & Hn & Hnone & Hlast).
    rewrite collect_snoc.
    destruct (add_group_spec (Bulk.collect net api_key catalog) g' ts')
      as (Hm' & Hn' & Hg').
    assert (concat (map snd (catalog ++ [(g', ts')]))
            = concat (map snd catalog) ++ ts') as Hconcat.
    { rewrite map_app, concat_app. simpl. rewrite app_nil_r. reflexivity. }
    rewrite Hconcat.
    split; [rewrite Hm', Hm; reflexivity |]. split; [| split].
    + intros t. rewrite Hn', Hn.
      destruct (decide (t ∈ ts')) as [Hin | Hnotin].
      * rewrite decide_True by (apply elem_of_app; right; exact Hin). reflexivity.
      * destruct (decide (t ∈ concat (map snd catalog))) as [Hin' | Hnotin'].
        -- rewrite decide_True by (apply elem_of_app; left; exact Hin').
           reflexivity.
        -- rewrite decide_False by (intros [H | H]%elem_of_app; contradiction).
           reflexivity.
    + intros t Hnotin. rewrite Hg'.
      destruct (decide (t ∈ ts')) as [Hin | _].
      * exfalso. apply Hnotin, elem_of_app. right. exact Hin.
      * apply Hnone. intros H. apply Hnotin, elem_of_app. left. exact H.
    + intros c1 g ts c2 t Hsplit Hin Hlater. rewrite Hg'.
      destruct c2 as [| last c2'] using rev_ind.
      * apply app_inj_tail in Hsplit as [_ [= -> ->]].
        destruct (decide (t ∈ ts)); [reflexivity | contradiction].
      * clear IHc2'. rewrite app_comm_cons, app_assoc in Hsplit.
        apply app_inj_tail in Hsplit as [-> <-].
        assert (t ∉ ts') as Hnot.
        { apply (Hlater (g', ts')). apply elem_of_app. right. left. }
        destruct (decide (t ∈ ts')); [contradiction |].
        apply (Hlast c1 g ts c2' t eq_refl Hin).
        intros entry Hentry. apply Hlater. apply elem_of_app. left. exact Hentry.
Qed.

(** X18. For any catalog, the bulk import collects the tickers of all
    categories in the order of the catalog, a ticker listed twice being
    kept twice; it gives a name to exactly these tickers, the one
    [get_series_info] returns; and it files each ticker under the last
    category that lists it, tickers not listed having no group. *)
Theorem bulk_collects_catalog (catalog : list (string * list string)) :
  Bulk.metrics (Bulk.collect net api_key catalog) = concat (map snd catalog)
  /\ (forall t, t ∈ concat (map snd catalog) ->
        Bulk.names (Bulk.collect net api_key catalog) !! t
        = Some (Bulk.get_series_info net api_key t).1)
  /\ (forall t, t ∉ concat (map snd catalog) ->
        Bulk.names (Bulk.collect net api_key catalog) !! t = None
        /\ Bulk.groups (Bulk.collect net api_key catalog) !! t = None)
  /\ (forall c1 g ts c2 t,
        catalog = c1 ++ (g, ts) :: c2 -> t ∈ ts ->
        (forall entry, entry ∈ c2 -> t ∉ entry.2) ->
        Bulk.groups (Bulk.collect net api_key catalog) !! t = Some g).
Proof.
  destruct (collect_spec catalog) as (Hm & Hn & Hnone & Hlast).
  split; [exact Hm |]. split; [| split; [| exact Hlast]].
  - intros t Hin. rewrite Hn. destruct (decide _); [reflexivity | contradiction].
  - intros t Hnotin. split; [| apply Hnone, Hnotin].
    rewrite Hn. destruct (decide _); [contradiction | reflexivity].
Qed.

(** The script and the application ask the same thing of the API, and
    the script keeps the title of what the application gets. *)
Lemma bulk_title (metric : string) :
  (Bulk.get_series_info net api_key metric).1
  = default metric
      ((FredAPI.get_series_info net (FredAPI.init api_key) metric).1 !! "title").
Proof.
  unfold FredAPI.get_series_info, FredAPI.get_series_info_try,
    Bulk.get_series_info, Bulk.get_series_info_try.
  change (FredAPI.base_url (FredAPI.init api_key) +:+ "/series")
    with "https://api.stlouisfed.org/fred/series".
  change (FredAPI.api_key (FredAPI.init api_key)) with api_key.
  destruct (get_series net _ _) as [response | [t | t]]; cbn [bind]; try reflexivity.
  destruct (raise_for_status response) as [[] | [t | t]]; cbn [bind];
    try reflexivity.
  destruct (json_body response) as [data | [t | t]]; cbn [bind]; try reflexivity.
  destruct (seriess data) as [[| info rest] |]; reflexivity.
Qed.

(** X19. The name the bulk import stores for a ticker and the name the
    add of the application stores for the same identifier come from the
    same request and agree, except when the API returns an empty title:
    the bulk import then stores the empty name, the application the
    identifier. *)
Theorem bulk_name_agrees_with_add (metric : string) (group : option string)
    (ss : session) (fs : disk) :
  saved_metrics_names (Metrics.add_metric net api_key metric group ss fs).1.1
    !! metric
  = Some (match (Bulk.get_series_info net api_key metric).1 with
          | EmptyString => metric
          | name => name
          end).
Proof.
  rewrite bulk_title. unfold Metrics.add_metric.
  destruct (FredAPI.get_series_info net (FredAPI.init api_key) metric)
    as [info m1].
  destruct (save_metrics_to_file _ _ _ _) as [fs' m2].
  cbn [fst snd saved_metrics_names].
  destruct (info !! "title") as [[| c title] |]; cbn [default PyStr.truthy];
    rewrite lookup_insert_eq; try reflexivity.
  destruct metric; reflexivity.
Qed.

(** The file the script writes is the one the application would save for
    what was collected. *)
Lemma bulk_data_saved (c : Bulk.collected) (fs : disk) :
  write_error fs = None ->
  {| saved_metrics_json := Some (Document (JDict (Bulk.data c)));
     write_error := None |}
  = (save_metrics_to_file (Bulk.metrics c) (Bulk.names c) (Some (Bulk.groups c))
       fs).1.
Proof.
  intros Hw. unfold save_metrics_to_file, Bulk.data. rewrite Hw, groups_or_empty.
  reflexivity.
Qed.

End BulkFacts.

Section BulkRun.

Variable net : network.

(** X20. Run with an API key on a disk that takes writes, the bulk import
    finishes and leaves a file that the application loads without error
    as the store collected: the same sequence, names and groups. It
    writes the very file the application's save would write for that
    store. Without a key it exits with code 1, and when the file cannot
    be opened it ends on the uncaught exception. *)
Theorem bulk_file_loads_in_app (catalog : list (string * list string))
    (key : string) (fs : disk) :
  key <> EmptyString ->
  (write_error fs = None ->
   exists out,
     Bulk.run net catalog (Some key) fs
     = Bulk.Finished
         (save_metrics_to_file (Bulk.metrics (Bulk.collect net key catalog))
            (Bulk.names (Bulk.collect net key catalog))
            (Some (Bulk.groups (Bulk.collect net key catalog))) fs).1 out
     /\ load_metrics_from_file
          (save_metrics_to_file (Bulk.metrics (Bulk.collect net key catalog))
             (Bulk.names (Bulk.collect net key catalog))
             (Some (Bulk.groups (Bulk.collect net key catalog))) fs).1
        = ((of_list (Bulk.metrics (Bulk.collect net key catalog)),
            of_dict (Bulk.names (Bulk.collect net key catalog)),
            of_dict (Bulk.groups (Bulk.collect net key catalog))), [])
     /\ session_of_loaded
          (load_metrics_from_file
             (save_metrics_to_file (Bulk.metrics (Bulk.collect net key catalog))
                (Bulk.names (Bulk.collect net key catalog))
                (Some (Bulk.groups (Bulk.collect net key catalog))) fs).1).1
        = Some {| saved_metrics := Bulk.metrics (Bulk.collect net key catalog);
                  saved_metrics_names := Bulk.names (Bulk.collect net key catalog);
                  saved_metrics_groups := Bulk.groups (Bulk.collect net key catalog);
                  show_add_metric := false |})
  /\ (forall e, write_error fs = Some e ->
        exists out, Bulk.run net catalog (Some key) fs = Bulk.Crashed (Exception e) out)
  /\ Bulk.run net catalog None fs
     = Bulk.Exited 1 ["Please set your FRED_API_KEY in the .env file"]
  /\ Bulk.run net catalog (Some EmptyString) fs
     = Bulk.Exited 1 ["Please set your FRED_API_KEY in the .env file"].
Proof.
  intros Hkey. destruct key as [| a key]; [congruence |].
  split; [| split; [| split; reflexivity]].
  - intros Hw. unfold Bulk.run. rewrite Hw.
    rewrite (bulk_data_saved _ fs Hw).
    eexists. split; [reflexivity |].
    rewrite (load_after_save _ _ _ _ Hw). cbn [fst default].
    split; [reflexivity | apply session_of_images].
  - intros e He. unfold Bulk.run. rewrite He. eexists; reflexivity.
Qed.

End BulkRun.

Lemma bulk_file_loads_in_app_witness :
  exists out,
    Bulk.run offline Bulk.default_tickers (Some "key") writable
    = Bulk.Finished
        (save_metrics_to_file
           (Bulk.metrics (Bulk.collect offline "key" Bulk.default_tickers))
           (Bulk.names (Bulk.collect offline "key" Bulk.default_tickers))
           (Some (Bulk.groups (Bulk.collect offline "key" Bulk.default_tickers)))
           writable).1 out.
Proof.
  destruct (bulk_file_loads_in_app offline Bulk.default_tickers "key" writable)
    as [Hrun _]; [discriminate |].
  destruct (Hrun eq_refl) as (out & Hout & _).
  exists out. exact Hout.
Defined.

(** The catalog of the script lists IPG322S under two categories: the
    store it writes holds the ticker twice, filed under the later one. *)
Example bulk_duplicate_ticker :
  count_occ string_dec
    (Bulk.metrics (Bulk.collect offline "key" Bulk.default_tickers)) "IPG322S" = 2%nat
  /\ Bulk.groups (Bulk.collect offline "key" Bulk.default_tickers) !! "IPG322S"
     = Some "Industrial Production"
  /\ length (Bulk.metrics (Bulk.collect offline "key" Bulk.default_tickers)) = 26%nat.
Proof. vm_compute. repeat split. Qed.

Lemma summary_shows_latest_witness :
  exists latest,
    latest ∈ from_zero
    /\ (forall r, r ∈ from_zero -> Timestamp_le (date r) (date latest))
    /\ (forall text,
          pd.strftime float64 (date latest) = Ok text ->
          Current_Value
            (Summary.summary_of_frame float64 empty_session true 2024 "GDP"
               from_zero ∅) = pd.format_2f float64 (value latest)
          /\ Latest_Date
               (Summary.summary_of_frame float64 empty_session true 2024 "GDP"
                  from_zero ∅) = text)
    /\ (forall e,
          pd.strftime float64 (date latest) = Raise e ->
          Summary.summary_of_frame float64 empty_session true 2024 "GDP"
            from_zero ∅
          = {| Metric_Name := display_name empty_session "GDP";
               Current_Value := "Error"; Latest_Date := "Error";
               Units := "Error"; Frequency := "Error";
               Sequential_Change := "Error"; YTD_Change := "Error" |}).
Proof.
  apply (summary_shows_latest float64 empty_session true 2024 "GDP" from_zero ∅).
  simpl. lia.
Defined.

Lemma ytd_change_cell_witness :
  ((forall r, r ∈ from_zero ->
      Timestamp_geb (date r) (Day 2024 1 1) = false) ->
   YTD_Change
     {| Metric_Name := "GDP"; Current_Value := "5.00"; Latest_Date := "2024-02-01";
        Units := "N/A"; Frequency := "N/A"; Sequential_Change := "5.00";
        YTD_Change := "5.00" |} = "N/A")
  /\ (forall r0, r0 ∈ from_zero ->
        Timestamp_geb (date r0) (Day 2024 1 1) = true ->
        exists first latest,
          first ∈ from_zero /\ latest ∈ from_zero
          /\ Timestamp_geb (date first) (Day 2024 1 1) = true
          /\ (forall r, r ∈ from_zero ->
                Timestamp_geb (date r) (Day 2024 1 1) = true ->
                Timestamp_le (date first) (date r))
          /\ (forall r, r ∈ from_zero -> Timestamp_le (date r) (date latest))
          /\ YTD_Change
               {| Metric_Name := "GDP"; Current_Value := "5.00";
                  Latest_Date := "2024-02-01"; Units := "N/A"; Frequency := "N/A";
                  Sequential_Change := "5.00"; YTD_Change := "5.00" |}
             = (if true && pd.ne_zero float64 (value first)
                then pd.format_2f float64
                       (pd.times_100 float64
                          (pd.div float64
                             (pd.sub float64 (value latest) (value first))
                             (value first)))
                     +:+ "%"
                else pd.format_2f float64
                       (pd.sub float64 (value latest) (value first)))
          /\ YTD_Change
               {| Metric_Name := "GDP"; Current_Value := "5.00";
                  Latest_Date := "2024-02-01"; Units := "N/A"; Frequency := "N/A";
                  Sequential_Change := "5.00"; YTD_Change := "5.00" |}
             <> "N/A").
Proof.
  apply (ytd_change_cell float64 empty_session true 2024 "GDP" from_zero ∅).
  - simpl. lia.
  - vm_compute. reflexivity.
Defined.

Lemma summary_short_history_witness :
  (take 1 from_zero = [] ->
   Summary.summary_of_frame float64 empty_session true 2024 "GDP"
     (take 1 from_zero) ∅
   = {| Metric_Name := display_name empty_session "GDP";
        Current_Value := "N/A"; Latest_Date := "N/A";
        Units := Summary.info_or_na ∅ "units";
        Frequency := Summary.info_or_na ∅ "frequency";
        Sequential_Change := "N/A"; YTD_Change := "N/A" |})
  /\ (forall r, take 1 from_zero = [r] ->
        (forall text,
           pd.strftime float64 (date r) = Ok text ->
           Summary.summary_of_frame float64 empty_session true 2024 "GDP"
             (take 1 from_zero) ∅
           = {| Metric_Name := display_name empty_session "GDP";
                Current_Value := pd.format_2f float64 (value r);
                Latest_Date := text;
                Units := Summary.info_or_na ∅ "units";
                Frequency := Summary.info_or_na ∅ "frequency";
                Sequential_Change := "N/A"; YTD_Change := "N/A" |})
        /\ (forall e,
              pd.strftime float64 (date r) = Raise e ->
              Summary.summary_of_frame float64 empty_session true 2024 "GDP"
                (take 1 from_zero) ∅
              = {| Metric_Name := display_name empty_session "GDP";
                   Current_Value := "Error"; Latest_Date := "Error";
                   Units := "Error"; Frequency := "Error";
                   Sequential_Change := "Error"; YTD_Change := "Error" |})).
Proof.
  apply (summary_short_history float64 empty_session true 2024 "GDP"
           (take 1 from_zero) ∅).
  simpl. lia.
Defined.

(** The single row of a frame without a date: the "Error" row. *)
Example summary_single_undated :
  Summary.summary_of_frame float64 empty_session true 2024 "GDP"
    [ {| date := NaT; value := 5%float |} ] ∅
  = {| Metric_Name := "GDP"; Current_Value := "Error"; Latest_Date := "Error";
       Units := "Error"; Frequency := "Error"; Sequential_Change := "Error";
       YTD_Change := "Error" |}.
Proof. vm_compute. reflexivity. Qed.

(** The year before 1000 is written as it is. *)
Example summary_early_year :
  Latest_Date
    (Summary.summary_of_frame float64 empty_session true 2024 "GDP"
       [ {| date := Day 999 1 1; value := 5%float |} ] ∅)
  = "999-01-01".
Proof. vm_compute. reflexivity. Qed.

Lemma reachable_distinct_witness :
  NoDup
    (saved_metrics
       (Metrics.save_clicked unrate_only "key"
          {| new_metric := "cpiaucsl"; group_input_type := SelectExisting;
             selected_existing_group := "None"; new_group_name := "" |}
          (Metrics.save_clicked offline "key" pick_labor_form grouped writable).1.1
          writable).1.1).
Proof.
  apply (reachable_distinct
           (Metrics.save_clicked unrate_only "key"
              {| new_metric := "cpiaucsl"; group_input_type := SelectExisting;
                 selected_existing_group := "None"; new_group_name := "" |}
              (Metrics.save_clicked offline "key" pick_labor_form grouped
                 writable).1.1
              writable).1.1).
  apply reachable_save, reachable_save.
  unfold grouped. apply reachable_save, reachable_empty.
Defined.

(** The session reached by these three adds holds three identifiers. *)
Example three_saved_metrics :
  saved_metrics
    (Metrics.save_clicked unrate_only "key"
       {| new_metric := "cpiaucsl"; group_input_type := SelectExisting;
          selected_existing_group := "None"; new_group_name := "" |}
       (Metrics.save_clicked offline "key" pick_labor_form grouped writable).1.1
       writable).1.1
  = ["UNRATE"; "GDP"; "CPIAUCSL"].
Proof. vm_compute. reflexivity. Qed.

Lemma add_then_remove_witness :
  exists after,
    Metrics.remove_metric (PyStr.upper (PyStr.strip "gdp"))
      (Metrics.save_metric offline "key" "gdp" (Some "Labor") grouped writable).1.1
      writable = Ok after
    /\ saved_metrics after.1.1 = saved_metrics grouped
    /\ saved_metrics_names after.1.1 = saved_metrics_names grouped
    /\ saved_metrics_groups after.1.1 = saved_metrics_groups grouped.
Proof.
  apply (add_then_remove offline "key" "gdp" (Some "Labor") grouped writable writable).
  - unfold grouped. apply reachable_save, reachable_empty.
  - vm_compute. discriminate.
  - vm_compute. intros H. inversion H as [| ? ? ? H']. inversion H'.
Defined.
